(** * River Bank bot: a shallow embedding of [bank_bot.py]

    The bot keeps a ledger in a remote spreadsheet (one row per account,
    eight columns), a process-wide manager list [ADMINS] with its file
    [admins.json], and an in-memory dictionary [pending_transfers].  Each
    command handler is embedded as a function from the state of the world
    before the update to the reply it sends and the state afterwards.

    Text is modelled as byte strings; the Python builtins below are given
    for ASCII text (Telegram handles, command arguments, and the decimal
    strings the bot itself writes). *)

From Stdlib Require Import ZArith String Ascii List Lia Bool.
From Stdlib Require Import DecimalString DecimalZ DecimalPos Sorted.
From stdpp Require Import gmap strings list.

Open Scope string_scope.
Open Scope Z_scope.
Open Scope list_scope.

(** ** Python builtins used by the bot *)

Module Py.

Definition nl : ascii := "010"%char.
Definition dquote : ascii := "034"%char.

(** Characters that [int()] skips around a literal in ASCII text: the
    space and the controls 9 to 13. *)
Definition is_space (c : ascii) : bool :=
  let n := nat_of_ascii c in
  ((n =? 32) || ((9 <=? n) && (n <=? 13)))%nat.

(** [s.isascii()]: every character is below 128. *)
Fixpoint isascii (s : string) : bool :=
  match s with
  | EmptyString => true
  | String c s' => (nat_of_ascii c <? 128)%nat && isascii s'
  end.

Fixpoint lstrip_space (s : string) : string :=
  match s with
  | String c s' => if is_space c then lstrip_space s' else s
  | EmptyString => EmptyString
  end.

Fixpoint rstrip_space (s : string) : string :=
  match s with
  | EmptyString => EmptyString
  | String c s' =>
      match rstrip_space s' with
      | EmptyString => if is_space c then EmptyString else String c EmptyString
      | r => String c r
      end
  end.

Definition strip (s : string) : string := rstrip_space (lstrip_space s).

Definition digit_of (c : ascii) : option (Decimal.uint -> Decimal.uint) :=
  match c with
  | "0"%char => Some Decimal.D0 | "1"%char => Some Decimal.D1
  | "2"%char => Some Decimal.D2 | "3"%char => Some Decimal.D3
  | "4"%char => Some Decimal.D4 | "5"%char => Some Decimal.D5
  | "6"%char => Some Decimal.D6 | "7"%char => Some Decimal.D7
  | "8"%char => Some Decimal.D8 | "9"%char => Some Decimal.D9
  | _ => None
  end.

(** Digits of a base-10 literal; a single underscore may separate two
    digits.  [after_digit] tells whether the previous character was a
    digit. *)
Fixpoint parse_digits (after_digit : bool) (s : string) : option Decimal.uint :=
  match s with
  | EmptyString => if after_digit then Some Decimal.Nil else None
  | String c s' =>
      if Ascii.eqb c "_"
      then (if after_digit then parse_digits false s' else None)
      else match digit_of c with
           | Some d => option_map d (parse_digits true s')
           | None => None
           end
  end.

(** [int(s)] for a [str] argument: [None] stands for [ValueError].  On
    ASCII text ([isascii]) this is [int()] exactly.  Text with other
    characters is never read as an integer here, so a result [Some n] is
    always the result of [int()], whereas [None] is the [ValueError] of
    [int()] for ASCII text and for text with a character that no script
    uses as digit, sign or blank, a decimal point for one; [int()] also
    reads the decimal digits and blanks of other scripts. *)
Definition int (s : string) : option Z :=
  match strip s with
  | String "-" r => option_map (fun d => - Z.of_uint d) (parse_digits false r)
  | String "+" r => option_map Z.of_uint (parse_digits false r)
  | t => option_map Z.of_uint (parse_digits false t)
  end.

(** [str(n)] for an [int]. *)
Definition str (z : Z) : string := NilZero.string_of_int (Z.to_int z).

(** [s.lstrip(chars)] for a one-character set. *)
Fixpoint lstrip (c : ascii) (s : string) : string :=
  match s with
  | String a s' => if Ascii.eqb a c then lstrip c s' else s
  | EmptyString => EmptyString
  end.

Definition lower_char (c : ascii) : ascii :=
  let n := nat_of_ascii c in
  if ((65 <=? n) && (n <=? 90))%nat then ascii_of_nat (n + 32) else c.

Fixpoint lower (s : string) : string :=
  match s with
  | EmptyString => EmptyString
  | String c s' => String (lower_char c) (lower s')
  end.

Definition startswith (s p : string) : bool := String.prefix p s.

Fixpoint drop (n : nat) (s : string) : string :=
  match n, s with
  | O, _ => s
  | S n', String _ s' => drop n' s'
  | S _, EmptyString => EmptyString
  end.

(** [s.replace(old, "")] for a non-empty [old]: occurrences are removed
    left to right without overlap; [skip] counts the characters of the
    current occurrence still to be dropped. *)
Fixpoint remove_from (old : string) (skip : nat) (s : string) : string :=
  match s with
  | EmptyString => EmptyString
  | String c s' =>
      match skip with
      | S k => remove_from old k s'
      | O => if String.prefix old s
             then remove_from old (String.length old - 1) s'
             else String c (remove_from old O s')
      end
  end.

Definition remove_all (old s : string) : string := remove_from old O s.

(** [s.split(sep)] for a one-character separator. *)
Fixpoint split (sep : ascii) (s : string) : list string :=
  match s with
  | EmptyString => [EmptyString]
  | String c s' =>
      if Ascii.eqb c sep then EmptyString :: split sep s'
      else match split sep s' with
           | h :: t => String c h :: t
           | [] => [String c EmptyString]
           end
  end.

(** [sep.join(l)]. *)
Fixpoint join (sep : string) (l : list string) : string :=
  match l with
  | [] => EmptyString
  | [x] => x
  | x :: l' => x +:+ sep +:+ join sep l'
  end.

(** [html.escape(s)] with its default [quote=True]. *)
Fixpoint html_escape (s : string) : string :=
  match s with
  | EmptyString => EmptyString
  | String c s' =>
      (if Ascii.eqb c "&" then "&amp;"
       else if Ascii.eqb c "<" then "&lt;"
       else if Ascii.eqb c ">" then "&gt;"
       else if Ascii.eqb c dquote then "&quot;"
       else if Ascii.eqb c "'" then "&#x27;"
       else String c EmptyString) +:+ html_escape s'
  end.

Fixpoint string_rev_onto (s acc : string) : string :=
  match s with
  | EmptyString => acc
  | String c s' => string_rev_onto s' (String c acc)
  end.

(** Groups of three digits from the right, for the [,] format option;
    [s] is the digit string reversed, [k] the digits already in the
    current group. *)
Fixpoint group3 (k : nat) (s acc : string) : string :=
  match s with
  | EmptyString => acc
  | String c s' =>
      match k with
      | 3%nat => group3 1 s' (String c (String "," acc))
      | _ => group3 (S k) s' (String c acc)
      end
  end.

(** [f"{n:,}"] for an [int]. *)
Definition format_commas (z : Z) : string :=
  let digits := str (Z.abs z) in
  let body := group3 0 (string_rev_onto digits EmptyString) EmptyString in
  if z <? 0 then String "-" body else body.

Definition truthy (s : string) : bool :=
  match s with EmptyString => false | _ => true end.

(** [c in s] for a one-character [c]. *)
Fixpoint contains (c : ascii) (s : string) : bool :=
  match s with
  | EmptyString => false
  | String a s' => Ascii.eqb a c || contains c s'
  end.

End Py.

(** ** Data model *)

(** The contribution mapping of column 8, as [json.loads] returns it: a
    Python [dict] from names to integers, in insertion order. *)
Definition dict := list (string * Z).

Fixpoint dict_get (k : string) (d : dict) : option Z :=
  match d with
  | [] => None
  | (k', v) :: d' => if String.eqb k k' then Some v else dict_get k d'
  end.

(** [d[k] = v]: an existing key keeps its position, a new key goes last. *)
Fixpoint dict_set (k : string) (v : Z) (d : dict) : dict :=
  match d with
  | [] => [(k, v)]
  | (k', v') :: d' =>
      if String.eqb k k' then (k, v) :: d' else (k', v') :: dict_set k v d'
  end.

(** [del d[k]]. *)
Fixpoint dict_del (k : string) (d : dict) : dict :=
  match d with
  | [] => []
  | (k', v') :: d' =>
      if String.eqb k k' then d' else (k', v') :: dict_del k d'
  end.

(** Column 8 holds the text written by [json.dumps].  The model keeps the
    decoded value: [json.loads (json.dumps d) = d] for a flat dictionary of
    integers.  [JMalformed] stands for any non-empty text that [json.loads]
    rejects. *)
Inductive JsonCell :=
| JBlank
| JText (d : dict)
| JMalformed.

(** One spreadsheet row; columns 1 to 8 in order (ID, name, username,
    link, balance, last updated, transactions, advance payments).  Text
    cells are strings, the empty string being an empty cell. *)
Record Row := mkRow {
  col_id : string;
  col_name : string;
  col_username : string;
  col_link : string;
  col_balance : string;
  col_updated : string;
  col_tx : string;
  col_advance : JsonCell
}.

Definition blank_row : Row := mkRow "" "" "" "" "" "" "" JBlank.

(** A Telegram user, and [User.full_name]. *)
Record User := mkUser {
  id : Z;
  first_name : string;
  last_name : option string;
  username : option string
}.

Definition full_name (u : User) : string :=
  match last_name u with
  | Some l => if Py.truthy l then first_name u +:+ " " +:+ l else first_name u
  | None => first_name u
  end.

(** A command update: the sender, the author of the message replied to
    (if any) and the arguments after the command. *)
Record Update := mkUpdate {
  effective_user : User;
  reply_to_message : option User;
  args : list string
}.

Record CallbackQuery := mkQuery {
  from_user : User;
  data : string
}.

(** An entry of [pending_transfers]. *)
Record Transfer := mkTransfer {
  sender_id : Z;
  sender_row : nat;
  target_id : string;
  target_row : nat;
  target_name : string;
  amount : Z
}.

(** One reading of the clock: [strftime] is what [format_datetime]
    returns, [timestamp] the text of [datetime.now().timestamp()]. *)
Record Instant := mkInstant {
  strftime : string;
  timestamp : string
}.

Record World := mkWorld {
  sheet : list Row;
  ADMINS : list (option string);
  admins_json : option (list (option string));
  pending_transfers : gmap string Transfer;
  clock : nat -> Instant;
  ticks : nat
}.

Definition with_sheet (sh : list Row) (w : World) : World :=
  mkWorld sh (ADMINS w) (admins_json w) (pending_transfers w) (clock w) (ticks w).
Definition with_ADMINS (a : list (option string)) (w : World) : World :=
  mkWorld (sheet w) a (admins_json w) (pending_transfers w) (clock w) (ticks w).
Definition with_admins_json (f : option (list (option string))) (w : World) : World :=
  mkWorld (sheet w) (ADMINS w) f (pending_transfers w) (clock w) (ticks w).
Definition with_pending (p : gmap string Transfer) (w : World) : World :=
  mkWorld (sheet w) (ADMINS w) (admins_json w) p (clock w) (ticks w).
Definition with_ticks (n : nat) (w : World) : World :=
  mkWorld (sheet w) (ADMINS w) (admins_json w) (pending_transfers w) (clock w) n.

(** What a handler tells the user.  Each constructor is one message of
    the source; the comment gives its text. *)
Inductive Reply :=
(* new *)
| OnlyManagersCreate      (* Only the bank owner or managers can create accounts. *)
| ReplyToCreate           (* Reply to a user to create their account. *)
| AlreadyHasAccount       (* This user already has an account. *)
| AccountCreated (link : string) (uid : Z)
(* add, use *)
| OnlyManagersModify      (* Only the bank owner or managers can modify balances. *)
| UsageReply              (* Usage: /add [amount] (replying to a user) *)
| UserNotFound (name : string)  (* User ... not found. *)
| UsageBoth               (* Usage: Reply ... Mention ... *)
| InvalidAmountInteger    (* Invalid amount. Use an integer. *)
| NoAccountYet            (* No account yet. *)
| Added (name : string) (amt new_balance : Z)
| Deducted (name : string) (amt new_balance : Z)
(* prom, dem *)
| OnlyOwnerPromote | OnlyOwnerDemote
| ReplyToPromote | ReplyToDemote
| OwnerCannotBeModified   (* The owner cannot be modified. *)
| AlreadyManager          (* ... is already a bank manager. *)
| NotManager              (* ... is not a bank manager. *)
| Promoted | Demoted
(* button_callback *)
| UserNotFoundAlert       (* User not found *)
| TransactionHistory (tx_display : string) (total : nat)
| AccountDetails (name handle uid bal breakdown last : string)
| ThanksClosed            (* Thanks for using River Bank! *)
| TransferExpired         (* This transfer has expired or already been processed. *)
| NotYourTransfer         (* This is not your transfer! *)
| InsufficientBalanceCancelled (* Insufficient balance. Transfer cancelled. *)
| TransferSuccessful (amt : Z) (name : string) (new_balance : Z)
| TransferCancelled       (* Transfer cancelled. *)
(* transfer *)
| TransfersDisabled       (* Transfers are disabled for regular users. ... *)
| SenderHasNoAccount      (* You don't have an account yet. ... *)
| UsageTransfer
| InvalidAmountNumber     (* Invalid amount. Use a number. *)
| AmountMustBePositive    (* Amount must be greater than 0. *)
| TargetNotFound (name : string)
| InsufficientBalance (bal : Z)  (* Insufficient balance. You only have ... *)
| CannotTransferToSelf    (* You cannot transfer money to yourself. *)
| TransferConfirmation (transfer_id : string) (amt : Z) (name : string)
                       (bal after : Z)
(* clear *)
| OnlyManagersClear
| UserHasNoAccount        (* This user doesn't have an account. *)
| UsageClear
| AccountCleared (link : string) (uid : Z)
(* a callback that matches no branch *)
| NoReply.

(** Exceptions that escape a handler. *)
Inductive Exn :=
| ValueError | IndexError | JSONDecodeError | APIError.

(** How a handler ends. *)
Inductive Exit :=
| Replied (r : Reply)
| Raised (e : Exn).

(** Handler code: it reads and writes the world and either goes on with a
    value or leaves the handler (a [return] after a reply, or an
    exception) with the world as it is at that point. *)
Definition M (A : Type) : Type := World -> (Exit + A) * World.

Definition ret {A} (a : A) : M A := fun w => (inr a, w).
Definition bind {A B} (m : M A) (k : A -> M B) : M B :=
  fun w => match m w with
           | (inl e, w') => (inl e, w')
           | (inr a, w') => k a w'
           end.
Definition exit {A} (r : Reply) : M A := fun w => (inl (Replied r), w).
Definition raise {A} (e : Exn) : M A := fun w => (inl (Raised e), w).
Definition get {A} (f : World -> A) : M A := fun w => (inr (f w), w).
Definition modify (f : World -> World) : M unit := fun w => (inr tt, f w).

#[global] Instance M_ret : MRet M := @ret.
#[global] Instance M_bind : MBind M := fun A B k m => bind m k.

Definition handler : Type := World -> Exit * World.

(** A handler body returns its last reply. *)
Definition run (m : M Reply) : handler :=
  fun w => match m w with
           | (inl e, w') => (e, w')
           | (inr r, w') => (Replied r, w')
           end.

(** ** Configuration *)

Definition OWNER_ID : Z := 1768830793.
Definition INITIAL_ADMINS : list (option string) := [Some "reviosa"; Some "zaonoror"].
Definition CURRENCY : string := "₱".

(** ** The spreadsheet, through [gspread]

    Rows are numbered from 1.  The table is the list of its rows; a cell
    outside the table reads as empty, and writing one extends the table
    with empty rows.  A cell reads back as the text that was written to
    it, an integer as its decimal text. *)

Definition text_cell (x : Row) (c : nat) : string :=
  match c with
  | 1 => col_id x | 2 => col_name x | 3 => col_username x | 4 => col_link x
  | 5 => col_balance x | 6 => col_updated x | 7 => col_tx x
  | _ => ""
  end%nat.

Definition set_text_cell (c : nat) (v : string) (x : Row) : Row :=
  match c with
  | 1 => mkRow v (col_name x) (col_username x) (col_link x) (col_balance x)
               (col_updated x) (col_tx x) (col_advance x)
  | 2 => mkRow (col_id x) v (col_username x) (col_link x) (col_balance x)
               (col_updated x) (col_tx x) (col_advance x)
  | 3 => mkRow (col_id x) (col_name x) v (col_link x) (col_balance x)
               (col_updated x) (col_tx x) (col_advance x)
  | 4 => mkRow (col_id x) (col_name x) (col_username x) v (col_balance x)
               (col_updated x) (col_tx x) (col_advance x)
  | 5 => mkRow (col_id x) (col_name x) (col_username x) (col_link x) v
               (col_updated x) (col_tx x) (col_advance x)
  | 6 => mkRow (col_id x) (col_name x) (col_username x) (col_link x)
               (col_balance x) v (col_tx x) (col_advance x)
  | 7 => mkRow (col_id x) (col_name x) (col_username x) (col_link x)
               (col_balance x) (col_updated x) v (col_advance x)
  | _ => x
  end%nat.

Definition set_advance (v : JsonCell) (x : Row) : Row :=
  mkRow (col_id x) (col_name x) (col_username x) (col_link x) (col_balance x)
        (col_updated x) (col_tx x) v.

(** The row stored at (1-based) row number [r]. *)
Definition row_at (sh : list Row) (r : nat) : option Row :=
  match r with
  | O => None
  | S i => Some (default blank_row (sh !! i))
  end.

(** Row at index [i] rewritten by [f], the table growing when needed. *)
Definition write_row (i : nat) (f : Row -> Row) (sh : list Row) : list Row :=
  <[i := f (default blank_row (sh !! i))]>
    (sh ++ replicate (S i - length sh) blank_row).

(** [sheet.cell(r, c).value] for the text columns.  An empty cell is
    read as the empty text.  The library gives [None] for it, which the
    code cannot tell from the empty text where it tests the value for
    truth; under [int()] the two differ ([TypeError] for [None]), so the
    properties about a failing [int()] of a cell leave the empty cell
    out. *)
Definition cell (r c : nat) : M string :=
  fun w => match row_at (sheet w) r with
           | Some x => (inr (text_cell x c), w)
           | None => (inl (Raised APIError), w)
           end.

(** [sheet.cell(r, 8).value]. *)
Definition cell8 (r : nat) : M JsonCell :=
  fun w => match row_at (sheet w) r with
           | Some x => (inr (col_advance x), w)
           | None => (inl (Raised APIError), w)
           end.

(** [sheet.update_cell(r, c, v)] for the text columns. *)
Definition update_cell (r c : nat) (v : string) : M unit :=
  fun w => match r with
           | O => (inl (Raised APIError), w)
           | S i => (inr tt, with_sheet (write_row i (set_text_cell c v) (sheet w)) w)
           end.

(** [sheet.update_cell(r, 8, v)]. *)
Definition update_cell8 (r : nat) (v : JsonCell) : M unit :=
  fun w => match r with
           | O => (inl (Raised APIError), w)
           | S i => (inr tt, with_sheet (write_row i (set_advance v) (sheet w)) w)
           end.

(** Trailing empty values are not returned by the spreadsheet API. *)
Fixpoint trim_blank (l : list string) : list string :=
  match l with
  | [] => []
  | x :: l' =>
      match trim_blank l' with
      | [] => if Py.truthy x then [x] else []
      | t => x :: t
      end
  end.

(** [sheet.col_values(c)]. *)
Definition col_values (sh : list Row) (c : nat) : list string :=
  trim_blank (map (fun x => text_cell x c) sh).

(** [sheet.row_values(r)]: the row, whose values are read with [item]. *)
Definition row_values (r : nat) : M Row :=
  fun w => match row_at (sheet w) r with
           | Some x => (inr x, w)
           | None => (inl (Raised APIError), w)
           end.

Definition row_len (x : Row) : nat :=
  match col_advance x with
  | JBlank => length (trim_blank (map (text_cell x) (seq 1 7)))
  | _ => 8
  end.

(** [data[k]] for [data = sheet.row_values(r)] and [k] from 0 to 6. *)
Definition item (x : Row) (k : nat) : M string :=
  if (k <? row_len x)%nat then ret (text_cell x (S k)) else raise IndexError.

(** [sheet.append_row(...)]. *)
Definition append_row (x : Row) : M unit :=
  modify (fun w => with_sheet (sheet w ++ [x]) w).

(** ** Helpers *)

Fixpoint index_where {A} (p : A -> bool) (l : list A) : option nat :=
  match l with
  | [] => None
  | x :: l' => if p x then Some O else option_map S (index_where p l')
  end.

(** The helpers that only read take the sheet (or the world) they read
    as an argument. *)
Definition find_user_row (sh : list Row) (user_id : Z) : option nat :=
  let data := col_values sh 1 in
  option_map S (index_where (fun val => String.eqb val (Py.str user_id)) data).

Definition format_datetime : M string :=
  fun w => (inr (strftime (clock w (ticks w))), with_ticks (S (ticks w)) w).

(** [datetime.now().timestamp()], as text. *)
Definition now_timestamp : M string :=
  fun w => (inr (timestamp (clock w (ticks w))), with_ticks (S (ticks w)) w).

Definition format_money (n : Z) : string := CURRENCY +:+ Py.format_commas n.

Definition can_modify (w : World) (user : User) : bool :=
  (id user =? OWNER_ID) || bool_decide (username user ∈ ADMINS w).

Definition save_admins : M unit :=
  modify (fun w => with_admins_json (Some (ADMINS w)) w).

Definition find_user_by_username (sh : list Row) (name : string) : option nat :=
  let name := Py.lstrip "@" name in
  let data := col_values sh 3 in
  option_map S
    (index_where
       (fun val => String.eqb (Py.lower (Py.lstrip "@" val)) (Py.lower name))
       data).

(** [int(s)], leaving through [on_error] where Python raises. *)
Definition int_or (on_error : M Z) (s : string) : M Z :=
  match Py.int s with
  | Some z => mret z
  | None => on_error
  end.

(** [json.loads(v) if v else {}]. *)
Definition loads_or_empty (v : JsonCell) : M dict :=
  match v with
  | JBlank => mret []
  | JText d => mret d
  | JMalformed => raise JSONDecodeError
  end.

(** A log entry: [f"{now} + {CURRENCY}{amount} {label}"], or the same
    with [-]. *)
Definition tx_entry (now sign : string) (amount : Z) (label : string) : string :=
  now +:+ " " +:+ sign +:+ " " +:+ CURRENCY +:+ Py.str amount +:+ " " +:+ label.

(** A new entry goes in front of the log. *)
Definition prepend_tx (entry prev_tx : string) : string :=
  if Py.truthy prev_tx then entry +:+ String Py.nl prev_tx else entry.

(** [sorted(items, key=value, reverse=True)]: stable, largest first. *)
Fixpoint insert_desc (x : string * Z) (l : list (string * Z)) : list (string * Z) :=
  match l with
  | [] => [x]
  | y :: l' => if snd y <=? snd x then x :: l else y :: insert_desc x l'
  end.

Definition sorted_desc (l : list (string * Z)) : list (string * Z) :=
  foldr insert_desc [] l.

Definition breakdown_line (kv : string * Z) : string :=
  "☁️ " +:+ fst kv +:+ ": " +:+ format_money (snd kv) +:+ String Py.nl "".

Definition get_contribution_breakdown (sh : list Row) (r : nat) : string :=
  match row_at sh r with
  | None => ""
  | Some x =>
      match col_advance x with
      | JBlank => ""
      | JMalformed => ""
      | JText d => String.concat "" (map breakdown_line (sorted_desc d))
      end
  end.

(** ** Commands *)

Definition profile_link (uid : Z) (name : string) : string :=
  "<a href='tg://user?id=" +:+ Py.str uid +:+ "'>" +:+ Py.html_escape name +:+ "</a>".

Definition new (update : Update) : handler := run (
  ok ← get (fun w => can_modify w (effective_user update));
  if negb ok then exit OnlyManagersCreate else
  match reply_to_message update with
  | None => exit ReplyToCreate
  | Some target =>
      row ← get (fun w => find_user_row (sheet w) (id target));
      match row with
      | Some _ => exit AlreadyHasAccount
      | None =>
          let name :=
            if Py.truthy (full_name target) then full_name target
            else first_name target in
          let handle :=
            match username target with
            | Some h => if Py.truthy h then "@" +:+ h else ""
            | None => ""
            end in
          let link := profile_link (id target) (first_name target) in
          now ← format_datetime;
          append_row (mkRow (Py.str (id target)) name handle link "0" now "" JBlank);;
          mret (AccountCreated link (id target))
      end
  end).

(** Who a balance command acts on: the author of the replied message, or
    the row found for the mentioned handle. *)
Inductive Target :=
| ByReply (target : User)
| ByMention (row : nat).

(** The part [add] and [use] share once the row is known: the balance,
    the timestamp and the log are rewritten. *)
Definition write_balance (row : nat) (sign : string) (delta amount : Z)
    (label : string) : M Z :=
  balance_text ← cell row 5;
  current_balance ← int_or (raise ValueError) balance_text;
  let new_balance := current_balance + delta in
  update_cell row 5 (Py.str new_balance);;
  now ← format_datetime;
  update_cell row 6 now;;
  prev_tx ← cell row 7;
  now ← format_datetime;
  update_cell row 7 (prepend_tx (tx_entry now sign amount label) prev_tx);;
  mret new_balance.

Definition add (update : Update) : handler := run (
  ok ← get (fun w => can_modify w (effective_user update));
  if negb ok then exit OnlyManagersModify else
  '(amount_arg, target) ←
    match reply_to_message update with
    | Some target =>
        match args update with
        | [] => exit UsageReply
        | a :: _ => mret (a, ByReply target)
        end
    | None =>
        match args update with
        | a0 :: a1 :: _ =>
            if Py.startswith a0 "@" then
              target_row ← get (fun w => find_user_by_username (sheet w) a0);
              match target_row with
              | None => exit (UserNotFound a0)
              | Some row =>
                  target_data ← row_values row;
                  _ ← item target_data 0;
                  _ ← item target_data 1;
                  mret (a1, ByMention row)
              end
            else exit UsageBoth
        | _ => exit UsageBoth
        end
    end;
  amount ← int_or (exit InvalidAmountInteger) amount_arg;
  '(row, target_first_name) ←
    match target with
    | ByReply target =>
        row ← get (fun w => find_user_row (sheet w) (id target));
        match row with
        | None => exit NoAccountYet
        | Some row => mret (row, first_name target)
        end
    | ByMention row =>
        target_data ← row_values row;
        name ← item target_data 1;
        _ ← item target_data 0;
        mret (row, name)
    end;
  let admin_name := first_name (effective_user update) in
  new_balance ← write_balance row "+" amount amount admin_name;
  advance_json ← cell8 row;
  contributions ← loads_or_empty advance_json;
  update_cell8 row
    (JText (dict_set admin_name
              (default 0 (dict_get admin_name contributions) + amount)
              contributions));;
  mret (Added target_first_name amount new_balance)).

Definition use (update : Update) : handler := run (
  ok ← get (fun w => can_modify w (effective_user update));
  if negb ok then exit OnlyManagersModify else
  '(amount_arg, target) ←
    match reply_to_message update with
    | Some target =>
        match args update with
        | [] => exit UsageReply
        | a :: _ => mret (a, ByReply target)
        end
    | None =>
        match args update with
        | a0 :: a1 :: _ =>
            if Py.startswith a0 "@" then
              row ← get (fun w => find_user_by_username (sheet w) a0);
              match row with
              | None => exit (UserNotFound a0)
              | Some row => mret (a1, ByMention row)
              end
            else exit UsageBoth
        | _ => exit UsageBoth
        end
    end;
  amount ← int_or (exit InvalidAmountInteger) amount_arg;
  '(row, target_first_name) ←
    match target with
    | ByReply target =>
        row ← get (fun w => find_user_row (sheet w) (id target));
        match row with
        | None => exit NoAccountYet
        | Some row => mret (row, first_name target)
        end
    | ByMention row =>
        target_data ← row_values row;
        name ← item target_data 1;
        _ ← item target_data 0;
        mret (row, name)
    end;
  let admin_name := first_name (effective_user update) in
  new_balance ← write_balance row "-" (- amount) amount admin_name;
  contrib_json ← cell8 row;
  contributions ← loads_or_empty contrib_json;
  match dict_get admin_name contributions with
  | Some v =>
      let v' := v - amount in
      update_cell8 row
        (JText (if v' <=? 0 then dict_del admin_name contributions
                else dict_set admin_name v' contributions))
  | None => mret tt
  end;;
  mret (Deducted target_first_name amount new_balance)).

(** [ADMINS.remove(x)]: the first occurrence goes. *)
Fixpoint list_remove (x : option string) (l : list (option string))
    : list (option string) :=
  match l with
  | [] => []
  | y :: l' => if bool_decide (x = y) then l' else y :: list_remove x l'
  end.

Definition prom (update : Update) : handler := run (
  if negb (id (effective_user update) =? OWNER_ID) then exit OnlyOwnerPromote else
  match reply_to_message update with
  | None => exit ReplyToPromote
  | Some target =>
      if id target =? OWNER_ID then exit OwnerCannotBeModified else
      admins ← get ADMINS;
      if bool_decide (username target ∈ admins) then exit AlreadyManager else
      modify (fun w => with_ADMINS (ADMINS w ++ [username target]) w);;
      save_admins;;
      mret Promoted
  end).

Definition dem (update : Update) : handler := run (
  if negb (id (effective_user update) =? OWNER_ID) then exit OnlyOwnerDemote else
  match reply_to_message update with
  | None => exit ReplyToDemote
  | Some target =>
      if id target =? OWNER_ID then exit OwnerCannotBeModified else
      admins ← get ADMINS;
      if negb (bool_decide (username target ∈ admins)) then exit NotManager else
      modify (fun w => with_ADMINS (list_remove (username target) (ADMINS w)) w);;
      save_admins;;
      mret Demoted
  end).

(** ** Button callbacks *)

(** [data.split("_")[1]]. *)
Definition second_field (s : string) : M string :=
  match Py.split "_" s with
  | _ :: x :: _ => mret x
  | _ => raise IndexError
  end.

(** The log as the history view lists it. *)
Definition tx_list (transactions : string) : list string :=
  if Py.truthy transactions then Py.split Py.nl transactions else [].

Definition tx_display (l : list string) : string :=
  match l with
  | [] | [EmptyString] => "No transactions yet."
  | _ => Py.join (String Py.nl "") (map (fun t => "• " +:+ t) (take 10 l))
  end.

Definition confirm_transfer (user : User) (transfer_id : string) : M Reply :=
  pending ← get pending_transfers;
  match pending !! transfer_id with
  | None => exit TransferExpired
  | Some transfer_data =>
      if negb (sender_id transfer_data =? id user) then exit NotYourTransfer else
      balance_text ← cell (sender_row transfer_data) 5;
      sender_balance ← int_or (raise ValueError) balance_text;
      if sender_balance <? amount transfer_data then
        modify (fun w => with_pending (delete transfer_id (pending_transfers w)) w);;
        mret InsufficientBalanceCancelled
      else
        let amount := amount transfer_data in
        let target_row := target_row transfer_data in
        let target_name := target_name transfer_data in
        let new_sender_balance := sender_balance - amount in
        update_cell (sender_row transfer_data) 5 (Py.str new_sender_balance);;
        now ← format_datetime;
        update_cell (sender_row transfer_data) 6 now;;
        prev_tx ← cell (sender_row transfer_data) 7;
        now ← format_datetime;
        update_cell (sender_row transfer_data) 7
          (prepend_tx (tx_entry now "-" amount target_name) prev_tx);;
        balance_text ← cell target_row 5;
        target_balance ← int_or (raise ValueError) balance_text;
        let new_target_balance := target_balance + amount in
        update_cell target_row 5 (Py.str new_target_balance);;
        now ← format_datetime;
        update_cell target_row 6 now;;
        sender_name ← cell (sender_row transfer_data) 2;
        prev_tx_target ← cell target_row 7;
        now ← format_datetime;
        update_cell target_row 7
          (prepend_tx (tx_entry now "+" amount sender_name) prev_tx_target);;
        modify (fun w => with_pending (delete transfer_id (pending_transfers w)) w);;
        mret (TransferSuccessful amount target_name new_sender_balance)
  end.

Definition cancel_transfer (user : User) (transfer_id : string) : M Reply :=
  pending ← get pending_transfers;
  match pending !! transfer_id with
  | Some transfer_data =>
      if negb (sender_id transfer_data =? id user) then exit NotYourTransfer else
      modify (fun w => with_pending (delete transfer_id (pending_transfers w)) w)
  | None => mret tt
  end;;
  mret TransferCancelled.

Definition button_callback (query : CallbackQuery) : handler := run (
  let user := from_user query in
  let data := data query in
  if Py.startswith data "tx_" then
    target_id_str ← second_field data;
    target_id ← int_or (raise ValueError) target_id_str;
    target_row ← get (fun w => find_user_row (sheet w) target_id);
    match target_row with
    | None => exit UserNotFoundAlert
    | Some target_row =>
        transactions ← cell target_row 7;
        _ ← cell target_row 5;
        let l := tx_list transactions in
        mret (TransactionHistory (tx_display l) (length l))
    end
  else if Py.startswith data "back_" then
    target_id_str ← second_field data;
    target_id ← int_or (raise ValueError) target_id_str;
    target_row ← get (fun w => find_user_row (sheet w) target_id);
    match target_row with
    | None => exit UserNotFoundAlert
    | Some target_row =>
        data_row ← row_values target_row;
        name ← item data_row 1;
        handle ← item data_row 2;
        _ ← item data_row 3;
        balance ← item data_row 4;
        last ← item data_row 5;
        user_id ← item data_row 0;
        breakdown_text ← get (fun w => get_contribution_breakdown (sheet w) target_row);
        balance ← int_or (raise ValueError) balance;
        mret (AccountDetails name handle user_id (format_money balance)
                             breakdown_text last)
    end
  else if Py.startswith data "close_" then mret ThanksClosed
  else if Py.startswith data "confirm_" then
    confirm_transfer user (Py.remove_all "confirm_" data)
  else if Py.startswith data "cancel_" then
    cancel_transfer user (Py.remove_all "cancel_" data)
  else mret NoReply).

(** ** Transfers *)

Definition transfer (update : Update) : handler := run (
  let user := effective_user update in
  ok ← get (fun w => can_modify w user);
  if negb ok then exit TransfersDisabled else
  sender_row ← get (fun w => find_user_row (sheet w) (id user));
  match sender_row with
  | None => exit SenderHasNoAccount
  | Some sender_row =>
      match args update with
      | target_username :: amount_arg :: _ =>
          amount ← int_or (exit InvalidAmountNumber) amount_arg;
          if amount <=? 0 then exit AmountMustBePositive else
          target_row ← get (fun w => find_user_by_username (sheet w) target_username);
          match target_row with
          | None => exit (TargetNotFound target_username)
          | Some target_row =>
              balance_text ← cell sender_row 5;
              sender_balance ← int_or (raise ValueError) balance_text;
              if sender_balance <? amount then exit (InsufficientBalance sender_balance) else
              target_data ← row_values target_row;
              target_name ← item target_data 1;
              target_id ← item target_data 0;
              if String.eqb target_id (Py.str (id user)) then exit CannotTransferToSelf else
              stamp ← now_timestamp;
              let transfer_id :=
                Py.str (id user) +:+ "_" +:+ target_id +:+ "_" +:+ Py.str amount
                  +:+ "_" +:+ stamp in
              modify (fun w =>
                with_pending
                  (<[transfer_id :=
                       mkTransfer (id user) sender_row target_id target_row
                                  target_name amount]> (pending_transfers w)) w);;
              mret (TransferConfirmation transfer_id amount target_name
                      sender_balance (sender_balance - amount))
          end
      | _ => exit UsageTransfer
      end
  end).

(** ** Clearing an account *)

Definition clear (update : Update) : handler := run (
  ok ← get (fun w => can_modify w (effective_user update));
  if negb ok then exit OnlyManagersClear else
  match reply_to_message update with
  | None => exit UsageClear
  | Some target =>
      target_row ← get (fun w => find_user_row (sheet w) (id target));
      match target_row with
      | None => exit UserHasNoAccount
      | Some target_row =>
          _ ← cell target_row 2;
          _ ← cell target_row 1;
          let t_id := id target in
          let t_name := first_name target in
          let t_link := profile_link t_id t_name in
          update_cell target_row 5 "0";;
          now ← format_datetime;
          update_cell target_row 6 now;;
          update_cell target_row 7 "";;
          update_cell8 target_row JBlank;;
          mret (AccountCleared t_link t_id)
      end
  end).

(** ** Account views

    [bal] and [check] only read the sheet.  Their answers carry the
    callback data of the two buttons under the message. *)

Inductive View :=
| NoAccountUseNew          (* No account yet. Use /new to create one! *)
| OnlyManagersCheck        (* Only the bank owner or managers can check other accounts. *)
| CheckedHasNoAccount      (* This user doesn't have an account. *)
| CheckedNotFound (name : string)  (* User ... not found. *)
| UsageCheck
| OwnAccount (name handle : string) (uid : Z) (balance last : string)
             (tx_data close_data : string)
| CheckedAccount (name handle uid balance breakdown last : string)
                 (tx_data close_data : string).

Definition bal (update : Update) : M View :=
  let user := effective_user update in
  row ← get (fun w => find_user_row (sheet w) (id user));
  match row with
  | None => mret NoAccountUseNew
  | Some row =>
      data ← row_values row;
      name ← item data 1;
      handle ← item data 2;
      _ ← item data 3;
      balance ← item data 4;
      last ← item data 5;
      balance ← int_or (raise ValueError) balance;
      mret (OwnAccount name handle (id user) (format_money balance) last
              ("tx_" +:+ Py.str (id user)) ("close_" +:+ Py.str (id user)))
  end.

(** The display part of [check], for the row found. *)
Definition check_display (target_row : nat) : M View :=
  data ← row_values target_row;
  name ← item data 1;
  handle ← item data 2;
  _ ← item data 3;
  balance ← item data 4;
  last ← item data 5;
  user_id ← item data 0;
  breakdown_text ← get (fun w => get_contribution_breakdown (sheet w) target_row);
  balance ← int_or (raise ValueError) balance;
  mret (CheckedAccount name handle user_id (format_money balance)
          breakdown_text last ("tx_" +:+ user_id) ("close_" +:+ user_id)).

Definition check (update : Update) : M View :=
  ok ← get (fun w => can_modify w (effective_user update));
  if negb ok then mret OnlyManagersCheck else
  match reply_to_message update with
  | Some target =>
      target_row ← get (fun w => find_user_row (sheet w) (id target));
      match target_row with
      | None => mret CheckedHasNoAccount
      | Some target_row => check_display target_row
      end
  | None =>
      match args update with
      | target_username :: _ =>
          if Py.startswith target_username "@" then
            target_row ← get (fun w => find_user_by_username (sheet w) target_username);
            match target_row with
            | None => mret (CheckedNotFound target_username)
            | Some target_row => check_display target_row
            end
          else mret UsageCheck
      | [] => mret UsageCheck
      end
  end.

(** ** Process start

    The module body: [ADMINS] and [pending_transfers] get their literal
    values; the spreadsheet and the files on disk are what they were. *)
Definition startup (w : World) : World :=
  mkWorld (sheet w) INITIAL_ADMINS (admins_json w) ∅ (clock w) (ticks w).

(** ** The running bot

    The updates the application dispatches to the handlers above (the
    other commands only read).  A run of the bot is a sequence of updates
    handled one after the other from the state at process start. *)
Inductive Event :=
| OnNew (update : Update)
| OnAdd (update : Update)
| OnUse (update : Update)
| OnProm (update : Update)
| OnDem (update : Update)
| OnTransfer (update : Update)
| OnClear (update : Update)
| OnButton (query : CallbackQuery).

Definition dispatch (e : Event) : handler :=
  match e with
  | OnNew u => new u
  | OnAdd u => add u
  | OnUse u => use u
  | OnProm u => prom u
  | OnDem u => dem u
  | OnTransfer u => transfer u
  | OnClear u => clear u
  | OnButton q => button_callback q
  end.

Definition run_events (es : list Event) (w : World) : World :=
  foldl (fun w e => snd (dispatch e w)) w es.

(** ** A sample ledger

    A small state of the world on which the handlers can be run: a header
    row and three accounts, the manager Rev having two transfers to Bob
    awaiting confirmation. *)

Module Sample.

Definition the_clock : nat -> Instant :=
  fun _ => mkInstant "11-04-2026, 09:15 AM" "1793783700.25".

Definition riv : User := mkUser OWNER_ID "Riv" None (Some "riv").
Definition rev : User := mkUser 7 "Rev" None (Some "reviosa").
Definition ava : User := mkUser 42 "Ava" None (Some "ava").
Definition bob : User := mkUser 43 "Bob" None (Some "bob").
Definition cy : User := mkUser 44 "Cy" None (Some "cy").

Definition ledger : list Row :=
  [ mkRow "ID" "Name" "Username" "Link" "Balance" "Last Updated"
          "Transactions" JBlank;
    mkRow "42" "Ava" "@ava" (profile_link 42 "Ava") "500"
          "11-03-2026, 08:00 PM" "11-03-2026, 08:00 PM + ₱500 Riv"
          (JText [("Riv", 500)]);
    mkRow "43" "Bob" "@bob" (profile_link 43 "Bob") "0"
          "11-02-2026, 07:30 AM" "" JBlank;
    mkRow "7" "Rev" "@reviosa" (profile_link 7 "Rev") "300"
          "11-03-2026, 09:00 PM" "11-03-2026, 09:00 PM + ₱300 Riv"
          (JText [("Riv", 300)]) ].

Definition small_id : string := "7_43_200_1793783700.25".
Definition large_id : string := "7_43_900_1793783700.25".

Definition transfers : gmap string Transfer :=
  <[small_id := mkTransfer 7 4 "43" 3 "Bob" 200]>
    (<[large_id := mkTransfer 7 4 "43" 3 "Bob" 900]> ∅).

Definition world : World :=
  mkWorld ledger INITIAL_ADMINS None transfers the_clock 0.

End Sample.

(** ** Vocabulary of the properties *)

(** The command names, by a reply or by a mention, the account of row
    [r] and gives [a] as its amount argument; [name] is how the reply
    calls the account holder. *)
Definition addresses (w : World) (update : Update) (a : string) (r : nat)
    (name : string) : Prop :=
  match reply_to_message update with
  | Some target =>
      (exists rest, args update = a :: rest) /\
      find_user_row (sheet w) (id target) = Some r /\
      name = first_name target
  | None =>
      exists a0 rest x,
        args update = a0 :: a :: rest /\
        Py.startswith a0 "@" = true /\
        find_user_by_username (sheet w) a0 = Some r /\
        row_at (sheet w) r = Some x /\
        (2 <= row_len x)%nat /\
        name = col_name x
  end.

(** The dictionary a contributions cell decodes to. *)
Definition decoded (v : JsonCell) : option dict :=
  match v with
  | JBlank => Some []
  | JText d => Some d
  | JMalformed => None
  end.

(** The update rule for contributions in the words of the specification:
    [contributions[actor] += signed], the entry being deleted when the
    result is not positive. *)
Definition spec_contributions (actor : string) (signed : Z) (d : dict) : dict :=
  let v := default 0 (dict_get actor d) + signed in
  if v <=? 0 then dict_del actor d else dict_set actor v d.

(** Text none of whose characters is a blank. *)
Definition solid (s : string) : Prop :=
  forall c, Py.contains c s = true -> Py.is_space c = false.

(** Text without a line break. *)
Definition one_line (s : string) : Prop := Py.contains Py.nl s = false.

(** A mapping all of whose entries are positive. *)
Definition all_positive (d : dict) : Prop := Forall (fun kv => 0 < snd kv) d.

(** The command comes to reading the amount text [a].  Sent in reply,
    it has [a] as its first argument; otherwise its first argument starts
    with [@] and is found in some row, [a] is the second argument, and the
    row has the [cells] leading cells that the command reads before the
    amount: two for [add], none for [use]. *)
Definition reads_amount (cells : nat) (w : World) (update : Update)
    (a : string) : Prop :=
  match reply_to_message update with
  | Some _ => exists rest, args update = a :: rest
  | None =>
      exists a0 rest r x,
        args update = a0 :: a :: rest /\
        Py.startswith a0 "@" = true /\
        find_user_by_username (sheet w) a0 = Some r /\
        row_at (sheet w) r = Some x /\
        (cells <= row_len x)%nat
  end.

(** A proposal between two different rows, for a positive amount. *)
Definition proposal_ok (t : Transfer) : Prop :=
  sender_row t <> target_row t /\ 0 < amount t.

Definition pending_ok (w : World) : Prop :=
  forall k t, pending_transfers w !! k = Some t -> proposal_ok t.

(** Handler code that adds nothing to [pending_transfers]. *)
Definition proposes_nothing {A} (m : M A) : Prop :=
  forall w, pending_transfers (snd (m w)) ⊆ pending_transfers w.

(** ** Vocabulary of the further properties *)

(** The identity columns of a row: id, name, username and link. *)
Definition ident (x : Row) : string * string * string * string :=
  (col_id x, col_name x, col_username x, col_link x).

(** Column [c] (1 to 4) read from the identity columns. *)
Definition ident_cell (c : nat) (t : string * string * string * string) : string :=
  text_cell (mkRow t.1.1.1 t.1.1.2 t.1.2 t.2 "" "" "" JBlank) c.

(** [sh'] has the rows of [sh] with the same identity columns, possibly
    followed by further rows. *)
Definition extends (sh sh' : list Row) : Prop :=
  (ident <$> sh) `prefix_of` (ident <$> sh').

(** The same, the further rows having empty identity columns. *)
Definition pads (sh sh' : list Row) : Prop :=
  exists k, ident <$> sh' = (ident <$> sh) ++ replicate k (ident blank_row).

(** A step that leaves the manager list, its file, the clock and the
    identity columns alone and proposes no transfer. *)
Definition quiet (w w' : World) : Prop :=
  ADMINS w' = ADMINS w /\ admins_json w' = admins_json w
  /\ clock w' = clock w
  /\ pending_transfers w' ⊆ pending_transfers w
  /\ pads (sheet w) (sheet w').

Definition keeps_quiet {A} (m : M A) : Prop := forall w, quiet w (snd (m w)).

(** A balance command sent in reply to a message of the account holder:
    [/add n] or [/use n] by [op_actor]. *)
Record BalanceOp := mkOp {
  op_add : bool;
  op_actor : User;
  op_amount : Z
}.

Definition op_event (target : User) (o : BalanceOp) : Event :=
  let update := mkUpdate (op_actor o) (Some target) [Py.str (op_amount o)] in
  if op_add o then OnAdd update else OnUse update.

(** The signed amount of a command, and the sum over a sequence. *)
Definition op_delta (o : BalanceOp) : Z :=
  if op_add o then op_amount o else - op_amount o.

Definition sum_deltas (ops : list BalanceOp) : Z :=
  foldr (fun o acc => op_delta o + acc) 0 ops.

(** A proposal whose rows hold the accounts it names: the sender's id is
    found in [sender_row], and [target_row] is a row of the table with the
    proposal's target id and name, which is not the sender's id. *)
Definition points_at (sh : list Row) (t : Transfer) : Prop :=
  find_user_row sh (sender_id t) = Some (sender_row t)
  /\ target_id t <> Py.str (sender_id t)
  /\ exists i y, target_row t = S i /\ sh !! i = Some y
                 /\ col_id y = target_id t /\ col_name y = target_name t.

(** * Properties *)

(** ** Examples of the builtins *)

Example int_plain : Py.int "500" = Some 500. Proof. reflexivity. Qed.
Example int_neg : Py.int "-12" = Some (-12). Proof. reflexivity. Qed.
Example int_underscore : Py.int "1_000" = Some 1000. Proof. reflexivity. Qed.
Example int_bad_underscore : Py.int "1__0" = None. Proof. reflexivity. Qed.
Example int_fraction : Py.int "1.5" = None. Proof. reflexivity. Qed.
Example int_empty : Py.int "" = None. Proof. reflexivity. Qed.
Example int_spaces : Py.int " 7 " = Some 7. Proof. reflexivity. Qed.
Example str_neg : Py.str (-100) = "-100". Proof. reflexivity. Qed.
Example commas_big : Py.format_commas 1234567 = "1,234,567". Proof. reflexivity. Qed.
Example commas_small : Py.format_commas (-999) = "-999". Proof. reflexivity. Qed.
Example commas_1000 : Py.format_commas 1000 = "1,000". Proof. reflexivity. Qed.
Example remove_prefix :
  Py.remove_all "confirm_" "confirm_42_7_5_1.5" = "42_7_5_1.5".
Proof. reflexivity. Qed.
Example split_two : Py.split Py.nl ("a" +:+ String Py.nl "b") = ["a"; "b"].
Proof. reflexivity. Qed.
Example escape_amp : Py.html_escape "a&b<c" = "a&amp;b&lt;c". Proof. reflexivity. Qed.


(** ** Decimal text *)

Section DecimalText.

Lemma parse_digits_print (d : Decimal.uint) (b : bool) :
  b = true \/ d <> Decimal.Nil ->
  Py.parse_digits b (NilEmpty.string_of_uint d) = Some d.
Proof.
  revert b.
  induction d; intros b Hb; simpl;
    try (rewrite IHd by (left; reflexivity); reflexivity).
  destruct Hb as [-> | Hd]; [reflexivity | congruence].
Qed.

Lemma contains_cons (c a : ascii) (s : string) :
  Py.contains c (String a s) = Ascii.eqb a c || Py.contains c s.
Proof. reflexivity. Qed.

Lemma solid_cons (c : ascii) (s : string) :
  Py.is_space c = false -> solid s -> solid (String c s).
Proof.
  intros Hc Hs a Ha. rewrite contains_cons in Ha.
  apply orb_true_iff in Ha as [Ha | Ha]; auto.
  apply Ascii.eqb_eq in Ha. now subst a.
Qed.

Lemma solid_uint (d : Decimal.uint) : solid (NilEmpty.string_of_uint d).
Proof.
  induction d; cbn [NilEmpty.string_of_uint];
    try (apply solid_cons; [reflexivity | assumption]).
  intros c Hc. discriminate.
Qed.

Lemma solid_tail (c : ascii) (s : string) : solid (String c s) -> solid s.
Proof. intros H a Ha. apply H. rewrite contains_cons, Ha. apply orb_true_r. Qed.

Lemma solid_head (c : ascii) (s : string) :
  solid (String c s) -> Py.is_space c = false.
Proof. intros H. apply H. rewrite contains_cons. now rewrite Ascii.eqb_refl. Qed.

Lemma rstrip_solid (s : string) : solid s -> Py.rstrip_space s = s.
Proof.
  induction s as [| c s IH]; intros H; [reflexivity |].
  simpl. rewrite IH by (eapply solid_tail; eauto).
  rewrite (solid_head _ _ H). now destruct s.
Qed.

Lemma lstrip_solid (s : string) : solid s -> Py.lstrip_space s = s.
Proof.
  destruct s as [| c s]; intros H; [reflexivity |].
  simpl. now rewrite (solid_head _ _ H).
Qed.

Lemma strip_solid (s : string) : solid s -> Py.strip s = s.
Proof.
  intros H. unfold Py.strip. rewrite lstrip_solid by assumption.
  now apply rstrip_solid.
Qed.

Lemma print_uint_head (d : Decimal.uint) :
  d <> Decimal.Nil ->
  exists c s, NilEmpty.string_of_uint d = String c s /\
              c <> "-"%char /\ c <> "+"%char.
Proof.
  destruct d; intros H; try congruence; simpl; eexists _, _;
    (split; [reflexivity | split; discriminate]).
Qed.

Lemma int_unsigned (d : Decimal.uint) :
  d <> Decimal.Nil ->
  Py.int (NilEmpty.string_of_uint d) = Some (Z.of_uint d).
Proof.
  intros Hd. unfold Py.int.
  rewrite strip_solid by apply solid_uint.
  destruct (print_uint_head d Hd) as (c & s & E & Hm & Hp).
  assert (P : Py.parse_digits false (NilEmpty.string_of_uint d) = Some d)
    by (apply parse_digits_print; now right).
  rewrite E in *.
  destruct (Ascii.eqb_spec c "-"); [congruence |].
  destruct (Ascii.eqb_spec c "+"); [congruence |].
  destruct c as [[] [] [] [] [] [] [] []]; try congruence;
    now rewrite P.
Qed.

Lemma int_negative (d : Decimal.uint) :
  d <> Decimal.Nil ->
  Py.int (String "-" (NilEmpty.string_of_uint d)) = Some (- Z.of_uint d).
Proof.
  intros Hd. unfold Py.int.
  rewrite strip_solid
    by (apply solid_cons; [reflexivity | apply solid_uint]).
  rewrite parse_digits_print by now right. reflexivity.
Qed.

(** [int(str(n)) == n]. *)
Lemma int_str (z : Z) : Py.int (Py.str z) = Some z.
Proof.
  unfold Py.str. destruct z as [| p | p]; [reflexivity | |].
  - simpl Z.to_int. unfold NilZero.string_of_int, NilZero.string_of_uint.
    pose proof (DecimalPos.Unsigned.to_uint_nonnil p) as Hp.
    destruct (Pos.to_uint p) eqn:E; try congruence; rewrite <- E;
      (rewrite int_unsigned by (rewrite E; discriminate));
      f_equal; change (Z.of_int (Z.to_int (Z.pos p)) = Z.pos p);
      apply DecimalZ.of_to.
  - simpl Z.to_int. unfold NilZero.string_of_int, NilZero.string_of_uint.
    pose proof (DecimalPos.Unsigned.to_uint_nonnil p) as Hp.
    destruct (Pos.to_uint p) eqn:E; try congruence; rewrite <- E;
      (rewrite int_negative by (rewrite E; discriminate));
      f_equal; change (Z.of_int (Z.to_int (Z.neg p)) = Z.neg p);
      apply DecimalZ.of_to.
Qed.

End DecimalText.

(** ** Text that is not an integer literal *)

Lemma parse_digits_dot (s : string) (b : bool) :
  Py.contains "." s = true -> Py.parse_digits b s = None.
Proof.
  revert b. induction s as [| c s IH]; intros b H; [discriminate |].
  rewrite contains_cons in H. cbn [Py.parse_digits].
  destruct (Ascii.eqb_spec c ".") as [-> | Hc].
  - reflexivity.
  - simpl in H.
    destruct (Ascii.eqb c "_").
    + destruct b; [now apply IH | reflexivity].
    + destruct (Py.digit_of c); [now rewrite IH | reflexivity].
Qed.

Lemma lstrip_keeps_dot (s : string) :
  Py.contains "." s = true -> Py.contains "." (Py.lstrip_space s) = true.
Proof.
  induction s as [| c s IH]; intros H; [discriminate |].
  cbn [Py.lstrip_space]. destruct (Py.is_space c) eqn:Hc; [| assumption].
  rewrite contains_cons in H.
  destruct (Ascii.eqb_spec c ".") as [-> | Hd]; [discriminate Hc |].
  now apply IH.
Qed.

Lemma rstrip_keeps_dot (s : string) :
  Py.contains "." s = true -> Py.contains "." (Py.rstrip_space s) = true.
Proof.
  induction s as [| c s IH]; intros H; [discriminate |].
  cbn [Py.rstrip_space]. rewrite contains_cons in H.
  destruct (Ascii.eqb_spec c ".") as [-> | Hd].
  - destruct (Py.rstrip_space s); reflexivity.
  - simpl in H. specialize (IH H).
    destruct (Py.rstrip_space s) as [| a r]; [discriminate |].
    rewrite contains_cons. rewrite IH. apply orb_true_r.
Qed.

(** [int()] rejects every text with a decimal point. *)
Lemma int_fractional (s : string) :
  Py.contains "." s = true -> Py.int s = None.
Proof.
  intros H. unfold Py.int, Py.strip.
  pose proof (rstrip_keeps_dot _ (lstrip_keeps_dot _ H)) as D.
  destruct (Py.rstrip_space (Py.lstrip_space s)) as [| c t] eqn:E;
    [discriminate |].
  pose proof (parse_digits_dot _ false D) as P.
  rewrite contains_cons in D.
  destruct (Ascii.eqb_spec c "-") as [-> | Hm];
    [simpl in D; now rewrite parse_digits_dot |].
  destruct (Ascii.eqb_spec c "+") as [-> | Hp];
    [simpl in D; now rewrite parse_digits_dot |].
  destruct c as [[] [] [] [] [] [] [] []]; try congruence; now rewrite P.
Qed.

(** ** The spreadsheet as a table of rows *)

Section SheetFacts.

Implicit Types (sh : list Row) (f : Row -> Row) (i j : nat).

Lemma row_at_write_same sh f i :
  row_at (write_row i f sh) (S i) = option_map f (row_at sh (S i)).
Proof.
  unfold row_at, write_row.
  rewrite list_lookup_insert_eq; [reflexivity |].
  rewrite length_app, length_replicate. lia.
Qed.

Lemma lookup_padded sh j (n : nat) :
  default blank_row ((sh ++ replicate n blank_row) !! j)
  = default blank_row (sh !! j).
Proof.
  destruct (decide (j < length sh)%nat) as [Hlt | Hge].
  - now rewrite lookup_app_l.
  - rewrite lookup_app_r by lia.
    rewrite (lookup_ge_None_2 sh j) by lia.
    destruct (replicate n blank_row !! (j - length sh)%nat) eqn:E;
      [| reflexivity].
    apply lookup_replicate in E as [-> _]. reflexivity.
Qed.

Lemma row_at_write_other sh f i j :
  i <> j -> row_at (write_row i f sh) (S j) = row_at sh (S j).
Proof.
  intros Hij. unfold row_at, write_row.
  rewrite list_lookup_insert_ne by assumption.
  now rewrite lookup_padded.
Qed.

Lemma row_at_S sh r x : row_at sh r = Some x -> exists i, r = S i.
Proof. destruct r; [discriminate | eauto]. Qed.

Lemma row_at_succ sh i : exists x, row_at sh (S i) = Some x.
Proof. unfold row_at. eauto. Qed.

Lemma find_user_row_succ sh (uid : Z) (r : nat) :
  find_user_row sh uid = Some r -> exists i, r = S i.
Proof.
  unfold find_user_row. destruct (index_where _ _); intros [= <-]; eauto.
Qed.

Lemma find_user_by_username_succ sh (name : string) (r : nat) :
  find_user_by_username sh name = Some r -> exists i, r = S i.
Proof.
  unfold find_user_by_username. destruct (index_where _ _); intros [= <-]; eauto.
Qed.

Lemma index_where_Some {A} (p : A -> bool) (l : list A) (i : nat) :
  index_where p l = Some i -> exists v, l !! i = Some v /\ p v = true.
Proof.
  revert i. induction l as [| x l IH]; intros i; simpl; [discriminate |].
  destruct (p x) eqn:Hp.
  - intros [= <-]. eauto.
  - destruct (index_where p l) as [j |]; simpl; [| discriminate].
    intros [= <-]. destruct (IH j eq_refl) as (v & Hv & Hpv). eauto.
Qed.

Lemma trim_blank_lookup (l : list string) (i : nat) (v : string) :
  trim_blank l !! i = Some v -> l !! i = Some v.
Proof.
  revert i. induction l as [| x l IH]; intros i; simpl; [discriminate |].
  destruct (trim_blank l) as [| y t] eqn:E.
  - destruct (Py.truthy x); [| discriminate].
    destruct i as [| i]; simpl; [trivial | discriminate].
  - destruct i as [| i]; simpl; [trivial |]. apply IH.
Qed.

(** The row [find_user_row] returns holds the id looked for. *)
Lemma find_user_row_spec (sh : list Row) (uid : Z) (r : nat) :
  find_user_row sh uid = Some r ->
  exists x, row_at sh r = Some x /\ col_id x = Py.str uid.
Proof.
  unfold find_user_row, col_values.
  destruct (index_where _ _) as [i |] eqn:E; simpl; [| discriminate].
  intros [= <-].
  apply index_where_Some in E as (v & Hv & Hp).
  apply trim_blank_lookup in Hv.
  apply list_lookup_fmap_Some in Hv as (x & -> & Hx).
  exists x. unfold row_at. rewrite Hx. split; [reflexivity |].
  now apply String.eqb_eq in Hp.
Qed.

(** Writing a text cell leaves the other columns alone. *)
Lemma advance_set_text (c : nat) (v : string) (x : Row) :
  col_advance (set_text_cell c v x) = col_advance x.
Proof. do 8 (destruct c as [| c]; [reflexivity |]). reflexivity. Qed.

Lemma text_cell_set_same (c : nat) (v : string) (x : Row) :
  (1 <= c <= 7)%nat -> text_cell (set_text_cell c v x) c = v.
Proof.
  intros H. do 8 (destruct c as [| c]; [reflexivity || lia |]). lia.
Qed.

Lemma text_cell_set_other (c c' : nat) (v : string) (x : Row) :
  c <> c' -> text_cell (set_text_cell c v x) c' = text_cell x c'.
Proof.
  intros H.
  do 8 (destruct c as [| c];
        [do 8 (destruct c' as [| c']; [reflexivity || congruence |]);
         reflexivity |]).
  reflexivity.
Qed.

End SheetFacts.

(** ** Which branch a callback takes *)

Lemma prefix_cons (a : ascii) (p s : string) :
  String.prefix (String a p) s = true ->
  exists s', s = String a s' /\ String.prefix p s' = true.
Proof.
  destruct s as [| b s]; simpl; [discriminate |].
  destruct (ascii_dec a b) as [-> | _]; [eauto | discriminate].
Qed.

Lemma button_callback_confirm (query : CallbackQuery) :
  Py.startswith (data query) "confirm_" = true ->
  button_callback query
  = run (confirm_transfer (from_user query)
           (Py.remove_all "confirm_" (data query))).
Proof.
  intros H. unfold button_callback.
  pose proof H as H'. unfold Py.startswith in H'.
  apply prefix_cons in H' as (s1 & E1 & H').
  apply prefix_cons in H' as (s2 & E2 & _).
  rewrite H. rewrite E1, E2. reflexivity.
Qed.

Lemma button_callback_cancel (query : CallbackQuery) :
  Py.startswith (data query) "cancel_" = true ->
  button_callback query
  = run (cancel_transfer (from_user query)
           (Py.remove_all "cancel_" (data query))).
Proof.
  intros H. unfold button_callback.
  pose proof H as H'. unfold Py.startswith in H'.
  apply prefix_cons in H' as (s1 & E1 & H').
  apply prefix_cons in H' as (s2 & E2 & _).
  rewrite H. rewrite E1, E2. reflexivity.
Qed.

(** ** Log entries *)

Section LogFacts.

Lemma contains_app (c : ascii) (a b : string) :
  Py.contains c (a +:+ b) = Py.contains c a || Py.contains c b.
Proof.
  induction a as [| x a IH]; [reflexivity |].
  change (String x a +:+ b) with (String x (a +:+ b)).
  rewrite !contains_cons, IH. apply orb_assoc.
Qed.

Lemma one_line_app (a b : string) :
  one_line a -> one_line b -> one_line (a +:+ b).
Proof.
  unfold one_line. intros Ha Hb. now rewrite contains_app, Ha, Hb.
Qed.

Lemma one_line_str (z : Z) : one_line (Py.str z).
Proof.
  unfold one_line.
  destruct (Py.contains Py.nl (Py.str z)) eqn:E; [| reflexivity].
  assert (S : solid (Py.str z)).
  { unfold Py.str. destruct (Z.to_int z) as [d | d];
      cbn [NilZero.string_of_int]; [| apply solid_cons; [reflexivity |]];
      unfold NilZero.string_of_uint;
      (destruct d; try apply solid_uint;
       apply solid_cons; [reflexivity | intros c Hc; discriminate]). }
  apply S in E. discriminate.
Qed.

Lemma one_line_entry (now sign label : string) (n : Z) :
  one_line now -> one_line sign -> one_line label ->
  one_line (tx_entry now sign n label).
Proof.
  intros Hn Hs Hl. unfold tx_entry.
  repeat (apply one_line_app; try assumption; try reflexivity).
  apply one_line_str.
Qed.

Lemma entry_truthy (now sign label : string) (n : Z) :
  Py.truthy (tx_entry now sign n label) = true.
Proof. unfold tx_entry. now destruct now. Qed.

Lemma split_one_line (e : string) : one_line e -> Py.split Py.nl e = [e].
Proof.
  unfold one_line. induction e as [| c e IH]; intros H; [reflexivity |].
  rewrite contains_cons in H. apply orb_false_iff in H as [Hc He].
  cbn [Py.split]. rewrite Hc, IH by assumption. reflexivity.
Qed.

Lemma split_entry_then (e p : string) :
  one_line e -> Py.split Py.nl (e +:+ String Py.nl p) = e :: Py.split Py.nl p.
Proof.
  unfold one_line. induction e as [| c e IH]; intros H.
  - change ("" +:+ String Py.nl p) with (String Py.nl p).
    cbn [Py.split]. now rewrite Ascii.eqb_refl.
  - rewrite contains_cons in H. apply orb_false_iff in H as [Hc He].
    change (String c e +:+ String Py.nl p)
      with (String c (e +:+ String Py.nl p)).
    cbn [Py.split]. rewrite Hc, IH by assumption. reflexivity.
Qed.

(** The history view counts one more entry after a one-line entry has
    been put in front of the log. *)
Lemma tx_list_prepend (e prev : string) :
  one_line e -> Py.truthy e = true ->
  tx_list (prepend_tx e prev) = e :: tx_list prev.
Proof.
  intros He Ht. unfold prepend_tx, tx_list.
  destruct prev as [| c p]; cbn [Py.truthy].
  - rewrite Ht. now apply split_one_line.
  - replace (Py.truthy (e +:+ String Py.nl (String c p))) with true
      by (now destruct e).
    now apply split_entry_then.
Qed.

End LogFacts.

(** ** Running handler code *)

Lemma row_at_O (sh : list Row) : row_at sh O = None.
Proof. reflexivity. Qed.

Arguments tx_entry : simpl never.
Arguments prepend_tx : simpl never.
Arguments Py.str : simpl never.
Arguments Py.int : simpl never.
Arguments Py.remove_all : simpl never.
Opaque row_at write_row.

Ltac unfold_M :=
  unfold mbind, M_bind, bind, mret, M_ret, ret, exit, raise, get, modify,
    int_or, cell, cell8, update_cell, update_cell8, format_datetime,
    now_timestamp, row_values, append_row, save_admins, loads_or_empty.

(** Reads of rows that earlier steps of the handler have written. *)
Ltac read_rows :=
  repeat (first [ rewrite row_at_write_same
                | rewrite row_at_write_other by congruence
                | match goal with
                  | H : row_at _ _ = Some _ |- _ => rewrite H
                  | H : Py.int _ = _ |- _ => rewrite H
                  end ];
          cbn).

Section Confirm.

Variables (w : World) (user : User) (tid : string).

Lemma confirm_expired :
  pending_transfers w !! tid = None ->
  confirm_transfer user tid w = (inl (Replied TransferExpired), w).
Proof. intros Hp. unfold confirm_transfer. unfold_M. cbn. now rewrite Hp. Qed.

Variable t : Transfer.
Hypothesis Hpending : pending_transfers w !! tid = Some t.

Lemma confirm_not_owner :
  sender_id t <> id user ->
  confirm_transfer user tid w = (inl (Replied NotYourTransfer), w).
Proof.
  intros Hs. unfold confirm_transfer. unfold_M. cbn. rewrite Hpending.
  apply Z.eqb_neq in Hs. now rewrite Hs.
Qed.

Hypothesis Howner : sender_id t = id user.
Variables (X : Row) (bx : Z).
Hypothesis HX : row_at (sheet w) (sender_row t) = Some X.
Hypothesis Hbx : Py.int (col_balance X) = Some bx.

Lemma confirm_insufficient :
  bx < amount t ->
  confirm_transfer user tid w
  = (inr InsufficientBalanceCancelled,
     with_pending (delete tid (pending_transfers w)) w).
Proof.
  intros Hlt. unfold confirm_transfer. unfold_M. cbn.
  rewrite Hpending, Howner, Z.eqb_refl. cbn. rewrite HX. cbn.
  rewrite Hbx. cbn. apply Z.ltb_lt in Hlt. now rewrite Hlt.
Qed.

Variables (Y : Row) (bY : Z).
Hypothesis HY : row_at (sheet w) (target_row t) = Some Y.
Hypothesis HbY : Py.int (col_balance Y) = Some bY.
Hypothesis Hrows : sender_row t <> target_row t.

(** The sender's row and the target's row after a transfer. *)
Let X' : Row :=
  set_text_cell 7
    (prepend_tx (tx_entry (strftime (clock w (S (ticks w)))) "-" (amount t)
                          (target_name t)) (col_tx X))
    (set_text_cell 6 (strftime (clock w (ticks w)))
       (set_text_cell 5 (Py.str (bx - amount t)) X)).
Let Y' : Row :=
  set_text_cell 7
    (prepend_tx (tx_entry (strftime (clock w (3 + ticks w))) "+" (amount t)
                          (col_name X)) (col_tx Y))
    (set_text_cell 6 (strftime (clock w (2 + ticks w)))
       (set_text_cell 5 (Py.str (bY + amount t)) Y)).

Lemma confirm_success :
  amount t <= bx ->
  exists w',
    confirm_transfer user tid w
    = (inr (TransferSuccessful (amount t) (target_name t) (bx - amount t)), w')
    /\ row_at (sheet w') (sender_row t) = Some X'
    /\ row_at (sheet w') (target_row t) = Some Y'
    /\ (forall r, r <> sender_row t -> r <> target_row t ->
                  row_at (sheet w') r = row_at (sheet w) r)
    /\ pending_transfers w' = delete tid (pending_transfers w)
    /\ ADMINS w' = ADMINS w /\ admins_json w' = admins_json w.
Proof.
  intros Hle.
  destruct (row_at_S _ _ _ HX) as [i Ei].
  destruct (row_at_S _ _ _ HY) as [j Ej].
  unfold confirm_transfer. unfold_M. cbn.
  rewrite Hpending, Howner, Z.eqb_refl. cbn.
  rewrite Ei, Ej in *. rewrite HX. cbn. rewrite Hbx. cbn.
  rewrite (proj2 (Z.ltb_ge _ _)) by lia.
  read_rows.
  eexists. split; [reflexivity |]. cbn.
  split; [read_rows; reflexivity |].
  split; [read_rows; reflexivity |].
  split; [| auto].
  intros [| k] Hi Hj; [now rewrite !row_at_O |].
  now rewrite !row_at_write_other by congruence.
Qed.

End Confirm.

Section Cancel.

Variables (w : World) (user : User) (tid : string) (t : Transfer).
Hypothesis Hpending : pending_transfers w !! tid = Some t.

Lemma cancel_not_owner :
  sender_id t <> id user ->
  cancel_transfer user tid w = (inl (Replied NotYourTransfer), w).
Proof.
  intros Hs. unfold cancel_transfer. unfold_M. cbn. rewrite Hpending.
  apply Z.eqb_neq in Hs. now rewrite Hs.
Qed.

Lemma cancel_by_owner :
  sender_id t = id user ->
  cancel_transfer user tid w
  = (inr TransferCancelled, with_pending (delete tid (pending_transfers w)) w).
Proof.
  intros Hs. unfold cancel_transfer. unfold_M. cbn. rewrite Hpending.
  now rewrite Hs, Z.eqb_refl.
Qed.

End Cancel.

(** ** Transfer confirmation *)



(** C9.  A confirmed transfer writes no contributions cell: column 8 of the
    sender's row and of the target's row, and of every other row, is after
    the transfer what it was before. *)
Theorem transfer_confirm_keeps_contributions
    (w : World) (query : CallbackQuery) (t : Transfer) (X Y : Row) (bx bY : Z) :
  Py.startswith (data query) "confirm_" = true ->
  pending_transfers w !! Py.remove_all "confirm_" (data query) = Some t ->
  sender_id t = id (from_user query) ->
  row_at (sheet w) (sender_row t) = Some X ->
  row_at (sheet w) (target_row t) = Some Y ->
  sender_row t <> target_row t ->
  Py.int (col_balance X) = Some bx ->
  Py.int (col_balance Y) = Some bY ->
  amount t <= bx ->
  exists w' X' Y',
    button_callback query w
    = (Replied (TransferSuccessful (amount t) (target_name t) (bx - amount t)), w')
    /\ row_at (sheet w') (sender_row t) = Some X'
    /\ row_at (sheet w') (target_row t) = Some Y'
    /\ col_advance X' = col_advance X
    /\ col_advance Y' = col_advance Y
    /\ (forall r, option_map col_advance (row_at (sheet w') r)
                  = option_map col_advance (row_at (sheet w) r)).
Proof.
  intros Hc Hp Hs HX HY Hne Hbx HbY Hle.
  pose proof (confirm_success w (from_user query) _ t Hp Hs X bx HX Hbx Y bY
                HY HbY Hne Hle) as Hok.
  cbv zeta in Hok. destruct Hok as (w' & Hrun & HX' & HY' & Hother & _).
  rewrite button_callback_confirm by assumption.
  unfold run. rewrite Hrun.
  eexists w', _, _. split; [reflexivity |].
  split; [exact HX' |]. split; [exact HY' |].
  split; [now rewrite !advance_set_text |].
  split; [now rewrite !advance_set_text |].
  intros r.
  destruct (decide (r = sender_row t)) as [-> | Hr1];
    [rewrite HX', HX; reflexivity |].
  destruct (decide (r = target_row t)) as [-> | Hr2];
    [rewrite HY', HY; reflexivity |].
  now rewrite Hother.
Qed.

Lemma transfer_confirm_keeps_contributions_witness :
  exists w' X' Y',
    button_callback (mkQuery Sample.rev "confirm_7_43_200_1793783700.25")
                    Sample.world
    = (Replied (TransferSuccessful 200 "Bob" 100), w')
    /\ row_at (sheet w') 4 = Some X'
    /\ row_at (sheet w') 3 = Some Y'
    /\ col_advance X' = JText [("Riv", 300)]
    /\ col_advance Y' = JBlank
    /\ (forall r, option_map col_advance (row_at (sheet w') r)
                  = option_map col_advance (row_at (sheet Sample.world) r)).
Proof.
  apply (transfer_confirm_keeps_contributions Sample.world
           (mkQuery Sample.rev "confirm_7_43_200_1793783700.25")
           (mkTransfer 7 4 "43" 3 "Bob" 200)
           (mkRow "7" "Rev" "@reviosa" (profile_link 7 "Rev") "300"
                  "11-03-2026, 09:00 PM" "11-03-2026, 09:00 PM + ₱300 Riv"
                  (JText [("Riv", 300)]))
           (mkRow "43" "Bob" "@bob" (profile_link 43 "Bob") "0"
                  "11-02-2026, 07:30 AM" "" JBlank)
           300 0);
    first [ vm_compute; reflexivity | discriminate | vm_compute; discriminate ].
Defined.

(** ** Refused confirmations *)

(** C3.  When the sender confirms a pending transfer and the balance read
    again is below the amount, the callback answers that the balance is
    insufficient and the proposal leaves [pending_transfers]; confirming
    the same id once more, whoever does it, finds the transfer expired. *)
Theorem insufficient_confirm_discards_proposal
    (w : World) (query : CallbackQuery) (t : Transfer) (X : Row) (bx : Z) :
  Py.startswith (data query) "confirm_" = true ->
  pending_transfers w !! Py.remove_all "confirm_" (data query) = Some t ->
  sender_id t = id (from_user query) ->
  row_at (sheet w) (sender_row t) = Some X ->
  Py.int (col_balance X) = Some bx ->
  bx < amount t ->
  exists w',
    button_callback query w = (Replied InsufficientBalanceCancelled, w')
    /\ pending_transfers w'
       = delete (Py.remove_all "confirm_" (data query)) (pending_transfers w)
    /\ pending_transfers w' !! Py.remove_all "confirm_" (data query) = None
    /\ forall again : User,
         button_callback (mkQuery again (data query)) w'
         = (Replied TransferExpired, w').
Proof.
  intros Hc Hp Hs HX Hbx Hlt.
  rewrite button_callback_confirm by assumption. unfold run.
  rewrite (confirm_insufficient w _ _ t Hp Hs X bx HX Hbx Hlt).
  eexists. split; [reflexivity |]. cbn.
  split; [reflexivity |].
  split; [apply lookup_delete_eq |].
  intros again. rewrite button_callback_confirm by assumption.
  unfold run. rewrite confirm_expired; [reflexivity |].
  apply lookup_delete_eq.
Qed.

Lemma insufficient_confirm_discards_proposal_witness :
  exists w',
    button_callback (mkQuery Sample.rev "confirm_7_43_900_1793783700.25")
                    Sample.world
    = (Replied InsufficientBalanceCancelled, w')
    /\ pending_transfers w' = delete Sample.large_id Sample.transfers
    /\ pending_transfers w' !! Sample.large_id = None
    /\ forall again : User,
         button_callback (mkQuery again "confirm_7_43_900_1793783700.25") w'
         = (Replied TransferExpired, w').
Proof.
  apply (insufficient_confirm_discards_proposal Sample.world
           (mkQuery Sample.rev "confirm_7_43_900_1793783700.25")
           (mkTransfer 7 4 "43" 3 "Bob" 900)
           (mkRow "7" "Rev" "@reviosa" (profile_link 7 "Rev") "300"
                  "11-03-2026, 09:00 PM" "11-03-2026, 09:00 PM + ₱300 Riv"
                  (JText [("Riv", 300)]))
           300);
    vm_compute; reflexivity.
Defined.

(** C10.  A confirmation refused for insufficient balance writes nothing to
    the spreadsheet: the sheet, and so the balance, timestamp, log and
    contributions of the sender and of the target, are what they were; of
    the whole state only [pending_transfers] changes, losing the entry. *)
Theorem insufficient_confirm_writes_nothing
    (w : World) (query : CallbackQuery) (t : Transfer) (X : Row) (bx : Z) :
  Py.startswith (data query) "confirm_" = true ->
  pending_transfers w !! Py.remove_all "confirm_" (data query) = Some t ->
  sender_id t = id (from_user query) ->
  row_at (sheet w) (sender_row t) = Some X ->
  Py.int (col_balance X) = Some bx ->
  bx < amount t ->
  exists w',
    button_callback query w = (Replied InsufficientBalanceCancelled, w')
    /\ sheet w' = sheet w
    /\ row_at (sheet w') (sender_row t) = Some X
    /\ row_at (sheet w') (target_row t) = row_at (sheet w) (target_row t)
    /\ w' = with_pending
              (delete (Py.remove_all "confirm_" (data query)) (pending_transfers w))
              w.
Proof.
  intros Hc Hp Hs HX Hbx Hlt.
  rewrite button_callback_confirm by assumption. unfold run.
  rewrite (confirm_insufficient w _ _ t Hp Hs X bx HX Hbx Hlt).
  eexists. split; [reflexivity |]. cbn. auto.
Qed.

Lemma insufficient_confirm_writes_nothing_witness :
  exists w',
    button_callback (mkQuery Sample.rev "confirm_7_43_900_1793783700.25")
                    Sample.world
    = (Replied InsufficientBalanceCancelled, w')
    /\ sheet w' = Sample.ledger
    /\ row_at (sheet w') 4
       = Some (mkRow "7" "Rev" "@reviosa" (profile_link 7 "Rev") "300"
                     "11-03-2026, 09:00 PM" "11-03-2026, 09:00 PM + ₱300 Riv"
                     (JText [("Riv", 300)]))
    /\ row_at (sheet w') 3 = row_at Sample.ledger 3
    /\ w' = with_pending (delete Sample.large_id Sample.transfers) Sample.world.
Proof.
  apply (insufficient_confirm_writes_nothing Sample.world
           (mkQuery Sample.rev "confirm_7_43_900_1793783700.25")
           (mkTransfer 7 4 "43" 3 "Bob" 900)
           (mkRow "7" "Rev" "@reviosa" (profile_link 7 "Rev") "300"
                  "11-03-2026, 09:00 PM" "11-03-2026, 09:00 PM + ₱300 Riv"
                  (JText [("Riv", 300)]))
           300);
    vm_compute; reflexivity.
Defined.

(** C5.  A confirm or a cancel of a pending transfer id by a user whose id
    is not the proposal's sender id is answered with the alert that the
    transfer is not theirs, and nothing changes: the entry stays in
    [pending_transfers] as it was, and so does the rest of the state. *)
Theorem foreign_confirm_or_cancel_refused
    (w : World) (query : CallbackQuery) (action : string) (t : Transfer) :
  action ∈ ["confirm_"; "cancel_"] ->
  Py.startswith (data query) action = true ->
  pending_transfers w !! Py.remove_all action (data query) = Some t ->
  sender_id t <> id (from_user query) ->
  button_callback query w = (Replied NotYourTransfer, w)
  /\ pending_transfers (snd (button_callback query w))
       !! Py.remove_all action (data query) = Some t.
Proof.
  intros Ha Hd Hp Hs.
  assert (E : button_callback query w = (Replied NotYourTransfer, w)).
  { apply elem_of_cons in Ha as [-> | Ha].
    - rewrite button_callback_confirm by assumption. unfold run.
      now rewrite (confirm_not_owner w _ _ t Hp Hs).
    - apply list_elem_of_singleton in Ha as ->.
      rewrite button_callback_cancel by assumption. unfold run.
      now rewrite (cancel_not_owner w _ _ t Hp Hs). }
  rewrite E. split; [reflexivity | exact Hp].
Qed.

Lemma foreign_confirm_or_cancel_refused_witness :
  (button_callback (mkQuery Sample.ava "confirm_7_43_200_1793783700.25")
                   Sample.world
   = (Replied NotYourTransfer, Sample.world)
   /\ pending_transfers
        (snd (button_callback
                (mkQuery Sample.ava "confirm_7_43_200_1793783700.25")
                Sample.world))
        !! Py.remove_all "confirm_" "confirm_7_43_200_1793783700.25"
      = Some (mkTransfer 7 4 "43" 3 "Bob" 200))
  /\ (button_callback (mkQuery Sample.ava "cancel_7_43_200_1793783700.25")
                      Sample.world
      = (Replied NotYourTransfer, Sample.world)
      /\ pending_transfers
           (snd (button_callback
                   (mkQuery Sample.ava "cancel_7_43_200_1793783700.25")
                   Sample.world))
           !! Py.remove_all "cancel_" "cancel_7_43_200_1793783700.25"
         = Some (mkTransfer 7 4 "43" 3 "Bob" 200)).
Proof.
  split.
  - apply (foreign_confirm_or_cancel_refused Sample.world
             (mkQuery Sample.ava "confirm_7_43_200_1793783700.25")
             "confirm_" (mkTransfer 7 4 "43" 3 "Bob" 200)).
    + apply list_elem_of_here.
    + vm_compute; reflexivity.
    + vm_compute; reflexivity.
    + vm_compute; discriminate.
  - apply (foreign_confirm_or_cancel_refused Sample.world
             (mkQuery Sample.ava "cancel_7_43_200_1793783700.25")
             "cancel_" (mkTransfer 7 4 "43" 3 "Bob" 200)).
    + apply list_elem_of_further, list_elem_of_here.
    + vm_compute; reflexivity.
    + vm_compute; reflexivity.
    + vm_compute; discriminate.
Defined.

(** ** Dictionaries *)

Section DictFacts.

Implicit Types (d : dict) (k : string) (v : Z).

Lemma dict_del_absent d k : dict_get k d = None -> dict_del k d = d.
Proof.
  induction d as [| [k' v'] d IH]; [reflexivity |]. simpl.
  destruct (String.eqb k k'); [discriminate |].
  intros H. now rewrite IH.
Qed.

Lemma all_positive_get d k v : all_positive d -> dict_get k d = Some v -> 0 < v.
Proof.
  induction 1 as [| [k' v'] d Hv _ IH]; simpl; [discriminate |].
  destruct (String.eqb k k'); [intros [= <-]; exact Hv | exact IH].
Qed.

Lemma all_positive_set d k v :
  all_positive d -> 0 < v -> all_positive (dict_set k v d).
Proof.
  intros Hd Hv. induction Hd as [| [k' v'] d Hv' Hd IH]; simpl.
  - repeat constructor. exact Hv.
  - destruct (String.eqb k k'); constructor; assumption.
Qed.

Lemma all_positive_del d k : all_positive d -> all_positive (dict_del k d).
Proof.
  induction 1 as [| [k' v'] d Hv' Hd IH]; simpl; [constructor |].
  destruct (String.eqb k k'); [assumption | now constructor].
Qed.

End DictFacts.

(** ** Balance commands *)

Lemma item_ok (x : Row) (k : nat) :
  (k < row_len x)%nat -> item x k = ret (text_cell x (S k)).
Proof. intros H. unfold item. apply Nat.ltb_lt in H. now rewrite H. Qed.

Arguments item : simpl never.
Arguments find_user_row : simpl never.
Arguments find_user_by_username : simpl never.
Arguments can_modify : simpl never.
Arguments dict_get : simpl never.
Arguments dict_set : simpl never.
Arguments dict_del : simpl never.

Section BalanceCommands.

Variables (w : World) (update : Update) (a : string) (r : nat) (name : string).
Hypothesis Hcan : can_modify w (effective_user update) = true.
Hypothesis Haddr : addresses w update a r name.

Let actor : string := first_name (effective_user update).

Lemma add_rejects_text :
  Py.int a = None -> add update w = (Replied InvalidAmountInteger, w).
Proof.
  intros Hint. destruct update as [u rt ar]. unfold addresses in Haddr.
  cbn in Hcan, Haddr. unfold add, run. unfold_M. cbn. rewrite Hcan. cbn.
  destruct rt as [target |].
  - destruct Haddr as ((rest & ->) & _ & _). cbn. now rewrite Hint.
  - destruct Haddr as (a0 & rest & x & -> & Hat & Hfind & Hx & Hlen & _).
    rewrite Hat. cbn. rewrite Hfind. cbn. rewrite Hx. cbn.
    rewrite !item_ok by lia. cbn. now rewrite Hint.
Qed.

Lemma use_rejects_text :
  Py.int a = None -> use update w = (Replied InvalidAmountInteger, w).
Proof.
  intros Hint. destruct update as [u rt ar]. unfold addresses in Haddr.
  cbn in Hcan, Haddr. unfold use, run. unfold_M. cbn. rewrite Hcan. cbn.
  destruct rt as [target |].
  - destruct Haddr as ((rest & ->) & _ & _). cbn. now rewrite Hint.
  - destruct Haddr as (a0 & rest & x & -> & Hat & Hfind & Hx & Hlen & _).
    rewrite Hat. cbn. rewrite Hfind. cbn. now rewrite Hint.
Qed.

Variables (n : Z) (X : Row) (b : Z) (d : dict).
Hypothesis Hint : Py.int a = Some n.
Hypothesis HX : row_at (sheet w) r = Some X.
Hypothesis Hb : Py.int (col_balance X) = Some b.
Hypothesis Hd : decoded (col_advance X) = Some d.

(** The row after the balance, the timestamp and the log are written. *)
Let written (sign : string) (new_balance : Z) : Row :=
  set_text_cell 7
    (prepend_tx (tx_entry (strftime (clock w (S (ticks w)))) sign n actor)
                (col_tx X))
    (set_text_cell 6 (strftime (clock w (ticks w)))
       (set_text_cell 5 (Py.str new_balance) X)).

Lemma add_runs :
  exists w',
    add update w = (Replied (Added name n (b + n)), w')
    /\ row_at (sheet w') r
       = Some (set_advance
                 (JText (dict_set actor (default 0 (dict_get actor d) + n) d))
                 (written "+" (b + n)))
    /\ (forall r', r' <> r -> row_at (sheet w') r' = row_at (sheet w) r')
    /\ pending_transfers w' = pending_transfers w
    /\ ADMINS w' = ADMINS w /\ admins_json w' = admins_json w.
Proof.
  destruct (row_at_S _ _ _ HX) as [i ->].
  destruct update as [u rt ar]. unfold addresses in Haddr.
  cbn in Hcan, Haddr. subst actor written. cbn [effective_user].
  unfold add, run, write_balance. unfold_M. cbn. rewrite Hcan. cbn.
  assert (Hloads : exists v, col_advance X = v /\
            match v with JBlank => d = [] | JText d' => d = d' | JMalformed => False end).
  { exists (col_advance X). split; [reflexivity |].
    destruct (col_advance X); cbn in Hd; congruence. }
  destruct Hloads as (v & Ev & Hv).
  destruct rt as [target |].
  - destruct Haddr as ((rest & ->) & Hfind & ->). cbn. rewrite Hint. cbn.
    rewrite Hfind. cbn. read_rows.
    rewrite Ev. destruct v; [subst d | subst d | contradiction]; cbn;
      (eexists; split; [reflexivity |]; cbn;
       split; [read_rows; now rewrite Ev |];
       split; [| auto];
       intros [| k] Hk; [now rewrite !row_at_O |];
       now rewrite !row_at_write_other by congruence).
  - destruct Haddr as (a0 & rest & x & -> & Hat & Hfind & Hx & Hlen & ->).
    rewrite HX in Hx. injection Hx as <-.
    rewrite Hat. cbn. rewrite Hfind. cbn. rewrite HX. cbn.
    rewrite !item_ok by lia. cbn. rewrite Hint. cbn. rewrite HX. cbn.
    rewrite !item_ok by lia. cbn. read_rows.
    rewrite Ev. destruct v; [subst d | subst d | contradiction]; cbn;
      (eexists; split; [reflexivity |]; cbn;
       split; [read_rows; now rewrite Ev |];
       split; [| auto];
       intros [| k] Hk; [now rewrite !row_at_O |];
       now rewrite !row_at_write_other by congruence).
Qed.

Lemma use_runs :
  exists w',
    use update w = (Replied (Deducted name n (b - n)), w')
    /\ row_at (sheet w') r
       = Some (match dict_get actor d with
               | Some v =>
                   set_advance
                     (JText (if v - n <=? 0 then dict_del actor d
                             else dict_set actor (v - n) d))
                     (written "-" (b - n))
               | None => written "-" (b - n)
               end)
    /\ (forall r', r' <> r -> row_at (sheet w') r' = row_at (sheet w) r')
    /\ pending_transfers w' = pending_transfers w
    /\ ADMINS w' = ADMINS w /\ admins_json w' = admins_json w.
Proof.
  destruct (row_at_S _ _ _ HX) as [i ->].
  destruct update as [u rt ar]. unfold addresses in Haddr.
  cbn in Hcan, Haddr. subst actor written. cbn [effective_user].
  unfold use, run, write_balance. unfold_M. cbn. rewrite Hcan. cbn.
  assert (Hloads : exists v, col_advance X = v /\
            match v with JBlank => d = [] | JText d' => d = d' | JMalformed => False end).
  { exists (col_advance X). split; [reflexivity |].
    destruct (col_advance X); cbn in Hd; congruence. }
  destruct Hloads as (v & Ev & Hv).
  destruct rt as [target |].
  - destruct Haddr as ((rest & ->) & Hfind & ->). cbn. rewrite Hint. cbn.
    rewrite Hfind. cbn. read_rows. rewrite Z.add_opp_r.
    rewrite Ev.
    destruct v; [subst d | subst d | contradiction]; cbn;
      destruct (dict_get (first_name u) _) as [v0 |]; cbn;
      (eexists; split; [reflexivity |]; cbn;
       split; [read_rows; try rewrite Ev; reflexivity |];
       split; [| auto];
       intros [| k] Hk; [now rewrite !row_at_O |];
       now rewrite !row_at_write_other by congruence).
  - destruct Haddr as (a0 & rest & x & -> & Hat & Hfind & Hx & Hlen & ->).
    rewrite HX in Hx. injection Hx as <-.
    rewrite Hat. cbn. rewrite Hfind. cbn. rewrite Hint. cbn. rewrite HX. cbn.
    rewrite !item_ok by lia. cbn. read_rows. rewrite Z.add_opp_r.
    rewrite Ev.
    destruct v; [subst d | subst d | contradiction]; cbn;
      destruct (dict_get (first_name u) _) as [v0 |]; cbn;
      (eexists; split; [reflexivity |]; cbn;
       split; [read_rows; try rewrite Ev; reflexivity |];
       split; [| auto];
       intros [| k] Hk; [now rewrite !row_at_O |];
       now rewrite !row_at_write_other by congruence).
Qed.

End BalanceCommands.

(** ** Amounts of a transfer request *)

Section TransferAmount.

Variables (w : World) (update : Update) (a0 a : string) (rest : list string).
Hypothesis Hcan : can_modify w (effective_user update) = true.
Hypothesis Hacct :
  is_Some (find_user_row (sheet w) (id (effective_user update))).
Hypothesis Hargs : args update = a0 :: a :: rest.

Lemma transfer_rejects_text :
  Py.int a = None -> transfer update w = (Replied InvalidAmountNumber, w).
Proof.
  intros Hint. destruct Hacct as [r Hr]. unfold transfer, run. unfold_M. cbn.
  rewrite Hcan. cbn. rewrite Hr, Hargs. cbn. now rewrite Hint.
Qed.

Lemma transfer_rejects_non_positive (n : Z) :
  Py.int a = Some n -> n <= 0 ->
  transfer update w = (Replied AmountMustBePositive, w).
Proof.
  intros Hint Hn. destruct Hacct as [r Hr]. unfold transfer, run. unfold_M.
  cbn. rewrite Hcan. cbn. rewrite Hr, Hargs. cbn. rewrite Hint. cbn.
  apply Z.leb_le in Hn. now rewrite Hn.
Qed.

End TransferAmount.

(** [add] and [use] refuse an amount text that is not an integer as soon
    as they read it, before the account is looked up by id. *)
Lemma add_refuses_text (w : World) (update : Update) (a : string) :
  can_modify w (effective_user update) = true ->
  reads_amount 2 w update a ->
  Py.int a = None ->
  add update w = (Replied InvalidAmountInteger, w).
Proof.
  intros Hcan Hreads Hint. destruct update as [u rt ar].
  unfold reads_amount in Hreads. cbn in Hcan, Hreads.
  unfold add, run. unfold_M. cbn. rewrite Hcan. cbn.
  destruct rt as [target |].
  - destruct Hreads as (rest & ->). cbn. now rewrite Hint.
  - destruct Hreads as (a0 & rest & r & x & -> & Hat & Hfind & Hx & Hlen).
    rewrite Hat. cbn. rewrite Hfind. cbn. rewrite Hx. cbn.
    rewrite !item_ok by lia. cbn. now rewrite Hint.
Qed.

Lemma use_refuses_text (w : World) (update : Update) (a : string) :
  can_modify w (effective_user update) = true ->
  reads_amount 0 w update a ->
  Py.int a = None ->
  use update w = (Replied InvalidAmountInteger, w).
Proof.
  intros Hcan Hreads Hint. destruct update as [u rt ar].
  unfold reads_amount in Hreads. cbn in Hcan, Hreads.
  unfold use, run. unfold_M. cbn. rewrite Hcan. cbn.
  destruct rt as [target |].
  - destruct Hreads as (rest & ->). cbn. now rewrite Hint.
  - destruct Hreads as (a0 & rest & r & x & -> & Hat & Hfind & _).
    rewrite Hat. cbn. rewrite Hfind. cbn. now rewrite Hint.
Qed.

(** C7.  Amount arguments.  For a command of a user who may modify
    balances that addresses an account (by reply or by mention): [add] and
    [use] go through for any integer amount, zero and negative ones
    included; they answer with the new balance, and the balance stored
    afterwards is the old one plus, respectively minus, the amount.  An
    amount text that is not an integer, being ASCII text or having a
    decimal point, is refused by [add] and [use] as soon as it is read,
    whether or not the replied-to user has an account, with nothing
    changed.  For a transfer request of such a user who has an account:
    such a text, and an integer amount that is zero or negative, are both
    refused with nothing changed.  A text with a decimal point is never an
    integer. *)
Theorem amount_arguments :
  (forall w update a r name n X b d,
      can_modify w (effective_user update) = true ->
      addresses w update a r name ->
      Py.int a = Some n ->
      row_at (sheet w) r = Some X ->
      Py.int (col_balance X) = Some b ->
      decoded (col_advance X) = Some d ->
      (exists w' X',
          add update w = (Replied (Added name n (b + n)), w')
          /\ row_at (sheet w') r = Some X'
          /\ Py.int (col_balance X') = Some (b + n))
      /\ (exists w' X',
             use update w = (Replied (Deducted name n (b - n)), w')
             /\ row_at (sheet w') r = Some X'
             /\ Py.int (col_balance X') = Some (b - n)))
  /\ (forall w update a,
         can_modify w (effective_user update) = true ->
         Py.int a = None ->
         Py.isascii a = true \/ Py.contains "." a = true ->
         (reads_amount 2 w update a ->
          add update w = (Replied InvalidAmountInteger, w))
         /\ (reads_amount 0 w update a ->
             use update w = (Replied InvalidAmountInteger, w)))
  /\ (forall w update a0 a rest,
         can_modify w (effective_user update) = true ->
         is_Some (find_user_row (sheet w) (id (effective_user update))) ->
         args update = a0 :: a :: rest ->
         (Py.int a = None ->
          Py.isascii a = true \/ Py.contains "." a = true ->
          transfer update w = (Replied InvalidAmountNumber, w))
         /\ (forall n, Py.int a = Some n -> n <= 0 ->
                       transfer update w = (Replied AmountMustBePositive, w)))
  /\ (forall s, Py.contains "." s = true -> Py.int s = None).
Proof.
  split; [| split; [| split]].
  - intros w update a r name n X b d Hcan Haddr Hint HX Hb Hd.
    pose proof (add_runs w update a r name Hcan Haddr n X b d Hint HX Hb Hd)
      as Hadd.
    pose proof (use_runs w update a r name Hcan Haddr n X b d Hint HX Hb Hd)
      as Huse.
    cbv zeta in Hadd, Huse.
    destruct Hadd as (w1 & E1 & R1 & _). destruct Huse as (w2 & E2 & R2 & _).
    split.
    + exists w1. eexists. split; [exact E1 |]. split; [exact R1 |].
      cbn [set_advance set_text_cell col_balance]. apply int_str.
    + exists w2. eexists. split; [exact E2 |]. split; [exact R2 |].
      destruct (dict_get _ d);
        cbn [set_advance set_text_cell col_balance]; apply int_str.
  - intros w update a Hcan Hint _. split; intros Hreads.
    + exact (add_refuses_text w update a Hcan Hreads Hint).
    + exact (use_refuses_text w update a Hcan Hreads Hint).
  - intros w update a0 a rest Hcan Hacct Hargs. split.
    + intros Hint _.
      exact (transfer_rejects_text w update a0 a rest Hcan Hacct Hargs Hint).
    + intros n Hint Hn.
      exact (transfer_rejects_non_positive w update a0 a rest Hcan Hacct Hargs
               n Hint Hn).
  - exact int_fractional.
Qed.

(** The parts of C7 on the sample ledger: the owner adds 0 to Ava's
    account and deducts -5 from it, a fractional amount is refused by
    [add] and [use] in reply to Cy, who has no account, and by [transfer],
    and so is a transfer of 0. *)
Lemma amount_arguments_witness :
  (exists w' X',
      add (mkUpdate Sample.riv (Some Sample.ava) ["0"]) Sample.world
      = (Replied (Added "Ava" 0 (500 + 0)), w')
      /\ row_at (sheet w') 2 = Some X'
      /\ Py.int (col_balance X') = Some (500 + 0))
  /\ (exists w' X',
         use (mkUpdate Sample.riv None ["@ava"; "-5"]) Sample.world
         = (Replied (Deducted "Ava" (-5) (500 - -5)), w')
         /\ row_at (sheet w') 2 = Some X'
         /\ Py.int (col_balance X') = Some (500 - -5))
  /\ add (mkUpdate Sample.riv (Some Sample.cy) ["1.5"]) Sample.world
     = (Replied InvalidAmountInteger, Sample.world)
  /\ use (mkUpdate Sample.riv (Some Sample.cy) ["1.5"]) Sample.world
     = (Replied InvalidAmountInteger, Sample.world)
  /\ transfer (mkUpdate Sample.rev None ["@bob"; "1.5"]) Sample.world
     = (Replied InvalidAmountNumber, Sample.world)
  /\ transfer (mkUpdate Sample.rev None ["@bob"; "0"]) Sample.world
     = (Replied AmountMustBePositive, Sample.world)
  /\ Py.int "1.5" = None.
Proof.
  destruct amount_arguments as (Hok & Hbad & Htr & Hdot).
  pose (ava_row := mkRow "42" "Ava" "@ava" (profile_link 42 "Ava") "500"
                         "11-03-2026, 08:00 PM"
                         "11-03-2026, 08:00 PM + ₱500 Riv"
                         (JText [("Riv", 500)])).
  split; [| split; [| split; [| split; [| split; [| split]]]]].
  - apply (Hok Sample.world (mkUpdate Sample.riv (Some Sample.ava) ["0"])
               "0" 2%nat "Ava" 0 ava_row 500 [("Riv", 500)]);
      try (vm_compute; reflexivity).
    cbn. split; [eauto | split; vm_compute; reflexivity].
  - apply (Hok Sample.world (mkUpdate Sample.riv None ["@ava"; "-5"])
               "-5" 2%nat "Ava" (-5) ava_row 500 [("Riv", 500)]);
      try (vm_compute; reflexivity).
    cbn. exists "@ava", [], ava_row.
    repeat split; try (vm_compute; reflexivity). vm_compute. lia.
  - apply (Hbad Sample.world (mkUpdate Sample.riv (Some Sample.cy) ["1.5"])
                "1.5"); try (vm_compute; reflexivity).
    + left. vm_compute. reflexivity.
    + cbn. eauto.
  - apply (Hbad Sample.world (mkUpdate Sample.riv (Some Sample.cy) ["1.5"])
                "1.5"); try (vm_compute; reflexivity).
    + right. vm_compute. reflexivity.
    + cbn. eauto.
  - apply (Htr Sample.world (mkUpdate Sample.rev None ["@bob"; "1.5"])
               "@bob" "1.5" []); try (vm_compute; reflexivity).
    + vm_compute. eauto.
    + left. vm_compute. reflexivity.
  - destruct (Htr Sample.world (mkUpdate Sample.rev None ["@bob"; "0"])
                   "@bob" "0" [] ltac:(vm_compute; reflexivity)
                   ltac:(vm_compute; eauto) eq_refl) as [_ Hpos].
    apply (Hpos 0); [vm_compute; reflexivity | vm_compute; discriminate].
  - apply Hdot. vm_compute. reflexivity.
Defined.

(** ** Contributions *)

(** C2, amended.  For an [add] or a [use] of amount n by a user who may
    modify balances, on an account whose contributions decode to d.
    [add]: when the actor's previous value (0 if absent) plus n is
    positive, the stored contributions are d with the actor's entry set to
    that sum, which is the rule [contributions[actor] += n, deleted when
    not positive].  [use]: the stored contributions are d with the actor's
    entry decreased by n, or deleted when the result is not positive, and
    are d unchanged when the actor has no entry; this is the rule for
    [-n] whenever n is not negative or the actor has an entry.  Entries
    that were all positive are all positive after any [use], and after an
    [add] of a positive amount. *)
Theorem contributions_update
    (w : World) (update : Update) (a : string) (r : nat) (name : string)
    (n : Z) (X : Row) (b : Z) (d : dict) :
  can_modify w (effective_user update) = true ->
  addresses w update a r name ->
  Py.int a = Some n ->
  row_at (sheet w) r = Some X ->
  Py.int (col_balance X) = Some b ->
  decoded (col_advance X) = Some d ->
  let actor := first_name (effective_user update) in
  let sum := default 0 (dict_get actor d) + n in
  let used :=
    match dict_get actor d with
    | Some v => if v - n <=? 0 then dict_del actor d else dict_set actor (v - n) d
    | None => d
    end in
  (exists w' X' d',
      add update w = (Replied (Added name n (b + n)), w')
      /\ row_at (sheet w') r = Some X'
      /\ decoded (col_advance X') = Some d'
      /\ (0 < sum -> d' = dict_set actor sum d
                      /\ d' = spec_contributions actor n d)
      /\ (all_positive d -> 0 < n -> all_positive d'))
  /\ (exists w' X',
         use update w = (Replied (Deducted name n (b - n)), w')
         /\ row_at (sheet w') r = Some X'
         /\ decoded (col_advance X') = Some used
         /\ (0 <= n \/ is_Some (dict_get actor d) ->
             used = spec_contributions actor (- n) d)
         /\ (all_positive d -> all_positive used)).
Proof.
  intros Hcan Haddr Hint HX Hb Hd actor sum used. split.
  - destruct (add_runs w update a r name Hcan Haddr n X b d Hint HX Hb Hd)
      as (w' & Hrun & Hrow & _).
    eexists w', _, _. split; [exact Hrun |]. split; [exact Hrow |].
    split; [reflexivity |]. fold actor. fold sum. split.
    + intros Hpos. split; [reflexivity |].
      unfold spec_contributions. cbv zeta. fold sum.
      apply Z.leb_gt in Hpos. now rewrite Hpos.
    + intros Hall Hn. apply all_positive_set; [assumption |]. subst sum.
      destruct (dict_get actor d) as [v |] eqn:Hg; cbn; [| lia].
      pose proof (all_positive_get _ _ _ Hall Hg). lia.
  - destruct (use_runs w update a r name Hcan Haddr n X b d Hint HX Hb Hd)
      as (w' & Hrun & Hrow & _).
    eexists w', _. split; [exact Hrun |]. split; [exact Hrow |].
    fold actor. split; [| split].
    + subst used. destruct (dict_get actor d); [reflexivity |].
      cbn. exact Hd.
    + intros Hn. subst used. unfold spec_contributions. cbv zeta.
      destruct (dict_get actor d) as [v |] eqn:Hg; cbn.
      * now rewrite Z.add_opp_r.
      * destruct Hn as [Hn | [v Hv]]; [| discriminate].
        rewrite (proj2 (Z.leb_le (0 + - n) 0)) by lia.
        symmetry. now apply dict_del_absent.
    + intros Hall. subst used.
      destruct (dict_get actor d) as [v |] eqn:Hg; [| assumption].
      destruct (v - n <=? 0) eqn:Hv.
      * now apply all_positive_del.
      * apply all_positive_set; [assumption |]. apply Z.leb_gt in Hv. lia.
Qed.

Lemma contributions_update_witness :
  (exists w' X' d',
      add (mkUpdate Sample.riv (Some Sample.ava) ["100"]) Sample.world
      = (Replied (Added "Ava" 100 600), w')
      /\ row_at (sheet w') 2 = Some X'
      /\ decoded (col_advance X') = Some d'
      /\ (0 < 600 -> d' = [("Riv", 600)]
                      /\ d' = spec_contributions "Riv" 100 [("Riv", 500)])
      /\ (all_positive [("Riv", 500)] -> 0 < 100 -> all_positive d'))
  /\ (exists w' X',
         use (mkUpdate Sample.riv (Some Sample.ava) ["100"]) Sample.world
         = (Replied (Deducted "Ava" 100 400), w')
         /\ row_at (sheet w') 2 = Some X'
         /\ decoded (col_advance X') = Some [("Riv", 400)]
         /\ (0 <= 100 \/ is_Some (dict_get "Riv" [("Riv", 500)]) ->
             [("Riv", 400)] = spec_contributions "Riv" (- 100) [("Riv", 500)])
         /\ (all_positive [("Riv", 500)] -> all_positive [("Riv", 400)])).
Proof.
  apply (contributions_update Sample.world
           (mkUpdate Sample.riv (Some Sample.ava) ["100"]) "100" 2%nat "Ava"
           100
           (mkRow "42" "Ava" "@ava" (profile_link 42 "Ava") "500"
                  "11-03-2026, 08:00 PM" "11-03-2026, 08:00 PM + ₱500 Riv"
                  (JText [("Riv", 500)]))
           500 [("Riv", 500)]);
    try (vm_compute; reflexivity).
  cbn. split; [eauto | split; vm_compute; reflexivity].
Defined.

(** The rule of C2 as stated fails on the sample ledger.  The owner adds 0
    to Bob's account, which has no contributions: the entry [Riv: 0] is
    stored, where the rule deletes it.  The owner deducts -5 from Bob's
    account: no entry is stored, where the rule stores [Riv: 5]. *)
Lemma contributions_rule_counterexample :
  (exists w' X',
      add (mkUpdate Sample.riv (Some Sample.bob) ["0"]) Sample.world
      = (Replied (Added "Bob" 0 0), w')
      /\ row_at (sheet w') 3 = Some X'
      /\ decoded (col_advance X') = Some [("Riv", 0)]
      /\ decoded (col_advance X') <> Some (spec_contributions "Riv" 0 []))
  /\ (exists w' X',
         use (mkUpdate Sample.riv (Some Sample.bob) ["-5"]) Sample.world
         = (Replied (Deducted "Bob" (-5) 5), w')
         /\ row_at (sheet w') 3 = Some X'
         /\ decoded (col_advance X') = Some []
         /\ spec_contributions "Riv" (- -5) [] = [("Riv", 5)]
         /\ decoded (col_advance X') <> Some (spec_contributions "Riv" (- -5) [])).
Proof.
  split.
  - eexists _, _. split; [vm_compute; reflexivity |].
    split; [vm_compute; reflexivity |].
    split; [vm_compute; reflexivity |]. vm_compute. discriminate.
  - eexists _, _. split; [vm_compute; reflexivity |].
    split; [vm_compute; reflexivity |].
    split; [vm_compute; reflexivity |].
    split; [vm_compute; reflexivity |]. vm_compute. discriminate.
Qed.

(** ** Clearing and creating accounts *)

(** C6.  [clear], asked by a user who may modify balances in reply to a
    message of an account holder, whatever the account held before: the
    stored balance becomes 0, the timestamp the current time, the log and
    the contributions empty, so that the breakdown shown afterwards is
    empty and the balance reads 0; the id, name, username and link of the
    row are what they were, and so are all other rows. *)
Theorem clear_resets_account
    (w : World) (update : Update) (target : User) (r : nat) (X : Row) :
  can_modify w (effective_user update) = true ->
  reply_to_message update = Some target ->
  find_user_row (sheet w) (id target) = Some r ->
  row_at (sheet w) r = Some X ->
  exists w' X',
    clear update w
    = (Replied (AccountCleared (profile_link (id target) (first_name target))
                               (id target)), w')
    /\ row_at (sheet w') r = Some X'
    /\ col_balance X' = "0" /\ Py.int (col_balance X') = Some 0
    /\ col_updated X' = strftime (clock w (ticks w))
    /\ col_tx X' = "" /\ tx_list (col_tx X') = []
    /\ col_advance X' = JBlank /\ decoded (col_advance X') = Some []
    /\ get_contribution_breakdown (sheet w') r = ""
    /\ col_id X' = col_id X /\ col_name X' = col_name X
    /\ col_username X' = col_username X /\ col_link X' = col_link X
    /\ (forall r', r' <> r -> row_at (sheet w') r' = row_at (sheet w) r').
Proof.
  intros Hcan Hreply Hfind HX.
  destruct (row_at_S _ _ _ HX) as [i ->].
  unfold clear, run. unfold_M. cbn. rewrite Hcan, Hreply. cbn.
  rewrite Hfind. cbn. read_rows.
  eexists _, _. split; [reflexivity |]. cbn.
  split; [read_rows; reflexivity |]. cbn.
  do 7 (split; [reflexivity |]).
  split; [unfold get_contribution_breakdown; read_rows; reflexivity |].
  do 4 (split; [reflexivity |]).
  intros [| k] Hk; [now rewrite !row_at_O |].
  now rewrite !row_at_write_other by congruence.
Qed.

Lemma clear_resets_account_witness :
  exists w' X',
    clear (mkUpdate Sample.rev (Some Sample.ava) []) Sample.world
    = (Replied (AccountCleared (profile_link 42 "Ava") 42), w')
    /\ row_at (sheet w') 2 = Some X'
    /\ col_balance X' = "0" /\ Py.int (col_balance X') = Some 0
    /\ col_updated X' = "11-04-2026, 09:15 AM"
    /\ col_tx X' = "" /\ tx_list (col_tx X') = []
    /\ col_advance X' = JBlank /\ decoded (col_advance X') = Some []
    /\ get_contribution_breakdown (sheet w') 2 = ""
    /\ col_id X' = "42" /\ col_name X' = "Ava"
    /\ col_username X' = "@ava" /\ col_link X' = profile_link 42 "Ava"
    /\ (forall r', r' <> 2%nat ->
                   row_at (sheet w') r' = row_at (sheet Sample.world) r').
Proof.
  apply (clear_resets_account Sample.world
           (mkUpdate Sample.rev (Some Sample.ava) []) Sample.ava 2%nat
           (mkRow "42" "Ava" "@ava" (profile_link 42 "Ava") "500"
                  "11-03-2026, 08:00 PM" "11-03-2026, 08:00 PM + ₱500 Riv"
                  (JText [("Riv", 500)])));
    vm_compute; reflexivity.
Defined.

(** C8.  [new], asked by a user who may modify balances in reply to a
    message of the member: when [find_user_row] finds a row for the
    member's id the answer is that the account exists and nothing changes;
    otherwise exactly one row is appended to the sheet, with the member's
    id, balance 0, the current time, an empty log and empty contributions. *)
Theorem new_creates_account_once
    (w : World) (update : Update) (target : User) :
  can_modify w (effective_user update) = true ->
  reply_to_message update = Some target ->
  match find_user_row (sheet w) (id target) with
  | Some _ => new update w = (Replied AlreadyHasAccount, w)
  | None =>
      exists w' x,
        new update w
        = (Replied (AccountCreated (profile_link (id target) (first_name target))
                                   (id target)), w')
        /\ sheet w' = sheet w ++ [x]
        /\ col_id x = Py.str (id target)
        /\ col_balance x = "0" /\ Py.int (col_balance x) = Some 0
        /\ col_updated x = strftime (clock w (ticks w))
        /\ col_tx x = "" /\ tx_list (col_tx x) = []
        /\ col_advance x = JBlank /\ decoded (col_advance x) = Some []
        /\ pending_transfers w' = pending_transfers w
        /\ ADMINS w' = ADMINS w
  end.
Proof.
  intros Hcan Hreply.
  unfold new, run. unfold_M. cbn. rewrite Hcan, Hreply. cbn.
  destruct (find_user_row (sheet w) (id target)) as [r |]; [reflexivity |].
  eexists _, _. split; [reflexivity |]. cbn. repeat split; reflexivity.
Qed.

Lemma new_creates_account_once_witness :
  new (mkUpdate Sample.rev (Some Sample.ava) []) Sample.world
  = (Replied AlreadyHasAccount, Sample.world)
  /\ exists w' x,
       new (mkUpdate Sample.rev (Some Sample.cy) []) Sample.world
       = (Replied (AccountCreated (profile_link 44 "Cy") 44), w')
       /\ sheet w' = Sample.ledger ++ [x]
       /\ col_id x = "44"
       /\ col_balance x = "0" /\ Py.int (col_balance x) = Some 0
       /\ col_updated x = "11-04-2026, 09:15 AM"
       /\ col_tx x = "" /\ tx_list (col_tx x) = []
       /\ col_advance x = JBlank /\ decoded (col_advance x) = Some []
       /\ pending_transfers w' = Sample.transfers
       /\ ADMINS w' = INITIAL_ADMINS.
Proof.
  split.
  - apply (new_creates_account_once Sample.world
             (mkUpdate Sample.rev (Some Sample.ava) []) Sample.ava);
      vm_compute; reflexivity.
  - apply (new_creates_account_once Sample.world
             (mkUpdate Sample.rev (Some Sample.cy) []) Sample.cy);
      vm_compute; reflexivity.
Defined.

(** ** The manager list *)

(** A successful promotion or demotion leaves in [admins.json] the list
    that is in memory. *)
Lemma prom_saves (w w' : World) (update : Update) :
  prom update w = (Replied Promoted, w') ->
  admins_json w' = Some (ADMINS w').
Proof.
  unfold prom, run. unfold_M. cbn.
  destruct (id (effective_user update) =? OWNER_ID); cbn; [| discriminate].
  destruct (reply_to_message update) as [target |]; cbn; [| discriminate].
  destruct (id target =? OWNER_ID); cbn; [discriminate |].
  destruct (bool_decide (username target ∈ ADMINS w)); cbn; [discriminate |].
  intros [= <-]. reflexivity.
Qed.

Lemma dem_saves (w w' : World) (update : Update) :
  dem update w = (Replied Demoted, w') ->
  admins_json w' = Some (ADMINS w').
Proof.
  unfold dem, run. unfold_M. cbn.
  destruct (id (effective_user update) =? OWNER_ID); cbn; [| discriminate].
  destruct (reply_to_message update) as [target |]; cbn; [| discriminate].
  destruct (id target =? OWNER_ID); cbn; [discriminate |].
  destruct (bool_decide (username target ∈ ADMINS w)); cbn; [| discriminate].
  intros [= <-]. reflexivity.
Qed.

(** The list in memory after a start is the literal one, whatever the
    file holds. *)
Lemma startup_admins (w : World) :
  ADMINS (startup w) = INITIAL_ADMINS /\ admins_json (startup w) = admins_json w.
Proof. split; reflexivity. Qed.

(** C4.  The owner promotes Cy on the sample ledger: the list in memory
    and the file both hold Cy, who may now modify balances.  After a
    restart the file still holds Cy, but the list in memory is the literal
    one and Cy may no longer modify balances: the list at startup is not
    the list last persisted. *)
Theorem restart_forgets_promotion :
  let promoted := snd (prom (mkUpdate Sample.riv (Some Sample.cy) []) Sample.world) in
  fst (prom (mkUpdate Sample.riv (Some Sample.cy) []) Sample.world)
  = Replied Promoted
  /\ ADMINS promoted = [Some "reviosa"; Some "zaonoror"; Some "cy"]
  /\ admins_json promoted = Some [Some "reviosa"; Some "zaonoror"; Some "cy"]
  /\ can_modify promoted Sample.cy = true
  /\ admins_json (startup promoted)
     = Some [Some "reviosa"; Some "zaonoror"; Some "cy"]
  /\ ADMINS (startup promoted) = [Some "reviosa"; Some "zaonoror"]
  /\ Some (ADMINS (startup promoted)) <> admins_json (startup promoted)
  /\ can_modify (startup promoted) Sample.cy = false.
Proof.
  cbv zeta. repeat split; try (vm_compute; reflexivity).
  vm_compute. discriminate.
Qed.

(** ** Proposals in [pending_transfers] *)

Section Frame.

Context {A B : Type}.

Lemma frame_ret (a : A) : proposes_nothing (ret a).
Proof. intros w. reflexivity. Qed.

Lemma frame_exit (r : Reply) : proposes_nothing (exit r : M A).
Proof. intros w. reflexivity. Qed.

Lemma frame_raise (e : Exn) : proposes_nothing (raise e : M A).
Proof. intros w. reflexivity. Qed.

Lemma frame_get (f : World -> A) : proposes_nothing (get f).
Proof. intros w. reflexivity. Qed.

Lemma frame_bind (m : M A) (k : A -> M B) :
  proposes_nothing m -> (forall a, proposes_nothing (k a)) ->
  proposes_nothing (bind m k).
Proof.
  intros Hm Hk w. unfold bind. specialize (Hm w).
  destruct (m w) as [[e | a] w1]; [exact Hm |].
  etransitivity; [apply Hk | exact Hm].
Qed.

End Frame.

Lemma frame_cell (r c : nat) : proposes_nothing (cell r c).
Proof. intros w. unfold cell. now destruct (row_at (sheet w) r). Qed.

Lemma frame_cell8 (r : nat) : proposes_nothing (cell8 r).
Proof. intros w. unfold cell8. now destruct (row_at (sheet w) r). Qed.

Lemma frame_row_values (r : nat) : proposes_nothing (row_values r).
Proof. intros w. unfold row_values. now destruct (row_at (sheet w) r). Qed.

Lemma frame_update_cell (r c : nat) (v : string) :
  proposes_nothing (update_cell r c v).
Proof. intros w. unfold update_cell. now destruct r. Qed.

Lemma frame_update_cell8 (r : nat) (v : JsonCell) :
  proposes_nothing (update_cell8 r v).
Proof. intros w. unfold update_cell8. now destruct r. Qed.

Lemma frame_item (x : Row) (k : nat) : proposes_nothing (item x k).
Proof. intros w. unfold item. now destruct (k <? row_len x)%nat. Qed.

Lemma frame_append_row (x : Row) : proposes_nothing (append_row x).
Proof. intros w. reflexivity. Qed.

Lemma frame_format_datetime : proposes_nothing format_datetime.
Proof. intros w. reflexivity. Qed.

Lemma frame_save_admins : proposes_nothing save_admins.
Proof. intros w. reflexivity. Qed.

Lemma frame_with_ADMINS (f : World -> list (option string)) :
  proposes_nothing (modify (fun w => with_ADMINS (f w) w)).
Proof. intros w. reflexivity. Qed.

Lemma frame_delete (k : string) :
  proposes_nothing
    (modify (fun w => with_pending (delete k (pending_transfers w)) w)).
Proof. intros w. cbn. apply delete_subseteq. Qed.

Lemma frame_int_or (on_error : M Z) (s : string) :
  proposes_nothing on_error -> proposes_nothing (int_or on_error s).
Proof. intros H. unfold int_or. destruct (Py.int s); [apply frame_ret | exact H]. Qed.

Lemma frame_loads (v : JsonCell) : proposes_nothing (loads_or_empty v).
Proof. destruct v; [apply frame_ret | apply frame_ret | apply frame_raise]. Qed.

Lemma frame_second_field (s : string) : proposes_nothing (second_field s).
Proof.
  unfold second_field. destruct (Py.split "_" s) as [| ? [| ? ?]];
    first [apply frame_raise | apply frame_ret].
Qed.

Lemma frame_run (m : M Reply) (w : World) :
  proposes_nothing m -> pending_transfers (snd (run m w)) ⊆ pending_transfers w.
Proof.
  intros H. unfold run. specialize (H w). now destruct (m w) as [[e | r] w1].
Qed.

(** One step through handler code, towards [proposes_nothing]. *)
Ltac frame_step :=
  first
    [ apply frame_bind; [| intros ?]
    | apply frame_ret | apply frame_exit | apply frame_raise | apply frame_get
    | apply frame_cell | apply frame_cell8 | apply frame_row_values
    | apply frame_update_cell | apply frame_update_cell8 | apply frame_item
    | apply frame_append_row | apply frame_format_datetime
    | apply frame_save_admins | apply frame_with_ADMINS | apply frame_delete
    | apply frame_int_or | apply frame_loads | apply frame_second_field
    | match goal with
      | |- proposes_nothing (match ?x with _ => _ end) => destruct x
      | |- proposes_nothing (if ?x then _ else _) => destruct x
      end ].

Ltac frame := unfold mbind, M_bind, mret, M_ret; repeat frame_step.

Lemma frame_write_balance (row : nat) (sign : string) (delta n : Z)
    (label : string) :
  proposes_nothing (write_balance row sign delta n label).
Proof. unfold write_balance. frame. Qed.

Lemma frame_confirm (user : User) (tid : string) :
  proposes_nothing (confirm_transfer user tid).
Proof. unfold confirm_transfer. frame. Qed.

Lemma frame_cancel (user : User) (tid : string) :
  proposes_nothing (cancel_transfer user tid).
Proof. unfold cancel_transfer. frame. Qed.

Lemma handlers_propose_nothing (e : Event) (w : World) :
  (forall u, e <> OnTransfer u) ->
  pending_transfers (snd (dispatch e w)) ⊆ pending_transfers w.
Proof.
  intros He.
  destruct e as [u | u | u | u | u | u | u | q]; cbn [dispatch];
    try (exfalso; eapply He; reflexivity); apply frame_run.
  - unfold new. frame.
  - unfold add. frame; apply frame_write_balance.
  - unfold use. frame; apply frame_write_balance.
  - unfold prom. frame.
  - unfold dem. frame.
  - unfold clear. frame.
  - unfold button_callback. frame; first [apply frame_confirm | apply frame_cancel].
Qed.

(** What a transfer request does to [pending_transfers]: nothing, or one
    proposal is stored, from the requester's row to a different row and for
    a positive amount that the requester's balance covers. *)
Lemma transfer_effect (update : Update) (w : World) :
  pending_transfers (snd (transfer update w)) = pending_transfers w
  \/ exists tid t,
       pending_transfers (snd (transfer update w))
       = <[tid := t]> (pending_transfers w)
       /\ proposal_ok t
       /\ sender_id t = id (effective_user update)
       /\ find_user_row (sheet w) (id (effective_user update))
          = Some (sender_row t).
Proof.
  unfold transfer, run. unfold_M. cbn.
  destruct (can_modify w (effective_user update)); cbn; [| now left].
  destruct (find_user_row (sheet w) (id (effective_user update)))
    as [sr |] eqn:Hs; cbn; [| now left].
  destruct (args update) as [| a0 [| a1 rest]]; cbn; try now left.
  destruct (Py.int a1) as [n |]; cbn; [| now left].
  destruct (n <=? 0) eqn:Hn; cbn; [now left |].
  destruct (find_user_by_username (sheet w) a0) as [tr |]; cbn; [| now left].
  destruct (row_at (sheet w) sr) as [x |] eqn:Hx; cbn; [| now left].
  destruct (Py.int (col_balance x)) as [bal |]; cbn; [| now left].
  destruct (bal <? n); cbn; [now left |].
  destruct (row_at (sheet w) tr) as [y |] eqn:Hy; cbn; [| now left].
  unfold item, ret, raise.
  destruct (row_len y) as [| [| len]]; cbn; try now left.
  destruct (String.eqb (col_id y) (Py.str (id (effective_user update))))
    eqn:Hself; cbn; [now left |].
  right. eexists _, _. split; [reflexivity |]. cbn.
  split; [| auto]. unfold proposal_ok. cbn.
  split; [| now apply Z.leb_gt in Hn].
  intros ->.
  destruct (find_user_row_spec _ _ _ Hs) as (x' & Hx' & Hid).
  rewrite Hy in Hx'. injection Hx' as <-.
  apply String.eqb_neq in Hself. contradiction.
Qed.

Lemma pending_ok_step (e : Event) (w : World) :
  pending_ok w -> pending_ok (snd (dispatch e w)).
Proof.
  intros Hw k t Hk.
  assert (Hcase : (exists u, e = OnTransfer u) \/ forall u, e <> OnTransfer u)
    by (destruct e; eauto; right; discriminate).
  destruct Hcase as [[u ->] | He].
  - cbn [dispatch] in Hk.
    destruct (transfer_effect u w) as [E | (tid & t' & E & Hok & _)];
      rewrite E in Hk.
    + eapply Hw; eauto.
    + apply lookup_insert_Some in Hk as [[_ <-] | [_ Hk]]; [exact Hok |].
      eapply Hw; eauto.
  - eapply Hw. eapply lookup_weaken; [exact Hk |].
    now apply handlers_propose_nothing.
Qed.

(** In every state the bot reaches, each pending proposal is between two
    different rows and for a positive amount. *)
Lemma pending_ok_reachable (es : list Event) (w0 : World) :
  pending_ok (run_events es (startup w0)).
Proof.
  unfold run_events.
  assert (H0 : pending_ok (startup w0)) by (intros k t Hk; discriminate Hk).
  revert H0. generalize (startup w0).
  induction es as [| e es IH]; intros w Hw; [exact Hw |].
  cbn [foldl]. apply IH. now apply pending_ok_step.
Qed.

(** ** A run of the bot

    The owner creates Ava's account, adds 500 to it and deducts 600: the
    balance is -100 and the owner's contribution entry is gone.  Rev then
    asks for a transfer to Bob and confirms it. *)
Example run_add_then_use :
  let w := run_events
             [ OnNew (mkUpdate Sample.riv (Some Sample.cy) []);
               OnAdd (mkUpdate Sample.riv (Some Sample.cy) ["500"]);
               OnUse (mkUpdate Sample.riv None ["@cy"; "600"]) ]
             (startup Sample.world) in
  option_map col_balance (row_at (sheet w) 5) = Some "-100"
  /\ option_map col_advance (row_at (sheet w) 5) = Some (JText [])
  /\ option_map (fun x => length (tx_list (col_tx x))) (row_at (sheet w) 5)
     = Some 2%nat.
Proof. vm_compute. repeat split; reflexivity. Qed.

Example run_transfer_then_confirm :
  let w := run_events
             [ OnTransfer (mkUpdate Sample.rev None ["@bob"; "200"]);
               OnButton (mkQuery Sample.rev "confirm_7_43_200_1793783700.25");
               OnButton (mkQuery Sample.rev "confirm_7_43_200_1793783700.25") ]
             (startup Sample.world) in
  option_map col_balance (row_at (sheet w) 4) = Some "100"
  /\ option_map col_balance (row_at (sheet w) 3) = Some "200"
  /\ pending_transfers w = ∅.
Proof. vm_compute. repeat split; reflexivity. Qed.

(** * Further properties *)

(** ** Identity columns *)

Transparent row_at write_row.

Section IdentFacts.

Implicit Types (sh : list Row) (f : Row -> Row) (i k : nat).

Lemma padded_lookup sh i :
  (sh ++ replicate (S i - length sh) blank_row) !! i
  = Some (default blank_row (sh !! i)).
Proof.
  destruct (decide (i < length sh)%nat) as [Hlt | Hge].
  - rewrite lookup_app_l by assumption.
    destruct (lookup_lt_is_Some_2 sh i Hlt) as [x Hx]. now rewrite Hx.
  - rewrite lookup_app_r by lia.
    rewrite (lookup_ge_None_2 sh i) by lia.
    rewrite lookup_replicate_2 by lia. reflexivity.
Qed.

(** Writing a row with a function that keeps the identity columns. *)
Lemma ident_write_row sh f i :
  (forall x, ident (f x) = ident x) ->
  ident <$> write_row i f sh
  = (ident <$> sh) ++ replicate (S i - length sh) (ident blank_row).
Proof.
  intros Hf. unfold write_row.
  rewrite list_fmap_insert, Hf.
  rewrite fmap_app, fmap_replicate.
  apply list_insert_id.
  rewrite <- fmap_replicate, <- fmap_app, list_lookup_fmap, padded_lookup.
  reflexivity.
Qed.

Lemma ident_set_text (c : nat) (v : string) (x : Row) :
  (5 <= c)%nat -> ident (set_text_cell c v x) = ident x.
Proof.
  intros Hc. do 8 (destruct c as [| c]; [reflexivity || lia |]). reflexivity.
Qed.

Lemma ident_set_advance (v : JsonCell) (x : Row) :
  ident (set_advance v x) = ident x.
Proof. reflexivity. Qed.

Lemma pads_refl sh : pads sh sh.
Proof. exists 0%nat. cbn. now rewrite app_nil_r. Qed.

Lemma pads_trans sh1 sh2 sh3 : pads sh1 sh2 -> pads sh2 sh3 -> pads sh1 sh3.
Proof.
  intros [k1 E1] [k2 E2]. exists (k1 + k2)%nat.
  rewrite E2, E1, <- app_assoc. f_equal. symmetry. apply replicate_add.
Qed.

Lemma pads_extends sh sh' : pads sh sh' -> extends sh sh'.
Proof. intros [k E]. unfold extends. rewrite E. now apply prefix_app_r. Qed.

Lemma trim_blank_replicate k : trim_blank (replicate k "") = [].
Proof. induction k as [| k IH]; [reflexivity |]. cbn. now rewrite IH. Qed.

Lemma trim_blank_padded (l : list string) k :
  trim_blank (l ++ replicate k "") = trim_blank l.
Proof.
  induction l as [| x l IH]; cbn; [apply trim_blank_replicate |].
  now rewrite IH.
Qed.

Lemma trim_blank_app (l l2 : list string) :
  exists t, trim_blank (l ++ l2) = trim_blank l ++ t.
Proof.
  induction l as [| x l [t IH]]; cbn; [eauto |].
  rewrite IH.
  destruct (trim_blank l) as [| y u]; cbn.
  - destruct t as [| z t]; [exists []; now rewrite app_nil_r |].
    destruct (Py.truthy x); [exists (z :: t) | exists (x :: z :: t)]; reflexivity.
  - exists t. reflexivity.
Qed.

Lemma index_where_app {A} (p : A -> bool) (l t : list A) (i : nat) :
  index_where p l = Some i -> index_where p (l ++ t) = Some i.
Proof.
  revert i. induction l as [| x l IH]; intros i; cbn; [discriminate |].
  destruct (p x); [trivial |].
  destruct (index_where p l) as [j |]; cbn; [| discriminate].
  intros [= <-]. now rewrite (IH j eq_refl).
Qed.

(** The first four columns as the sheet returns them depend on the
    identity columns only. *)
Lemma text_cell_ident (c : nat) (x y : Row) :
  (c <= 4)%nat -> ident x = ident y -> text_cell x c = text_cell y c.
Proof.
  intros Hc [= H1 H2 H3 H4].
  do 5 (destruct c as [| c]; [assumption || reflexivity |]). lia.
Qed.

Lemma map_text_cell sh (c : nat) :
  (c <= 4)%nat ->
  map (fun x => text_cell x c) sh = ident_cell c <$> (ident <$> sh).
Proof.
  intros Hc. rewrite <- list_fmap_compose. apply list_fmap_ext.
  intros _ x _. cbn. now apply text_cell_ident.
Qed.

Lemma col_values_pads sh sh' (c : nat) :
  (c <= 4)%nat -> pads sh sh' -> col_values sh' c = col_values sh c.
Proof.
  intros Hc [k E]. unfold col_values.
  rewrite !map_text_cell, E, fmap_app, fmap_replicate by assumption.
  replace (ident_cell c (ident blank_row)) with ""
    by (do 5 (destruct c as [| c]; [reflexivity |]); lia).
  apply trim_blank_padded.
Qed.

Lemma col_values_extends sh sh' (c : nat) :
  (c <= 4)%nat -> extends sh sh' ->
  exists t, col_values sh' c = col_values sh c ++ t.
Proof.
  intros Hc [ext E]. unfold col_values.
  rewrite !map_text_cell, E, fmap_app by assumption.
  apply trim_blank_app.
Qed.

End IdentFacts.

(** ** Steps that keep to the ledger cells *)

Section Quiet.

Lemma quiet_refl (w : World) : quiet w w.
Proof. repeat split; try reflexivity. apply pads_refl. Qed.

Lemma quiet_trans (w1 w2 w3 : World) : quiet w1 w2 -> quiet w2 w3 -> quiet w1 w3.
Proof.
  intros (A1 & F1 & C1 & P1 & S1) (A2 & F2 & C2 & P2 & S2).
  repeat split; try congruence.
  - etransitivity; eassumption.
  - eapply pads_trans; eassumption.
Qed.

Context {A B : Type}.

Lemma quiet_ret (a : A) : keeps_quiet (ret a).
Proof. intros w. apply quiet_refl. Qed.

Lemma quiet_exit (r : Reply) : keeps_quiet (exit r : M A).
Proof. intros w. apply quiet_refl. Qed.

Lemma quiet_raise (e : Exn) : keeps_quiet (raise e : M A).
Proof. intros w. apply quiet_refl. Qed.

Lemma quiet_get (f : World -> A) : keeps_quiet (get f).
Proof. intros w. apply quiet_refl. Qed.

Lemma quiet_bind (m : M A) (k : A -> M B) :
  keeps_quiet m -> (forall a, keeps_quiet (k a)) -> keeps_quiet (bind m k).
Proof.
  intros Hm Hk w. unfold bind. specialize (Hm w).
  destruct (m w) as [[e | a] w1]; [exact Hm |].
  eapply quiet_trans; [exact Hm | apply Hk].
Qed.

End Quiet.

Lemma quiet_cell (r c : nat) : keeps_quiet (cell r c).
Proof. intros w. unfold cell. destruct (row_at (sheet w) r); apply quiet_refl. Qed.

Lemma quiet_cell8 (r : nat) : keeps_quiet (cell8 r).
Proof. intros w. unfold cell8. destruct (row_at (sheet w) r); apply quiet_refl. Qed.

Lemma quiet_row_values (r : nat) : keeps_quiet (row_values r).
Proof.
  intros w. unfold row_values. destruct (row_at (sheet w) r); apply quiet_refl.
Qed.

Lemma quiet_item (x : Row) (k : nat) : keeps_quiet (item x k).
Proof.
  intros w. unfold item. destruct (k <? row_len x)%nat; apply quiet_refl.
Qed.

Lemma quiet_update_cell (r c : nat) (v : string) :
  (5 <= c)%nat -> keeps_quiet (update_cell r c v).
Proof.
  intros Hc w. unfold update_cell. destruct r as [| i]; [apply quiet_refl |].
  cbn. repeat split; try reflexivity.
  eexists. apply ident_write_row. intros x. now apply ident_set_text.
Qed.

Lemma quiet_update_cell8 (r : nat) (v : JsonCell) :
  keeps_quiet (update_cell8 r v).
Proof.
  intros w. unfold update_cell8. destruct r as [| i]; [apply quiet_refl |].
  cbn. repeat split; try reflexivity.
  eexists. apply ident_write_row. intros x. apply ident_set_advance.
Qed.

Lemma quiet_format_datetime : keeps_quiet format_datetime.
Proof. intros w. cbn. repeat split; try reflexivity. apply pads_refl. Qed.

Lemma quiet_delete (k : string) :
  keeps_quiet
    (modify (fun w => with_pending (delete k (pending_transfers w)) w)).
Proof.
  intros w. cbn. repeat split; try reflexivity;
    [apply delete_subseteq | apply pads_refl].
Qed.

Lemma quiet_int_or (on_error : M Z) (s : string) :
  keeps_quiet on_error -> keeps_quiet (int_or on_error s).
Proof.
  intros H. unfold int_or. destruct (Py.int s); [apply quiet_ret | exact H].
Qed.

Lemma quiet_loads (v : JsonCell) : keeps_quiet (loads_or_empty v).
Proof. destruct v; [apply quiet_ret | apply quiet_ret | apply quiet_raise]. Qed.

Lemma quiet_second_field (s : string) : keeps_quiet (second_field s).
Proof.
  unfold second_field. destruct (Py.split "_" s) as [| ? [| ? ?]];
    first [apply quiet_raise | apply quiet_ret].
Qed.

Lemma quiet_run (m : M Reply) (w : World) :
  keeps_quiet m -> quiet w (snd (run m w)).
Proof.
  intros H. unfold run. specialize (H w). now destruct (m w) as [[e | r] w1].
Qed.

Ltac quiet_step :=
  first
    [ apply quiet_bind; [| intros ?]
    | apply quiet_ret | apply quiet_exit | apply quiet_raise | apply quiet_get
    | apply quiet_cell | apply quiet_cell8 | apply quiet_row_values
    | apply quiet_update_cell; lia | apply quiet_update_cell8
    | apply quiet_item | apply quiet_format_datetime | apply quiet_delete
    | apply quiet_int_or | apply quiet_loads | apply quiet_second_field
    | match goal with
      | |- keeps_quiet (match ?x with _ => _ end) => destruct x
      | |- keeps_quiet (if ?x then _ else _) => destruct x
      end ].

Ltac quiet_code := unfold mbind, M_bind, mret, M_ret; repeat quiet_step.

Lemma quiet_write_balance (row : nat) (sign : string) (delta n : Z)
    (label : string) :
  keeps_quiet (write_balance row sign delta n label).
Proof. unfold write_balance. quiet_code. Qed.

Lemma quiet_confirm (user : User) (tid : string) :
  keeps_quiet (confirm_transfer user tid).
Proof. unfold confirm_transfer. quiet_code. Qed.

Lemma quiet_cancel (user : User) (tid : string) :
  keeps_quiet (cancel_transfer user tid).
Proof. unfold cancel_transfer. quiet_code. Qed.

(** [add], [use], [clear] and the button callbacks only write columns 5 to
    8 and only remove proposals. *)
Lemma ledger_handlers_quiet (e : Event) (w : World) :
  match e with
  | OnAdd _ | OnUse _ | OnClear _ | OnButton _ => True
  | _ => False
  end ->
  quiet w (snd (dispatch e w)).
Proof.
  destruct e as [u | u | u | u | u | u | u | q]; cbn [dispatch];
    intros He; try contradiction; apply quiet_run.
  - unfold add. quiet_code; apply quiet_write_balance.
  - unfold use. quiet_code; apply quiet_write_balance.
  - unfold clear. quiet_code.
  - unfold button_callback.
    quiet_code; first [apply quiet_confirm | apply quiet_cancel].
Qed.

(** ** What the other handlers change *)

(** [new] changes nothing, or appends one row for a member who had none. *)
Lemma new_effect (update : Update) (w : World) :
  snd (new update w) = w
  \/ exists target x,
       reply_to_message update = Some target
       /\ can_modify w (effective_user update) = true
       /\ find_user_row (sheet w) (id target) = None
       /\ col_id x = Py.str (id target)
       /\ snd (new update w)
          = with_sheet (sheet w ++ [x]) (with_ticks (S (ticks w)) w).
Proof.
  unfold new, run. unfold_M. cbn.
  destruct (can_modify w (effective_user update)) eqn:Hcan; cbn; [| now left].
  destruct (reply_to_message update) as [target |]; cbn; [| now left].
  destruct (find_user_row (sheet w) (id target)) eqn:Hfind; cbn; [now left |].
  right. eexists target, _. repeat split; first [reflexivity | assumption].
Qed.

(** [prom] changes nothing, or appends a handle that was not in the list
    and writes the file. *)
Lemma prom_effect (update : Update) (w : World) :
  (snd (prom update w) = w /\ fst (prom update w) <> Replied Promoted)
  \/ exists target,
       reply_to_message update = Some target
       /\ id (effective_user update) = OWNER_ID
       /\ id target <> OWNER_ID
       /\ (username target ∉ ADMINS w)
       /\ fst (prom update w) = Replied Promoted
       /\ snd (prom update w)
          = with_admins_json (Some (ADMINS w ++ [username target]))
              (with_ADMINS (ADMINS w ++ [username target]) w).
Proof.
  unfold prom, run. unfold_M. cbn.
  destruct (id (effective_user update) =? OWNER_ID) eqn:Ho; cbn; [| now left; split].
  destruct (reply_to_message update) as [target |]; cbn; [| now left; split].
  destruct (id target =? OWNER_ID) eqn:Ht; cbn; [now left; split |].
  destruct (bool_decide (username target ∈ ADMINS w)) eqn:Hin; cbn; [now left; split |].
  right. exists target. apply Z.eqb_eq in Ho. apply Z.eqb_neq in Ht.
  apply bool_decide_eq_false in Hin. repeat split; auto.
Qed.

(** [dem] changes nothing, or removes a handle that was in the list and
    writes the file. *)
Lemma dem_effect (update : Update) (w : World) :
  (snd (dem update w) = w /\ fst (dem update w) <> Replied Demoted)
  \/ exists target,
       reply_to_message update = Some target
       /\ id (effective_user update) = OWNER_ID
       /\ id target <> OWNER_ID
       /\ (username target ∈ ADMINS w)
       /\ fst (dem update w) = Replied Demoted
       /\ snd (dem update w)
          = with_admins_json (Some (list_remove (username target) (ADMINS w)))
              (with_ADMINS (list_remove (username target) (ADMINS w)) w).
Proof.
  unfold dem, run. unfold_M. cbn.
  destruct (id (effective_user update) =? OWNER_ID) eqn:Ho; cbn; [| now left; split].
  destruct (reply_to_message update) as [target |]; cbn; [| now left; split].
  destruct (id target =? OWNER_ID) eqn:Ht; cbn; [now left; split |].
  destruct (bool_decide (username target ∈ ADMINS w)) eqn:Hin; cbn; [| now left; split].
  right. exists target. apply Z.eqb_eq in Ho. apply Z.eqb_neq in Ht.
  apply bool_decide_eq_true in Hin. repeat split; auto.
Qed.

(** A transfer request reads the sheet and the manager list; it writes
    neither. *)
Lemma transfer_reads_only (update : Update) (w : World) :
  sheet (snd (transfer update w)) = sheet w
  /\ ADMINS (snd (transfer update w)) = ADMINS w
  /\ admins_json (snd (transfer update w)) = admins_json w
  /\ clock (snd (transfer update w)) = clock w.
Proof.
  unfold transfer, run. unfold_M. cbn.
  destruct (can_modify w (effective_user update)); cbn; [| auto].
  destruct (find_user_row (sheet w) (id (effective_user update))) as [sr |];
    cbn; [| auto].
  destruct (args update) as [| a0 [| a1 rest]]; cbn; auto.
  destruct (Py.int a1) as [n |]; cbn; [| auto].
  destruct (n <=? 0); cbn; [auto |].
  destruct (find_user_by_username (sheet w) a0) as [tr |]; cbn; [| auto].
  destruct (row_at (sheet w) _) as [x |]; cbn; [| auto].
  destruct (Py.int (col_balance x)) as [bal |]; cbn; [| auto].
  destruct (bal <? n); cbn; [auto |].
  destruct (row_at (sheet w) tr) as [y |]; cbn; [| auto].
  unfold item, ret, raise.
  destruct (row_len y) as [| [| len]]; cbn; auto.
  destruct (String.eqb (col_id y) (Py.str (id (effective_user update))));
    cbn; auto.
Qed.

(** ** Accounts stay where they are *)

Lemma extends_refl (sh : list Row) : extends sh sh.
Proof. unfold extends. reflexivity. Qed.

Lemma extends_trans (sh1 sh2 sh3 : list Row) :
  extends sh1 sh2 -> extends sh2 sh3 -> extends sh1 sh3.
Proof. unfold extends. intros H1 H2. etransitivity; eassumption. Qed.

(** No update removes a row or rewrites its identity columns. *)
Lemma sheet_extends_step (e : Event) (w : World) :
  extends (sheet w) (sheet (snd (dispatch e w))).
Proof.
  destruct e as [u | u | u | u | u | u | u | q].
  - cbn [dispatch].
    destruct (new_effect u w) as [-> | (t & x & _ & _ & _ & _ & ->)];
      [apply extends_refl |].
    cbn. unfold extends. rewrite fmap_app. now apply prefix_app_r.
  - apply pads_extends. now apply (ledger_handlers_quiet (OnAdd u) w).
  - apply pads_extends. now apply (ledger_handlers_quiet (OnUse u) w).
  - cbn [dispatch].
    destruct (prom_effect u w) as [[-> _] | (t & _ & _ & _ & _ & _ & ->)];
      apply extends_refl.
  - cbn [dispatch].
    destruct (dem_effect u w) as [[-> _] | (t & _ & _ & _ & _ & _ & ->)];
      apply extends_refl.
  - cbn [dispatch]. destruct (transfer_reads_only u w) as (-> & _).
    apply extends_refl.
  - apply pads_extends. now apply (ledger_handlers_quiet (OnClear u) w).
  - apply pads_extends. now apply (ledger_handlers_quiet (OnButton q) w).
Qed.

Lemma sheet_extends_run (es : list Event) (w : World) :
  extends (sheet w) (sheet (run_events es w)).
Proof.
  revert w. induction es as [| e es IH]; intros w; [apply extends_refl |].
  unfold run_events. cbn [foldl].
  eapply extends_trans; [apply sheet_extends_step | apply IH].
Qed.

Lemma find_user_row_extends (sh sh' : list Row) (uid : Z) (r : nat) :
  extends sh sh' ->
  find_user_row sh uid = Some r -> find_user_row sh' uid = Some r.
Proof.
  intros Hext. unfold find_user_row.
  destruct (col_values_extends sh sh' 1 ltac:(lia) Hext) as [t ->].
  destruct (index_where _ (col_values sh 1)) as [i |] eqn:E; [| discriminate].
  intros [= <-]. now rewrite (index_where_app _ _ t i E).
Qed.

Lemma find_user_by_username_extends (sh sh' : list Row) (name : string) (r : nat) :
  extends sh sh' ->
  find_user_by_username sh name = Some r ->
  find_user_by_username sh' name = Some r.
Proof.
  intros Hext. unfold find_user_by_username.
  destruct (col_values_extends sh sh' 3 ltac:(lia) Hext) as [t ->].
  destruct (index_where _ (col_values sh 3)) as [i |] eqn:E; [| discriminate].
  intros [= <-]. now rewrite (index_where_app _ _ t i E).
Qed.

(** X1.  Once an id or a username is found in some row, every later
    lookup finds it in the same row, whatever updates the bot handles in
    between: the row numbers kept in a pending transfer stay valid. *)
Theorem accounts_stay_put (es : list Event) (w : World) :
  (forall uid r,
      find_user_row (sheet w) uid = Some r ->
      find_user_row (sheet (run_events es w)) uid = Some r)
  /\ (forall name r,
         find_user_by_username (sheet w) name = Some r ->
         find_user_by_username (sheet (run_events es w)) name = Some r).
Proof.
  pose proof (sheet_extends_run es w) as Hext. split.
  - intros uid r. now apply find_user_row_extends.
  - intros name r. now apply find_user_by_username_extends.
Qed.

Lemma accounts_stay_put_witness :
  find_user_row
    (sheet (run_events
              [ OnNew (mkUpdate Sample.riv (Some Sample.cy) []);
                OnClear (mkUpdate Sample.riv (Some Sample.bob) []);
                OnButton (mkQuery Sample.rev "confirm_7_43_200_1793783700.25") ]
              Sample.world)) 43 = Some 3%nat
  /\ find_user_by_username
       (sheet (run_events
                 [ OnNew (mkUpdate Sample.riv (Some Sample.cy) []);
                   OnClear (mkUpdate Sample.riv (Some Sample.bob) []);
                   OnButton (mkQuery Sample.rev "confirm_7_43_200_1793783700.25") ]
                 Sample.world)) "@BOB" = Some 3%nat.
Proof.
  destruct (accounts_stay_put
              [ OnNew (mkUpdate Sample.riv (Some Sample.cy) []);
                OnClear (mkUpdate Sample.riv (Some Sample.bob) []);
                OnButton (mkQuery Sample.rev "confirm_7_43_200_1793783700.25") ]
              Sample.world) as [Hid Hname].
  split; [apply Hid | apply Hname]; vm_compute; reflexivity.
Defined.

(** X2.  The identity columns of a row of the table (id, name, username,
    link) are never rewritten: after any updates the row is still there
    and holds the same four values. *)
Theorem identity_columns_fixed (es : list Event) (w : World) (i : nat) (x : Row) :
  sheet w !! i = Some x ->
  exists x', sheet (run_events es w) !! i = Some x' /\ ident x' = ident x.
Proof.
  intros Hx. destruct (sheet_extends_run es w) as [ext E].
  assert (H : (ident <$> sheet (run_events es w)) !! i = Some (ident x)).
  { rewrite E. apply lookup_app_l_Some. now rewrite list_lookup_fmap, Hx. }
  rewrite list_lookup_fmap in H.
  destruct (sheet (run_events es w) !! i) as [x' |]; cbn in H; [| discriminate].
  exists x'. split; [reflexivity | congruence].
Qed.

Lemma identity_columns_fixed_witness :
  exists x',
    sheet (run_events
             [ OnAdd (mkUpdate Sample.riv (Some Sample.ava) ["100"]);
               OnClear (mkUpdate Sample.riv (Some Sample.ava) []);
               OnNew (mkUpdate Sample.riv (Some Sample.cy) []) ]
             Sample.world) !! 1%nat = Some x'
    /\ ident x' = ("42", "Ava", "@ava", profile_link 42 "Ava").
Proof.
  apply (identity_columns_fixed
           [ OnAdd (mkUpdate Sample.riv (Some Sample.ava) ["100"]);
             OnClear (mkUpdate Sample.riv (Some Sample.ava) []);
             OnNew (mkUpdate Sample.riv (Some Sample.cy) []) ]
           Sample.world 1%nat
           (mkRow "42" "Ava" "@ava" (profile_link 42 "Ava") "500"
                  "11-03-2026, 08:00 PM" "11-03-2026, 08:00 PM + ₱500 Riv"
                  (JText [("Riv", 500)]))).
  vm_compute. reflexivity.
Defined.

(** What one update can touch: the clock function never, the manager
    list and its file only under [prom] and [dem], the sheet not under
    [prom], [dem] and [transfer]. *)
Lemma footprint_step (e : Event) (w : World) :
  (match e with
   | OnProm _ | OnDem _ => True
   | _ => ADMINS (snd (dispatch e w)) = ADMINS w
          /\ admins_json (snd (dispatch e w)) = admins_json w
   end)
  /\ (match e with
      | OnProm _ | OnDem _ | OnTransfer _ => sheet (snd (dispatch e w)) = sheet w
      | _ => True
      end)
  /\ clock (snd (dispatch e w)) = clock w.
Proof.
  destruct e as [u | u | u | u | u | u | u | q]; cbn [dispatch].
  - destruct (new_effect u w) as [-> | (t & x & _ & _ & _ & _ & ->)]; auto.
  - destruct (ledger_handlers_quiet (OnAdd u) w I) as (? & ? & ? & _); auto.
  - destruct (ledger_handlers_quiet (OnUse u) w I) as (? & ? & ? & _); auto.
  - destruct (prom_effect u w) as [[-> _] | (t & _ & _ & _ & _ & _ & ->)]; auto.
  - destruct (dem_effect u w) as [[-> _] | (t & _ & _ & _ & _ & _ & ->)]; auto.
  - destruct (transfer_reads_only u w) as (? & ? & ? & ?); auto.
  - destruct (ledger_handlers_quiet (OnClear u) w I) as (? & ? & ? & _); auto.
  - destruct (ledger_handlers_quiet (OnButton q) w I) as (? & ? & ? & _); auto.
Qed.

(** X3.  Over any run of updates the clock function stays the same; a
    run without [prom] and [dem] leaves the manager list and its file as
    they were; and a run of [prom], [dem] and [transfer] requests only
    leaves the sheet as it was: only [new], [add], [use], [clear] and the
    button callbacks write the sheet. *)
Theorem footprint_of_updates (es : list Event) (w : World) :
  clock (run_events es w) = clock w
  /\ (Forall (fun e => match e with OnProm _ | OnDem _ => False | _ => True end) es ->
      ADMINS (run_events es w) = ADMINS w
      /\ admins_json (run_events es w) = admins_json w)
  /\ (Forall (fun e => match e with
                       | OnProm _ | OnDem _ | OnTransfer _ => True
                       | _ => False
                       end) es ->
      sheet (run_events es w) = sheet w).
Proof.
  unfold run_events. revert w.
  induction es as [| e es IH]; intros w; cbn [foldl]; [repeat split |].
  destruct (IH (snd (dispatch e w))) as (Hc & Ha & Hs).
  destruct (footprint_step e w) as (Ea & Es & Ec).
  split; [now rewrite Hc |]. split.
  - intros Hes. apply Forall_cons in Hes as [He Hes].
    destruct (Ha Hes) as [-> ->]. destruct e; first [contradiction | exact Ea].
  - intros Hes. apply Forall_cons in Hes as [He Hes].
    rewrite (Hs Hes). destruct e; first [contradiction | exact Es].
Qed.

Lemma footprint_of_updates_witness :
  ADMINS (run_events
            [ OnAdd (mkUpdate Sample.riv (Some Sample.ava) ["100"]);
              OnButton (mkQuery Sample.rev "confirm_7_43_200_1793783700.25") ]
            Sample.world) = ADMINS Sample.world
  /\ sheet (run_events
              [ OnProm (mkUpdate Sample.riv (Some Sample.cy) []);
                OnTransfer (mkUpdate Sample.rev None ["@bob"; "200"]) ]
              Sample.world) = sheet Sample.world.
Proof.
  split.
  - apply (footprint_of_updates
             [ OnAdd (mkUpdate Sample.riv (Some Sample.ava) ["100"]);
               OnButton (mkQuery Sample.rev "confirm_7_43_200_1793783700.25") ]
             Sample.world).
    repeat constructor.
  - apply (footprint_of_updates
             [ OnProm (mkUpdate Sample.riv (Some Sample.cy) []);
               OnTransfer (mkUpdate Sample.rev None ["@bob"; "200"]) ]
             Sample.world).
    repeat constructor.
Defined.

(** ** The manager list while the process runs *)

Section ManagerList.

Implicit Types (l : list (option string)) (x y : option string).

Lemma list_remove_subseteq l x : list_remove x l ⊆ l.
Proof.
  induction l as [| y l IH]; cbn; [reflexivity |].
  case_bool_decide; [intros z Hz; now right |].
  intros z Hz. apply elem_of_cons in Hz as [-> | Hz]; [left | right; now apply IH].
Qed.

Lemma list_remove_NoDup l x : NoDup l -> NoDup (list_remove x l).
Proof.
  induction 1 as [| y l Hy Hl IH]; cbn; [constructor |].
  case_bool_decide; [assumption |].
  constructor; [| assumption].
  intros Hin. apply Hy. now apply (list_remove_subseteq l x).
Qed.

Lemma list_remove_gone l x : NoDup l -> x ∉ list_remove x l.
Proof.
  induction 1 as [| y l Hy Hl IH]; cbn; [apply not_elem_of_nil |].
  case_bool_decide as E; [now subst |].
  intros Hin. apply elem_of_cons in Hin as [-> | Hin]; [congruence | contradiction].
Qed.

Lemma list_remove_other l x y : x <> y -> y ∈ l -> y ∈ list_remove x l.
Proof.
  intros Hxy. induction l as [| z l IH]; cbn; [trivial |].
  intros Hin. case_bool_decide as E.
  - subst z. apply elem_of_cons in Hin as [-> | Hin]; [congruence | assumption].
  - apply elem_of_cons in Hin as [-> | Hin]; [left | right; now apply IH].
Qed.

(** Removing the handle that was appended last gives the list back. *)
Lemma list_remove_appended l x : x ∉ l -> list_remove x (l ++ [x]) = l.
Proof.
  induction l as [| y l IH]; cbn; intros Hx.
  - now rewrite bool_decide_eq_true_2.
  - apply not_elem_of_cons in Hx as [Hxy Hx].
    rewrite bool_decide_eq_false_2 by assumption. now rewrite IH.
Qed.

End ManagerList.

Lemma admins_nodup_step (e : Event) (w : World) :
  NoDup (ADMINS w) -> NoDup (ADMINS (snd (dispatch e w))).
Proof.
  intros Hw.
  destruct e as [u | u | u | u | u | u | u | q];
    try (match goal with
         | |- context [dispatch ?e w] =>
             destruct (footprint_step e w) as ((-> & _) & _); exact Hw
         end);
    cbn [dispatch].
  - destruct (prom_effect u w) as [[-> _] | (t & _ & _ & _ & Hnew & _ & ->)];
      [exact Hw |].
    cbn. apply NoDup_app. split; [exact Hw |]. split.
    + intros x Hx Hx'. apply list_elem_of_singleton in Hx' as ->. contradiction.
    + apply NoDup_singleton.
  - destruct (dem_effect u w) as [[-> _] | (t & _ & _ & _ & _ & _ & ->)];
      [exact Hw |].
    cbn. now apply list_remove_NoDup.
Qed.

(** X4.  While the process runs no handle is twice in the manager list. *)
Theorem admins_nodup_reachable (es : list Event) (w0 : World) :
  NoDup (ADMINS (run_events es (startup w0))).
Proof.
  unfold run_events.
  assert (H0 : NoDup (ADMINS (startup w0))).
  { apply (bool_decide_unpack _). vm_compute. exact I. }
  revert H0. generalize (startup w0).
  induction es as [| e es IH]; intros w Hw; [exact Hw |].
  cbn [foldl]. apply IH. now apply admins_nodup_step.
Qed.

(** X5.  A demotion takes effect: in a state where no handle is listed
    twice (every state the bot reaches), after [dem] answers that the
    target is demoted the target's handle is no longer in the list or in
    the file, every other handle is kept, and the target may no longer
    modify balances. *)
Theorem dem_revokes (w : World) (update : Update) (target : User) :
  NoDup (ADMINS w) ->
  reply_to_message update = Some target ->
  fst (dem update w) = Replied Demoted ->
  let w' := snd (dem update w) in
  (username target ∉ ADMINS w')
  /\ admins_json w' = Some (ADMINS w')
  /\ (forall h, h <> username target -> h ∈ ADMINS w -> h ∈ ADMINS w')
  /\ can_modify w' target = false.
Proof.
  intros Hnd Hreply Hfst w'. subst w'.
  destruct (dem_effect update w) as [[_ Hno] | (t & Ht & _ & Hid & Hin & _ & E)];
    [contradiction |].
  rewrite Hreply in Ht. injection Ht as <-. rewrite E. cbn.
  split; [now apply list_remove_gone |].
  split; [reflexivity |].
  split; [intros h Hh; now apply list_remove_other |].
  unfold can_modify. cbn.
  apply Z.eqb_neq in Hid. rewrite Hid. cbn.
  apply bool_decide_eq_false_2. now apply list_remove_gone.
Qed.

Lemma dem_revokes_witness :
  (username Sample.rev ∉ ADMINS (snd (dem (mkUpdate Sample.riv (Some Sample.rev) []) Sample.world)))
  /\ admins_json (snd (dem (mkUpdate Sample.riv (Some Sample.rev) []) Sample.world))
     = Some (ADMINS (snd (dem (mkUpdate Sample.riv (Some Sample.rev) []) Sample.world)))
  /\ (forall h, h <> username Sample.rev -> h ∈ ADMINS Sample.world ->
                h ∈ ADMINS (snd (dem (mkUpdate Sample.riv (Some Sample.rev) []) Sample.world)))
  /\ can_modify (snd (dem (mkUpdate Sample.riv (Some Sample.rev) []) Sample.world)) Sample.rev = false.
Proof.
  apply (dem_revokes Sample.world (mkUpdate Sample.riv (Some Sample.rev) [])
           Sample.rev).
  - apply (bool_decide_unpack _). vm_compute. exact I.
  - reflexivity.
  - vm_compute. reflexivity.
Defined.

(** X6.  A promotion takes effect and a demotion undoes it: after [prom]
    answers that the target is promoted, the target's handle is last in
    the list, the file holds the list and the target may modify balances;
    a [dem] of the same target then succeeds and leaves the list, in
    memory and in the file, as it was before the promotion. *)
Theorem prom_then_dem (w : World) (update : Update) (target : User) :
  reply_to_message update = Some target ->
  fst (prom update w) = Replied Promoted ->
  let w1 := snd (prom update w) in
  let w2 := snd (dem update w1) in
  ADMINS w1 = ADMINS w ++ [username target]
  /\ admins_json w1 = Some (ADMINS w1)
  /\ can_modify w1 target = true
  /\ fst (dem update w1) = Replied Demoted
  /\ ADMINS w2 = ADMINS w
  /\ admins_json w2 = Some (ADMINS w).
Proof.
  intros Hreply Hfst w1 w2. subst w1 w2.
  destruct (prom_effect update w)
    as [[_ Hno] | (t & Ht & Ho & Hid & Hnew & _ & E)]; [contradiction |].
  rewrite Hreply in Ht. injection Ht as <-. rewrite E.
  assert (Hin : username target ∈ ADMINS w ++ [username target])
    by (apply elem_of_app; right; apply list_elem_of_singleton; reflexivity).
  split; [reflexivity |]. split; [reflexivity |].
  split.
  { unfold can_modify. cbn. rewrite bool_decide_eq_true_2 by exact Hin.
    apply orb_true_r. }
  unfold dem, run. unfold_M. cbn. rewrite Hreply.
  apply Z.eqb_eq in Ho. apply Z.eqb_neq in Hid. rewrite Ho, Hid. cbn.
  rewrite bool_decide_eq_true_2 by exact Hin. cbn.
  rewrite list_remove_appended by exact Hnew. auto.
Qed.

Lemma prom_then_dem_witness :
  ADMINS (snd (prom (mkUpdate Sample.riv (Some Sample.cy) []) Sample.world))
  = INITIAL_ADMINS ++ [Some "cy"]
  /\ admins_json (snd (prom (mkUpdate Sample.riv (Some Sample.cy) []) Sample.world))
     = Some (ADMINS (snd (prom (mkUpdate Sample.riv (Some Sample.cy) []) Sample.world)))
  /\ can_modify (snd (prom (mkUpdate Sample.riv (Some Sample.cy) []) Sample.world)) Sample.cy = true
  /\ fst (dem (mkUpdate Sample.riv (Some Sample.cy) [])
              (snd (prom (mkUpdate Sample.riv (Some Sample.cy) []) Sample.world)))
     = Replied Demoted
  /\ ADMINS (snd (dem (mkUpdate Sample.riv (Some Sample.cy) [])
               (snd (prom (mkUpdate Sample.riv (Some Sample.cy) []) Sample.world)))) = INITIAL_ADMINS
  /\ admins_json (snd (dem (mkUpdate Sample.riv (Some Sample.cy) [])
               (snd (prom (mkUpdate Sample.riv (Some Sample.cy) []) Sample.world)))) = Some INITIAL_ADMINS.
Proof.
  apply (prom_then_dem Sample.world (mkUpdate Sample.riv (Some Sample.cy) [])
           Sample.cy); vm_compute; reflexivity.
Defined.

(** X7.  Promoting a user who has no username puts the missing username
    itself in the list: from then on every user without a username may
    modify balances. *)
Theorem prom_without_username (w : World) (update : Update) (target : User) :
  reply_to_message update = Some target ->
  username target = None ->
  fst (prom update w) = Replied Promoted ->
  forall user, username user = None ->
               can_modify (snd (prom update w)) user = true.
Proof.
  intros Hreply Hnone Hfst user Huser.
  destruct (prom_effect update w)
    as [[_ Hno] | (t & Ht & _ & _ & _ & _ & E)]; [contradiction |].
  rewrite Hreply in Ht. injection Ht as <-. rewrite E.
  unfold can_modify. cbn. rewrite Huser, Hnone.
  rewrite bool_decide_eq_true_2; [apply orb_true_r |].
  apply elem_of_app. right. apply list_elem_of_singleton. reflexivity.
Qed.

Lemma prom_without_username_witness :
  can_modify
    (snd (prom (mkUpdate Sample.riv (Some (mkUser 50 "Dee" None None)) [])
               Sample.world))
    (mkUser 51 "Eve" None None) = true.
Proof.
  apply (prom_without_username Sample.world
           (mkUpdate Sample.riv (Some (mkUser 50 "Dee" None None)) [])
           (mkUser 50 "Dee" None None)); vm_compute; reflexivity.
Defined.

(** X8.  The manager list and its file change only through [prom] or
    [dem] sent by the owner. *)
Theorem only_owner_changes_managers (e : Event) (w : World) :
  ADMINS (snd (dispatch e w)) <> ADMINS w
  \/ admins_json (snd (dispatch e w)) <> admins_json w ->
  exists update,
    (e = OnProm update \/ e = OnDem update)
    /\ id (effective_user update) = OWNER_ID.
Proof.
  intros Hch.
  destruct e as [u | u | u | u | u | u | u | q];
    try (exfalso;
         match goal with
         | H : context [dispatch ?e w] |- _ =>
             destruct (footprint_step e w) as ((EA & EF) & _);
             rewrite EA, EF in H; destruct H; congruence
         end);
    cbn [dispatch] in Hch; exists u.
  - destruct (prom_effect u w) as [[E _] | (t & _ & Ho & _)];
      [rewrite E in Hch; destruct Hch; congruence | auto].
  - destruct (dem_effect u w) as [[E _] | (t & _ & Ho & _)];
      [rewrite E in Hch; destruct Hch; congruence | auto].
Qed.

Lemma only_owner_changes_managers_witness :
  exists update,
    (OnProm (mkUpdate Sample.riv (Some Sample.cy) []) = OnProm update
     \/ OnProm (mkUpdate Sample.riv (Some Sample.cy) []) = OnDem update)
    /\ id (effective_user update) = OWNER_ID.
Proof.
  apply (only_owner_changes_managers
           (OnProm (mkUpdate Sample.riv (Some Sample.cy) [])) Sample.world).
  left. vm_compute. discriminate.
Defined.

(** ** Who may write the ledger *)

Opaque row_at write_row.

(** X9.  A user who is neither the owner nor a manager is turned away by
    [new], [add], [use], [clear] and [transfer] before anything is read or
    written: each answers with its refusal and the state is unchanged. *)
Theorem unauthorised_changes_nothing (w : World) (update : Update) :
  can_modify w (effective_user update) = false ->
  new update w = (Replied OnlyManagersCreate, w)
  /\ add update w = (Replied OnlyManagersModify, w)
  /\ use update w = (Replied OnlyManagersModify, w)
  /\ clear update w = (Replied OnlyManagersClear, w)
  /\ transfer update w = (Replied TransfersDisabled, w).
Proof.
  intros Hcan.
  unfold new, add, use, clear, transfer, run. unfold_M. cbn.
  rewrite Hcan. cbn. repeat split; reflexivity.
Qed.

Lemma unauthorised_changes_nothing_witness :
  new (mkUpdate Sample.ava (Some Sample.cy) ["900"]) Sample.world
  = (Replied OnlyManagersCreate, Sample.world)
  /\ add (mkUpdate Sample.ava (Some Sample.cy) ["900"]) Sample.world
     = (Replied OnlyManagersModify, Sample.world)
  /\ use (mkUpdate Sample.ava (Some Sample.cy) ["900"]) Sample.world
     = (Replied OnlyManagersModify, Sample.world)
  /\ clear (mkUpdate Sample.ava (Some Sample.cy) ["900"]) Sample.world
     = (Replied OnlyManagersClear, Sample.world)
  /\ transfer (mkUpdate Sample.ava (Some Sample.cy) ["900"]) Sample.world
     = (Replied TransfersDisabled, Sample.world).
Proof.
  apply (unauthorised_changes_nothing Sample.world
           (mkUpdate Sample.ava (Some Sample.cy) ["900"])).
  vm_compute. reflexivity.
Defined.

(** ** Transfer requests *)

(** The facts behind a confirmation prompt of [transfer]. *)
Lemma transfer_prompt_facts
    (w : World) (update : Update) (tid : string) (n : Z) (name : string)
    (bal after : Z) :
  fst (transfer update w)
  = Replied (TransferConfirmation tid n name bal after) ->
  let w' := snd (transfer update w) in
  let user := effective_user update in
  exists t a0 a1 rest X Y,
    pending_transfers w' = <[tid := t]> (pending_transfers w)
    /\ sheet w' = sheet w /\ ADMINS w' = ADMINS w
    /\ can_modify w user = true
    /\ args update = a0 :: a1 :: rest
    /\ Py.int a1 = Some n /\ 0 < n /\ amount t = n
    /\ sender_id t = id user
    /\ find_user_row (sheet w) (id user) = Some (sender_row t)
    /\ find_user_by_username (sheet w) a0 = Some (target_row t)
    /\ sender_row t <> target_row t
    /\ row_at (sheet w) (sender_row t) = Some X
    /\ Py.int (col_balance X) = Some bal /\ n <= bal /\ after = bal - n
    /\ row_at (sheet w) (target_row t) = Some Y
    /\ target_id t = col_id Y /\ target_name t = col_name Y
    /\ name = col_name Y
    /\ col_id Y <> Py.str (id user)
    /\ tid = Py.str (id user) +:+ "_" +:+ col_id Y +:+ "_" +:+ Py.str n
               +:+ "_" +:+ timestamp (clock w (ticks w)).
Proof.
  cbv zeta. unfold transfer, run. unfold_M. cbn.
  destruct (can_modify w (effective_user update)) eqn:Hcan; cbn;
    [| discriminate].
  destruct (find_user_row (sheet w) (id (effective_user update)))
    as [sr |] eqn:Hs; cbn; [| discriminate].
  destruct (args update) as [| a0 [| a1 rest]]; cbn; try discriminate.
  destruct (Py.int a1) as [m |] eqn:Hint; cbn; [| discriminate].
  destruct (m <=? 0) eqn:Hm; cbn; [discriminate |].
  destruct (find_user_by_username (sheet w) a0) as [tr |] eqn:Ht; cbn;
    [| discriminate].
  destruct (row_at (sheet w) sr) as [X |] eqn:HX; cbn; [| discriminate].
  destruct (Py.int (col_balance X)) as [b |] eqn:Hb; cbn; [| discriminate].
  destruct (b <? m) eqn:Hbm; cbn; [discriminate |].
  destruct (row_at (sheet w) tr) as [Y |] eqn:HY; cbn; [| discriminate].
  unfold item, ret, raise.
  destruct (row_len Y) as [| [| len]]; cbn; try discriminate.
  destruct (String.eqb (col_id Y) (Py.str (id (effective_user update))))
    eqn:Hself; cbn; [discriminate |].
  intros [= <- <- <- <- <-].
  apply Z.leb_gt in Hm. apply Z.ltb_ge in Hbm. apply String.eqb_neq in Hself.
  eexists _, a0, a1, rest, X, Y. cbn.
  repeat (split; [first [reflexivity | assumption | lia] |]).
  split.
  { cbn. intros ->. destruct (find_user_row_spec _ _ _ Hs) as (x' & Hx' & Hid).
    rewrite HY in Hx'. injection Hx' as <-. contradiction. }
  repeat (split; [first [reflexivity | assumption | lia] |]).
  reflexivity.
Qed.

(** X10.  What a stored proposal records.  When [transfer] answers with a
    confirmation prompt for id [tid], the proposal stored under [tid] was
    asked by a user who may modify balances; its sender row is the row of
    the requester's id and its target row the row found for the username
    given, the two being different rows; its amount is the positive
    integer given, which the requester's balance covered; the target's id
    and name are those of the target row; and nothing else changed but the
    clock. *)
Theorem proposal_conditions
    (w : World) (update : Update) (tid : string) (n : Z) (name : string)
    (bal after : Z) :
  fst (transfer update w)
  = Replied (TransferConfirmation tid n name bal after) ->
  let w' := snd (transfer update w) in
  let user := effective_user update in
  exists t a0 a1 rest X Y,
    pending_transfers w' = <[tid := t]> (pending_transfers w)
    /\ sheet w' = sheet w /\ ADMINS w' = ADMINS w
    /\ can_modify w user = true
    /\ args update = a0 :: a1 :: rest
    /\ Py.int a1 = Some n /\ 0 < n /\ amount t = n
    /\ sender_id t = id user
    /\ find_user_row (sheet w) (id user) = Some (sender_row t)
    /\ find_user_by_username (sheet w) a0 = Some (target_row t)
    /\ sender_row t <> target_row t
    /\ row_at (sheet w) (sender_row t) = Some X
    /\ Py.int (col_balance X) = Some bal /\ n <= bal /\ after = bal - n
    /\ row_at (sheet w) (target_row t) = Some Y
    /\ target_id t = col_id Y /\ target_name t = col_name Y
    /\ name = col_name Y
    /\ col_id Y <> Py.str (id user)
    /\ tid = Py.str (id user) +:+ "_" +:+ col_id Y +:+ "_" +:+ Py.str n
               +:+ "_" +:+ timestamp (clock w (ticks w)).
Proof. apply transfer_prompt_facts. Qed.

Lemma proposal_conditions_witness :
  exists t a0 a1 rest X Y,
    pending_transfers (snd (transfer (mkUpdate Sample.rev None ["@bob"; "200"]) Sample.world))
    = <["7_43_200_1793783700.25" := t]> (pending_transfers Sample.world)
    /\ sheet (snd (transfer (mkUpdate Sample.rev None ["@bob"; "200"]) Sample.world)) = sheet Sample.world
    /\ ADMINS (snd (transfer (mkUpdate Sample.rev None ["@bob"; "200"]) Sample.world)) = ADMINS Sample.world
    /\ can_modify Sample.world Sample.rev = true
    /\ ["@bob"; "200"] = a0 :: a1 :: rest
    /\ Py.int a1 = Some 200 /\ 0 < 200 /\ amount t = 200
    /\ sender_id t = 7
    /\ find_user_row (sheet Sample.world) 7 = Some (sender_row t)
    /\ find_user_by_username (sheet Sample.world) a0 = Some (target_row t)
    /\ sender_row t <> target_row t
    /\ row_at (sheet Sample.world) (sender_row t) = Some X
    /\ Py.int (col_balance X) = Some 300 /\ 200 <= 300 /\ 100 = 300 - 200
    /\ row_at (sheet Sample.world) (target_row t) = Some Y
    /\ target_id t = col_id Y /\ target_name t = col_name Y
    /\ "Bob" = col_name Y
    /\ col_id Y <> Py.str 7
    /\ "7_43_200_1793783700.25"
       = Py.str 7 +:+ "_" +:+ col_id Y +:+ "_" +:+ Py.str 200
           +:+ "_" +:+ timestamp (clock Sample.world (ticks Sample.world)).
Proof.
  apply (proposal_conditions Sample.world (mkUpdate Sample.rev None ["@bob"; "200"])
           "7_43_200_1793783700.25" 200 "Bob" 300 100).
  vm_compute. reflexivity.
Defined.

(** ** From request to confirmation *)

Lemma startswith_app (p s : string) : Py.startswith (p +:+ s) p = true.
Proof.
  unfold Py.startswith. induction p as [| c p IH]; [now destruct s |].
  change (String.prefix (String c p) (String c (p +:+ s)) = true).
  cbn [String.prefix]. destruct (ascii_dec c c); [exact IH | congruence].
Qed.

Lemma contains_uint (c : ascii) (d : Decimal.uint) :
  Py.contains c (NilEmpty.string_of_uint d) = true ->
  Py.contains c "0123456789" = true.
Proof.
  induction d; cbn [NilEmpty.string_of_uint]; [discriminate | ..];
    rewrite contains_cons; intros H;
    (apply orb_true_iff in H as [H | H]; [| now apply IHd]);
    apply Ascii.eqb_eq in H; subst c; reflexivity.
Qed.

(** The characters of [str(n)] are digits and the minus sign. *)
Lemma contains_str (c : ascii) (z : Z) :
  Py.contains c (Py.str z) = true -> Py.contains c "-0123456789" = true.
Proof.
  assert (Hu : forall d, Py.contains c (NilZero.string_of_uint d) = true ->
                         Py.contains c "0123456789" = true).
  { intros d. unfold NilZero.string_of_uint.
    destruct d; try apply contains_uint.
    rewrite contains_cons. intros H.
    apply orb_true_iff in H as [H | H]; [| discriminate].
    apply Ascii.eqb_eq in H; subst c; reflexivity. }
  unfold Py.str. destruct (Z.to_int z) as [d | d]; cbn [NilZero.string_of_int].
  - intros H. apply Hu in H. rewrite contains_cons, H. apply orb_true_r.
  - rewrite contains_cons. intros H.
    apply orb_true_iff in H as [H | H].
    + apply Ascii.eqb_eq in H; subst c; reflexivity.
    + apply Hu in H. rewrite contains_cons, H. apply orb_true_r.
Qed.

(** The callback data of a Confirm button, [confirm_] followed by the
    transfer id, is read back by taking every [confirm_] out of it: that
    gives the id when the id has no letter [c]. *)
Lemma remove_from_no_c (s : string) :
  Py.contains "c" s = false -> Py.remove_from "confirm_" 0 s = s.
Proof.
  induction s as [| a s IH]; intros H; [reflexivity |].
  rewrite contains_cons in H. apply orb_false_iff in H as [Ha Hs].
  cbn [Py.remove_from String.prefix].
  destruct (ascii_dec "c" a) as [<- | _]; [discriminate |].
  now rewrite IH.
Qed.

Lemma remove_confirm (s : string) :
  Py.contains "c" s = false ->
  Py.remove_all "confirm_" ("confirm_" +:+ s) = s.
Proof.
  intros H. unfold Py.remove_all.
  change ("confirm_" +:+ s)
    with (String "c" (String "o" (String "n" (String "f" (String "i"
            (String "r" (String "m" (String "_" s)))))))).
  cbn [Py.remove_from].
  replace (String.prefix "confirm_"
             (String "c" (String "o" (String "n" (String "f" (String "i"
                (String "r" (String "m" (String "_" s)))))))))
    with true by (symmetry; exact (startswith_app "confirm_" s)).
  cbn [String.length Nat.sub Py.remove_from]. now apply remove_from_no_c.
Qed.

(** X11.  A request followed by its confirmation.  When [transfer]
    answers with a confirmation prompt for id [tid], the target's balance
    cell holds an integer, and neither the id cell of the target's row nor
    the clock's timestamp text has the letter [c] in it (the ids that
    [new] writes and a timestamp are decimal numbers), pressing the
    Confirm button (callback data [confirm_] followed by [tid]) as the
    requester answers that the transfer succeeded: the requester's balance
    is then the old one minus the amount, the target's the old one plus
    the amount, and the proposal is gone; pressing the button again finds
    the transfer expired and changes nothing more. *)
Theorem request_then_confirm
    (w : World) (update : Update) (tid : string) (n : Z) (name : string)
    (bal after : Z) (a0 : string) (tr : nat) (Y : Row) (bY : Z) :
  fst (transfer update w)
  = Replied (TransferConfirmation tid n name bal after) ->
  hd_error (args update) = Some a0 ->
  find_user_by_username (sheet w) a0 = Some tr ->
  row_at (sheet w) tr = Some Y ->
  Py.int (col_balance Y) = Some bY ->
  Py.contains "c" (col_id Y) = false ->
  Py.contains "c" (timestamp (clock w (ticks w))) = false ->
  let w1 := snd (transfer update w) in
  let query := mkQuery (effective_user update) ("confirm_" +:+ tid) in
  exists w2 sr X' Y',
    button_callback query w1 = (Replied (TransferSuccessful n name after), w2)
    /\ find_user_row (sheet w) (id (effective_user update)) = Some sr
    /\ row_at (sheet w2) sr = Some X'
    /\ Py.int (col_balance X') = Some (bal - n)
    /\ row_at (sheet w2) tr = Some Y'
    /\ Py.int (col_balance Y') = Some (bY + n)
    /\ pending_transfers w2 = delete tid (pending_transfers w)
    /\ button_callback query w2 = (Replied TransferExpired, w2).
Proof.
  intros Hfst Ha0 Htr HY HbY Hcid Hcts w1 query. subst w1 query.
  destruct (transfer_prompt_facts w update tid n name bal after Hfst)
    as (t & a0' & a1 & rest' & X & Y0 & Hp & Hsh & _ & _ & Hargs & _ & _ & Hamt
        & Hsid & Hsr & Htr' & Hne & HX & Hbx & Hle & -> & HY0 & _ & Htn & Hname
        & _ & Htid).
  rewrite Hargs in Ha0. injection Ha0 as ->.
  rewrite Htr in Htr'. injection Htr' as Etr.
  rewrite <- Etr in HY0, Hne. rewrite HY in HY0. injection HY0 as <-.
  assert (Hrm : Py.remove_all "confirm_" ("confirm_" +:+ tid) = tid).
  { apply remove_confirm. rewrite Htid, !contains_app, Hcid, Hcts.
    assert (Hstr : forall z, Py.contains "c" (Py.str z) = false).
    { intros z. destruct (Py.contains "c" (Py.str z)) eqn:E; [| reflexivity].
      apply contains_str in E. discriminate. }
    rewrite !Hstr. reflexivity. }
  set (w1 := snd (transfer update w)) in *.
  assert (Hlook : pending_transfers w1 !! tid = Some t)
    by (rewrite Hp; apply lookup_insert_eq).
  pose proof (confirm_success w1 (effective_user update) tid t Hlook Hsid X bal)
    as Hok.
  rewrite Hsh, <- Etr, Hamt in Hok.
  specialize (Hok HX Hbx Y bY HY HbY Hne Hle). cbv zeta in Hok.
  destruct Hok as (w2 & Hrun & HX' & HY' & _ & Hp2 & _).
  rewrite button_callback_confirm by apply startswith_app.
  cbn [data from_user]. rewrite Hrm. unfold run at 1. rewrite Hrun.
  rewrite Htn, <- Hname.
  exists w2, (sender_row t). eexists _, _.
  split; [reflexivity |]. split; [exact Hsr |].
  split; [exact HX' |].
  split; [cbn [set_text_cell col_balance]; apply int_str |].
  split; [exact HY' |].
  split; [cbn [set_text_cell col_balance]; apply int_str |].
  split; [rewrite Hp2, Hp; apply delete_insert_eq |].
  unfold run. rewrite confirm_expired; [reflexivity |].
  rewrite Hp2. apply lookup_delete_eq.
Qed.

Lemma request_then_confirm_witness :
  exists w2 sr X' Y',
    button_callback (mkQuery Sample.rev ("confirm_" +:+ "7_43_200_1793783700.25"))
      (snd (transfer (mkUpdate Sample.rev None ["@bob"; "200"]) (startup Sample.world)))
    = (Replied (TransferSuccessful 200 "Bob" 100), w2)
    /\ find_user_row (sheet (startup Sample.world)) 7 = Some sr
    /\ row_at (sheet w2) sr = Some X'
    /\ Py.int (col_balance X') = Some (300 - 200)
    /\ row_at (sheet w2) 3 = Some Y'
    /\ Py.int (col_balance Y') = Some (0 + 200)
    /\ pending_transfers w2
       = delete "7_43_200_1793783700.25" (pending_transfers (startup Sample.world))
    /\ button_callback (mkQuery Sample.rev ("confirm_" +:+ "7_43_200_1793783700.25")) w2
       = (Replied TransferExpired, w2).
Proof.
  apply (request_then_confirm (startup Sample.world) (mkUpdate Sample.rev None ["@bob"; "200"])
           "7_43_200_1793783700.25" 200 "Bob" 300 100 "@bob" 3%nat
           (mkRow "43" "Bob" "@bob" (profile_link 43 "Bob") "0"
                  "11-02-2026, 07:30 AM" "" JBlank) 0);
    vm_compute; reflexivity.
Defined.

(** The condition on the id cell is needed.  With an id cell that reads
    [confirm_9], the Confirm button under the prompt carries the id with
    [confirm_] in it, the callback takes both occurrences out, and the
    requester is told that the transfer has expired. *)
Example confirm_data_misread :
  let w := with_sheet
             (<[2%nat := mkRow "confirm_9" "Bob" "@bob" "" "0"
                               "11-02-2026, 07:30 AM" "" JBlank]> Sample.ledger)
             (startup Sample.world) in
  let update := mkUpdate Sample.rev None ["@bob"; "200"] in
  fst (transfer update w)
  = Replied (TransferConfirmation "7_confirm_9_200_1793783700.25" 200 "Bob"
                                  300 100)
  /\ fst (button_callback
            (mkQuery Sample.rev ("confirm_" +:+ "7_confirm_9_200_1793783700.25"))
            (snd (transfer update w)))
     = Replied TransferExpired.
Proof. vm_compute. split; reflexivity. Qed.

(** ** Cancelling, and a confirmation that fails half-way *)

Lemma cancel_unknown (w : World) (user : User) (tid : string) :
  pending_transfers w !! tid = None ->
  cancel_transfer user tid w = (inr TransferCancelled, w).
Proof.
  intros Hp. unfold cancel_transfer. unfold_M. cbn. now rewrite Hp.
Qed.

(** X12.  The sender's Cancel button discards the proposal and nothing
    else: the answer is that the transfer is cancelled, the state is the
    old one without the entry, a second cancel gives the same answer and
    changes nothing, and a confirmation of that id, by anyone, then finds
    the transfer expired. *)
Theorem cancel_discards_proposal
    (w : World) (query : CallbackQuery) (t : Transfer) :
  Py.startswith (data query) "cancel_" = true ->
  pending_transfers w !! Py.remove_all "cancel_" (data query) = Some t ->
  sender_id t = id (from_user query) ->
  let tid := Py.remove_all "cancel_" (data query) in
  let w' := with_pending (delete tid (pending_transfers w)) w in
  button_callback query w = (Replied TransferCancelled, w')
  /\ sheet w' = sheet w
  /\ button_callback query w' = (Replied TransferCancelled, w')
  /\ forall again,
       Py.startswith (data again) "confirm_" = true ->
       Py.remove_all "confirm_" (data again) = tid ->
       button_callback again w' = (Replied TransferExpired, w').
Proof.
  intros Hc Hp Hs tid w'. subst tid w'.
  rewrite !button_callback_cancel by assumption. unfold run.
  rewrite (cancel_by_owner w _ _ t Hp Hs).
  split; [reflexivity |]. split; [reflexivity |]. split.
  - rewrite cancel_unknown; [reflexivity |]. cbn. apply lookup_delete_eq.
  - intros again Hca Hid. rewrite button_callback_confirm by assumption.
    unfold run. rewrite confirm_expired; [reflexivity |].
    rewrite Hid. cbn. apply lookup_delete_eq.
Qed.

Lemma cancel_discards_proposal_witness :
  button_callback (mkQuery Sample.rev "cancel_7_43_200_1793783700.25")
                  Sample.world
  = (Replied TransferCancelled,
     with_pending (delete Sample.small_id Sample.transfers) Sample.world)
  /\ sheet (with_pending (delete Sample.small_id Sample.transfers) Sample.world)
     = Sample.ledger
  /\ button_callback (mkQuery Sample.rev "cancel_7_43_200_1793783700.25")
       (with_pending (delete Sample.small_id Sample.transfers) Sample.world)
     = (Replied TransferCancelled,
        with_pending (delete Sample.small_id Sample.transfers) Sample.world)
  /\ forall again,
       Py.startswith (data again) "confirm_" = true ->
       Py.remove_all "confirm_" (data again) = Sample.small_id ->
       button_callback again
         (with_pending (delete Sample.small_id Sample.transfers) Sample.world)
       = (Replied TransferExpired,
          with_pending (delete Sample.small_id Sample.transfers) Sample.world).
Proof.
  apply (cancel_discards_proposal Sample.world
           (mkQuery Sample.rev "cancel_7_43_200_1793783700.25")
           (mkTransfer 7 4 "43" 3 "Bob" 200));
    vm_compute; reflexivity.
Defined.

(** X13.  A confirmation that fails half-way.  The sender is debited
    before the target's balance is read: when the target's balance cell
    holds ASCII text that is not an integer, the empty cell apart, a
    confirmation by the sender with a sufficient balance ends with a
    [ValueError] after the sender's balance and log have been written, the
    target's row is as it was, and the proposal is still pending. *)
Theorem confirm_debits_before_credit
    (w : World) (query : CallbackQuery) (t : Transfer) (X Y : Row) (bx : Z) :
  Py.startswith (data query) "confirm_" = true ->
  pending_transfers w !! Py.remove_all "confirm_" (data query) = Some t ->
  sender_id t = id (from_user query) ->
  row_at (sheet w) (sender_row t) = Some X ->
  row_at (sheet w) (target_row t) = Some Y ->
  sender_row t <> target_row t ->
  Py.int (col_balance X) = Some bx ->
  Py.int (col_balance Y) = None ->
  col_balance Y <> "" ->
  Py.isascii (col_balance Y) = true ->
  amount t <= bx ->
  exists w' X',
    button_callback query w = (Raised ValueError, w')
    /\ row_at (sheet w') (sender_row t) = Some X'
    /\ Py.int (col_balance X') = Some (bx - amount t)
    /\ col_tx X'
       = prepend_tx (tx_entry (strftime (clock w (S (ticks w)))) "-" (amount t)
                              (target_name t)) (col_tx X)
    /\ row_at (sheet w') (target_row t) = Some Y
    /\ pending_transfers w' = pending_transfers w.
Proof.
  intros Hc Hp Hs HX HY Hne Hbx HbY _ _ Hle.
  destruct (row_at_S _ _ _ HX) as [i Ei].
  destruct (row_at_S _ _ _ HY) as [j Ej].
  rewrite button_callback_confirm by assumption.
  unfold run, confirm_transfer. unfold_M. cbn.
  rewrite Hp, Hs, Z.eqb_refl. cbn.
  rewrite Ei, Ej in *. rewrite HX. cbn. rewrite Hbx. cbn.
  rewrite (proj2 (Z.ltb_ge _ _)) by lia.
  read_rows.
  eexists _, _. split; [reflexivity |]. cbn.
  split; [read_rows; reflexivity |].
  split; [cbn; apply int_str |].
  split; [reflexivity |].
  split; [read_rows; reflexivity | reflexivity].
Qed.

(** On the sample ledger the manager Rev asks for a transfer to
    [@username], which the lookup finds in the header row, and confirms. *)
Lemma confirm_debits_before_credit_witness :
  exists w' X',
    button_callback (mkQuery Sample.rev "confirm_7_ID_200_1793783700.25")
      (snd (transfer (mkUpdate Sample.rev None ["@username"; "200"])
            (startup Sample.world)))
    = (Raised ValueError, w')
    /\ row_at (sheet w') 4 = Some X'
    /\ Py.int (col_balance X') = Some (300 - 200)
    /\ col_tx X'
       = prepend_tx (tx_entry "11-04-2026, 09:15 AM" "-" 200 "Name")
                    "11-03-2026, 09:00 PM + ₱300 Riv"
    /\ row_at (sheet w') 1
       = Some (mkRow "ID" "Name" "Username" "Link" "Balance" "Last Updated"
                     "Transactions" JBlank)
    /\ pending_transfers w'
       = pending_transfers
           (snd (transfer (mkUpdate Sample.rev None ["@username"; "200"])
            (startup Sample.world))).
Proof.
  apply (confirm_debits_before_credit
           (snd (transfer (mkUpdate Sample.rev None ["@username"; "200"])
            (startup Sample.world)))
           (mkQuery Sample.rev "confirm_7_ID_200_1793783700.25")
           (mkTransfer 7 4 "ID" 1 "Name" 200)
           (mkRow "7" "Rev" "@reviosa" (profile_link 7 "Rev") "300"
                  "11-03-2026, 09:00 PM" "11-03-2026, 09:00 PM + ₱300 Riv"
                  (JText [("Riv", 300)]))
           (mkRow "ID" "Name" "Username" "Link" "Balance" "Last Updated"
                  "Transactions" JBlank)
           300);
    first [ vm_compute; reflexivity | discriminate | vm_compute; discriminate ].
Defined.

(** ** Sequences of balance commands *)

Lemma can_modify_ADMINS (w w' : World) (user : User) :
  ADMINS w' = ADMINS w -> can_modify w' user = can_modify w user.
Proof. intros E. unfold can_modify. now rewrite E. Qed.

Lemma run_events_cons (e : Event) (es : list Event) (w : World) :
  run_events (e :: es) w = run_events es (snd (dispatch e w)).
Proof. reflexivity. Qed.

(** One [add] or [use] of a sequence: the balance moves by the signed
    amount, the log gains one entry, and the next command finds the
    account as this one did. *)
Lemma balance_op_step
    (w : World) (target : User) (o : BalanceOp) (r : nat) (X : Row) (b : Z)
    (d : dict) :
  can_modify w (op_actor o) = true ->
  find_user_row (sheet w) (id target) = Some r ->
  row_at (sheet w) r = Some X ->
  Py.int (col_balance X) = Some b ->
  decoded (col_advance X) = Some d ->
  one_line (strftime (clock w (S (ticks w)))) ->
  one_line (first_name (op_actor o)) ->
  let w' := snd (dispatch (op_event target o) w) in
  exists X' d',
    row_at (sheet w') r = Some X'
    /\ Py.int (col_balance X') = Some (b + op_delta o)
    /\ decoded (col_advance X') = Some d'
    /\ length (tx_list (col_tx X')) = S (length (tx_list (col_tx X)))
    /\ find_user_row (sheet w') (id target) = Some r
    /\ ADMINS w' = ADMINS w /\ clock w' = clock w.
Proof.
  intros Hcan Hfind HX Hb Hd Hclock Hname w'.
  pose proof (sheet_extends_step (op_event target o) w) as Hext.
  pose proof (footprint_step (op_event target o) w) as Hfoot.
  fold w' in Hext, Hfoot.
  assert (Hf : find_user_row (sheet w') (id target) = Some r)
    by (eapply find_user_row_extends; eassumption).
  set (update := mkUpdate (op_actor o) (Some target) [Py.str (op_amount o)]).
  assert (Haddr : addresses w update (Py.str (op_amount o)) r (first_name target)).
  { unfold addresses. cbn. split; [eauto | split; [assumption | reflexivity]]. }
  assert (Hent : forall sign,
             one_line sign ->
             length (tx_list
                       (prepend_tx
                          (tx_entry (strftime (clock w (S (ticks w)))) sign
                             (op_amount o) (first_name (op_actor o)))
                          (col_tx X)))
             = S (length (tx_list (col_tx X)))).
  { intros sign Hsign.
    rewrite tx_list_prepend;
      [reflexivity | now apply one_line_entry | apply entry_truthy]. }
  unfold op_event, op_delta in *. fold update in w', Hext, Hfoot, Hf.
  destruct (op_add o).
  - destruct (add_runs w update _ r _ Hcan Haddr (op_amount o) X b d
                (int_str _) HX Hb Hd) as (w1 & Hrun & Hrow & _).
    assert (Ew : w' = w1) by (subst w'; cbn [dispatch]; now rewrite Hrun).
    rewrite <- Ew in Hrow. cbn in Hfoot. destruct Hfoot as ((Ha & _) & _ & Hc).
    eexists _, _. split; [exact Hrow |]. cbn.
    split; [apply int_str |]. split; [reflexivity |].
    split; [now apply Hent |]. auto.
  - destruct (use_runs w update _ r _ Hcan Haddr (op_amount o) X b d
                (int_str _) HX Hb Hd) as (w1 & Hrun & Hrow & _).
    assert (Ew : w' = w1) by (subst w'; cbn [dispatch]; now rewrite Hrun).
    rewrite <- Ew in Hrow. cbn in Hfoot. destruct Hfoot as ((Ha & _) & _ & Hc).
    unfold update in Hrow. cbn [effective_user] in Hrow.
    destruct (dict_get (first_name (op_actor o)) d) as [v |].
    + eexists _, _. split; [exact Hrow |]. cbn.
      split; [rewrite <- Z.add_opp_r; apply int_str |]. split; [reflexivity |].
      split; [now apply Hent |]. auto.
    + eexists _, _. split; [exact Hrow |]. cbn.
      split; [rewrite <- Z.add_opp_r; apply int_str |]. split; [exact Hd |].
      split; [now apply Hent |]. auto.
Qed.

(** X14.  Balance and log after a sequence of commands.  When users who
    may modify balances send any sequence of [/add n] and [/use n] in
    reply to the holder of an account whose balance is b, the stored
    balance afterwards is b plus the sum of the signed amounts (no floor:
    it may go below zero), and the log has gained exactly one entry per
    command.  Entries are counted as the history view lists them, the
    clock text and the senders' names being one-line texts. *)
Theorem balance_is_signed_sum
    (ops : list BalanceOp) (w : World) (target : User) (r : nat) (X : Row)
    (b : Z) (d : dict) :
  (forall o, o ∈ ops ->
             can_modify w (op_actor o) = true
             /\ one_line (first_name (op_actor o))) ->
  (forall n, one_line (strftime (clock w n))) ->
  find_user_row (sheet w) (id target) = Some r ->
  row_at (sheet w) r = Some X ->
  Py.int (col_balance X) = Some b ->
  decoded (col_advance X) = Some d ->
  exists X',
    row_at (sheet (run_events (map (op_event target) ops) w)) r = Some X'
    /\ Py.int (col_balance X') = Some (b + sum_deltas ops)
    /\ length (tx_list (col_tx X'))
       = (length ops + length (tx_list (col_tx X)))%nat.
Proof.
  revert w X b d.
  induction ops as [| o ops IH]; intros w X b d Hops Hclock Hfind HX Hb Hd.
  - exists X. cbn. rewrite Z.add_0_r. auto.
  - destruct (Hops o ltac:(left)) as [Hcan Hname].
    destruct (balance_op_step w target o r X b d Hcan Hfind HX Hb Hd
                (Hclock _) Hname)
      as (X1 & d1 & HX1 & Hb1 & Hd1 & Hlen & Hfind1 & HA & HC).
    cbn [map]. rewrite run_events_cons.
    set (w1 := snd (dispatch (op_event target o) w)) in *.
    destruct (IH w1 X1 (b + op_delta o) d1) as (X' & HX' & Hb' & Hlen');
      try assumption.
    + intros o' Ho'. destruct (Hops o' ltac:(now right)) as [Hc' Hn'].
      split; [| exact Hn']. now rewrite (can_modify_ADMINS w w1).
    + intros n. rewrite HC. apply Hclock.
    + exists X'. split; [exact HX' |]. split.
      * rewrite Hb'. f_equal. cbn [sum_deltas foldr]. fold (sum_deltas ops). lia.
      * rewrite Hlen', Hlen. cbn [length]. lia.
Qed.

Lemma balance_is_signed_sum_witness :
  exists X',
    row_at
      (sheet
         (run_events
            (map (op_event Sample.ava)
               [ mkOp true Sample.riv 500; mkOp false Sample.rev 1200;
                 mkOp true Sample.rev 0 ])
            Sample.world)) 2 = Some X'
    /\ Py.int (col_balance X') = Some (500 + (500 + (- 1200 + (0 + 0))))
    /\ length (tx_list (col_tx X')) = (3 + 1)%nat.
Proof.
  apply (balance_is_signed_sum
           [ mkOp true Sample.riv 500; mkOp false Sample.rev 1200;
             mkOp true Sample.rev 0 ]
           Sample.world Sample.ava 2%nat
           (mkRow "42" "Ava" "@ava" (profile_link 42 "Ava") "500"
                  "11-03-2026, 08:00 PM" "11-03-2026, 08:00 PM + ₱500 Riv"
                  (JText [("Riv", 500)]))
           500 [("Riv", 500)]);
    try (vm_compute; reflexivity).
  intros o Ho.
  repeat (apply elem_of_cons in Ho as [-> | Ho]; [split; vm_compute; reflexivity |]).
  now apply elem_of_nil in Ho.
Defined.

(** ** Looking an account up *)

Transparent row_at write_row.

Section Lookup.

Implicit Types (sh : list Row) (l : list string).

Lemma index_where_first {A} (p : A -> bool) (l : list A) (i : nat) :
  index_where p l = Some i ->
  forall j v, (j < i)%nat -> l !! j = Some v -> p v = false.
Proof.
  revert i. induction l as [| x l IH]; intros i; cbn; [discriminate |].
  destruct (p x) eqn:Hp.
  - intros [= <-] j v Hj. lia.
  - destruct (index_where p l) as [i' |]; cbn; [| discriminate].
    intros [= <-] [| j] v Hj; cbn.
    + now intros [= <-].
    + apply (IH i' eq_refl). lia.
Qed.

Lemma index_where_None {A} (p : A -> bool) (l : list A) :
  index_where p l = None -> forall j v, l !! j = Some v -> p v = false.
Proof.
  induction l as [| x l IH]; cbn; [discriminate |].
  destruct (p x) eqn:Hp; [discriminate |].
  destruct (index_where p l); cbn; [discriminate |].
  intros _ [| j] v; cbn; [now intros [= <-] | now apply IH].
Qed.

Lemma index_where_found {A} (p : A -> bool) (l : list A) (j : nat) (v : A) :
  l !! j = Some v -> p v = true -> is_Some (index_where p l).
Proof.
  intros Hv Hp. destruct (index_where p l) eqn:E; [eauto |].
  rewrite (index_where_None p l E j v Hv) in Hp. discriminate.
Qed.

(** A value that is not blank is not trimmed away. *)
Lemma trim_blank_keeps l (i : nat) (v : string) :
  l !! i = Some v -> Py.truthy v = true -> trim_blank l !! i = Some v.
Proof.
  revert i. induction l as [| x l IH]; intros i; [discriminate |].
  cbn [trim_blank]. destruct i as [| i]; cbn.
  - intros [= <-] Hv. destruct (trim_blank l); [now rewrite Hv | reflexivity].
  - intros Hl Hv. specialize (IH i Hl Hv).
    destruct (trim_blank l); [discriminate | exact IH].
Qed.

Lemma str_truthy (z : Z) : Py.truthy (Py.str z) = true.
Proof.
  unfold Py.str. destruct (Z.to_int z) as [u | u]; cbn; [| reflexivity].
  unfold NilZero.string_of_uint. now destruct u.
Qed.

(** X15.  [find_user_row] returns the first row of the id: the row it
    returns holds the id, no row before it does, and an id held by some
    row of the table is always found. *)
Theorem find_user_row_first (sh : list Row) (uid : Z) :
  (forall r,
      find_user_row sh uid = Some r ->
      exists i x,
        r = S i /\ sh !! i = Some x /\ col_id x = Py.str uid
        /\ forall j y, (j < i)%nat -> sh !! j = Some y -> col_id y <> Py.str uid)
  /\ (forall i x,
         sh !! i = Some x -> col_id x = Py.str uid ->
         is_Some (find_user_row sh uid)).
Proof.
  unfold find_user_row, col_values. split.
  - intros r.
    destruct (index_where _ _) as [i |] eqn:E; cbn; [| discriminate].
    intros [= <-].
    pose proof (index_where_first _ _ _ E) as Hfirst.
    apply index_where_Some in E as (v & Hv & Hp).
    apply trim_blank_lookup in Hv.
    apply list_lookup_fmap_Some in Hv as (x & -> & Hx).
    exists i, x. repeat split; [exact Hx | now apply String.eqb_eq in Hp |].
    intros j y Hj Hy Heq.
    assert (Hl : map (fun x => text_cell x 1) sh !! j = Some (col_id y))
      by (change (map (fun x => text_cell x 1) sh)
            with ((fun x => text_cell x 1) <$> sh);
          now rewrite list_lookup_fmap, Hy).
    apply trim_blank_keeps in Hl; [| rewrite Heq; apply str_truthy].
    specialize (Hfirst j _ Hj Hl). rewrite Heq, String.eqb_refl in Hfirst.
    discriminate.
  - intros i x Hx Hid.
    assert (Hl : map (fun x => text_cell x 1) sh !! i = Some (Py.str uid))
      by (change (map (fun x => text_cell x 1) sh)
            with ((fun x => text_cell x 1) <$> sh);
          rewrite list_lookup_fmap, Hx; cbn; now rewrite Hid).
    apply trim_blank_keeps in Hl; [| apply str_truthy].
    destruct (index_where_found
                (fun val => String.eqb val (Py.str uid)) _ _ _ Hl
                (String.eqb_refl _)) as [k Hk].
    rewrite Hk. eauto.
Qed.

Lemma find_user_row_first_witness :
  (exists i x,
      4%nat = S i /\ Sample.ledger !! i = Some x /\ col_id x = Py.str 7
      /\ forall j y, (j < i)%nat -> Sample.ledger !! j = Some y ->
                     col_id y <> Py.str 7)
  /\ is_Some (find_user_row Sample.ledger 43).
Proof.
  destruct (find_user_row_first Sample.ledger 7) as [Hfirst _].
  destruct (find_user_row_first Sample.ledger 43) as [_ Hfound].
  split.
  - apply Hfirst. vm_compute. reflexivity.
  - apply (Hfound 2%nat
             (mkRow "43" "Bob" "@bob" (profile_link 43 "Bob") "0"
                    "11-02-2026, 07:30 AM" "" JBlank));
      vm_compute; reflexivity.
Defined.

End Lookup.

(** ** Creating an account, then looking it up *)

Section NewThenFind.

Lemma trim_blank_snoc (l : list string) (v : string) :
  Py.truthy v = true -> trim_blank (l ++ [v]) = l ++ [v].
Proof.
  intros Hv. induction l as [| x l IH]; cbn; [now rewrite Hv |].
  rewrite IH. now destruct l.
Qed.

Lemma index_where_snoc {A} (p : A -> bool) (l : list A) (v : A) :
  (forall j y, l !! j = Some y -> p y = false) -> p v = true ->
  index_where p (l ++ [v]) = Some (length l).
Proof.
  intros Hl Hv. induction l as [| x l IH]; cbn; [now rewrite Hv |].
  rewrite (Hl 0%nat x eq_refl), IH; [reflexivity |].
  intros j y Hy. apply (Hl (S j) y Hy).
Qed.

(** A row appended below a table that has no match is the first match. *)
Lemma col_lookup_snoc (p : string -> bool) (c : nat) (sh : list Row) (x : Row) :
  p "" = false ->
  index_where p (col_values sh c) = None ->
  p (text_cell x c) = true ->
  index_where p (col_values (sh ++ [x]) c) = Some (length sh).
Proof.
  unfold col_values. intros Hblank Hnone Hx.
  assert (Htruthy : Py.truthy (text_cell x c) = true).
  { destruct (text_cell x c); [congruence | reflexivity]. }
  rewrite map_app. cbn [map]. rewrite trim_blank_snoc by exact Htruthy.
  rewrite index_where_snoc; [now rewrite length_map | | exact Hx].
  intros j y Hy. destruct (Py.truthy y) eqn:Ey.
  - apply (index_where_None p _ Hnone j y). now apply trim_blank_keeps.
  - destruct y; [exact Hblank | discriminate].
Qed.

Lemma lower_blank (s : string) : Py.lower s = "" -> s = "".
Proof. destruct s; [reflexivity | discriminate]. Qed.

(** X16.  An account created by [new] is found afterwards: [find_user_row]
    returns the row that was appended, a second [new] for the member is
    refused, and, when the member has a handle that no row of the table
    matched, [find_user_by_username] returns the appended row for every
    spelling of the handle that differs only in letter case or leading
    [@]. *)
Theorem new_then_find (w : World) (update : Update) (target : User) :
  can_modify w (effective_user update) = true ->
  reply_to_message update = Some target ->
  find_user_row (sheet w) (id target) = None ->
  find_user_row (sheet (snd (new update w))) (id target)
  = Some (S (length (sheet w)))
  /\ new update (snd (new update w))
     = (Replied AlreadyHasAccount, snd (new update w))
  /\ forall h q,
       username target = Some h ->
       Py.truthy (Py.lstrip "@" h) = true ->
       Py.lower (Py.lstrip "@" q) = Py.lower (Py.lstrip "@" h) ->
       find_user_by_username (sheet w) q = None ->
       find_user_by_username (sheet (snd (new update w))) q
       = Some (S (length (sheet w))).
Proof.
  intros Hcan Hreply Hnone.
  assert (Hnew : snd (new update w)
                 = with_sheet
                     (sheet w
                      ++ [mkRow (Py.str (id target))
                                (if Py.truthy (full_name target)
                                 then full_name target else first_name target)
                                match username target with
                                | Some h => if Py.truthy h then "@" +:+ h else ""
                                | None => ""
                                end
                                (profile_link (id target) (first_name target))
                                "0" (strftime (clock w (ticks w))) "" JBlank])
                     (with_ticks (S (ticks w)) w)).
  { unfold new, run. unfold_M. cbn. rewrite Hcan. cbn. rewrite Hreply. cbn.
    rewrite Hnone. reflexivity. }
  assert (Hfound : find_user_row (sheet (snd (new update w))) (id target)
                   = Some (S (length (sheet w)))).
  { rewrite Hnew. cbn [sheet with_sheet with_ticks]. unfold find_user_row in *.
    cbv zeta in *. rewrite col_lookup_snoc; [reflexivity | | |].
    - pose proof (str_truthy (id target)) as H.
      destruct (Py.str (id target)); [discriminate | reflexivity].
    - destruct (index_where _ (col_values (sheet w) 1)); [discriminate | reflexivity].
    - cbn. apply String.eqb_refl. }
  split; [exact Hfound |]. split.
  - unfold new at 1. unfold run. unfold_M. cbn.
    replace (can_modify (snd (new update w)) (effective_user update)) with true
      by (rewrite Hnew; symmetry; exact Hcan).
    cbn. rewrite Hreply. cbn. rewrite Hfound. reflexivity.
  - intros h q Hh Htruthy Hq Hq_none.
    rewrite Hnew. cbn [sheet with_sheet with_ticks].
    unfold find_user_by_username in *. cbv zeta in *.
    rewrite col_lookup_snoc; [reflexivity | | |].
    + cbn. rewrite Hq.
      destruct (Py.lower (Py.lstrip "@" h)) eqn:Heq; [| reflexivity].
      apply lower_blank in Heq. rewrite Heq in Htruthy. discriminate.
    + destruct (index_where _ (col_values (sheet w) 3)); [discriminate | reflexivity].
    + cbn [text_cell col_username]. rewrite Hh.
      assert (Hh' : Py.truthy h = true)
        by (destruct h; [discriminate | reflexivity]).
      rewrite Hh'. cbn. rewrite Hq. apply String.eqb_refl.
Qed.

Lemma new_then_find_witness :
  find_user_row
    (sheet (snd (new (mkUpdate Sample.riv (Some Sample.cy) []) Sample.world)))
    (id Sample.cy)
  = Some 5%nat
  /\ find_user_by_username
       (sheet (snd (new (mkUpdate Sample.riv (Some Sample.cy) []) Sample.world)))
       "@CY"
     = Some 5%nat.
Proof.
  destruct (new_then_find Sample.world (mkUpdate Sample.riv (Some Sample.cy) [])
              Sample.cy) as (Hrow & _ & Hname);
    try (vm_compute; reflexivity).
  split; [exact Hrow |].
  apply (Hname "cy" "@CY"); vm_compute; reflexivity.
Defined.

End NewThenFind.

(** ** Pending proposals keep pointing at their accounts *)

Section PointsAt.

Lemma find_user_by_username_row (sh : list Row) (name : string) (r : nat) :
  find_user_by_username sh name = Some r ->
  exists i y, r = S i /\ sh !! i = Some y /\ row_at sh r = Some y.
Proof.
  unfold find_user_by_username, col_values. cbv zeta.
  destruct (index_where _ _) as [i |] eqn:E; cbn; [| discriminate].
  intros [= <-].
  apply index_where_Some in E as (v & Hv & _).
  apply trim_blank_lookup in Hv.
  apply list_lookup_fmap_Some in Hv as (y & _ & Hy).
  exists i, y. cbn. now rewrite Hy.
Qed.

Lemma extends_lookup (sh sh' : list Row) (i : nat) (x : Row) :
  extends sh sh' -> sh !! i = Some x ->
  exists x', sh' !! i = Some x' /\ ident x' = ident x.
Proof.
  intros [ext E] Hx.
  assert (H : (ident <$> sh') !! i = Some (ident x)).
  { rewrite E. apply lookup_app_l_Some. now rewrite list_lookup_fmap, Hx. }
  rewrite list_lookup_fmap in H.
  destruct (sh' !! i) as [x' |]; cbn in H; [| discriminate].
  exists x'. split; [reflexivity | congruence].
Qed.

Lemma points_at_extends (sh sh' : list Row) (t : Transfer) :
  extends sh sh' -> points_at sh t -> points_at sh' t.
Proof.
  intros Hext (Hs & Hne & i & y & Hr & Hy & Hid & Hname).
  repeat split; [now apply (find_user_row_extends sh) | exact Hne |].
  destruct (extends_lookup _ _ _ _ Hext Hy) as (y' & Hy' & Hident).
  exists i, y'. repeat split; [exact Hr | exact Hy' | |].
  - rewrite <- Hid. now injection Hident.
  - rewrite <- Hname. now injection Hident.
Qed.

(** What a transfer request stores. *)
Lemma transfer_stores (update : Update) (w : World) :
  pending_transfers (snd (transfer update w)) = pending_transfers w
  \/ exists tid t,
       pending_transfers (snd (transfer update w))
       = <[tid := t]> (pending_transfers w)
       /\ points_at (sheet w) t.
Proof.
  unfold transfer, run. unfold_M. cbn.
  destruct (can_modify w (effective_user update)); cbn; [| now left].
  destruct (find_user_row (sheet w) (id (effective_user update)))
    as [sr |] eqn:Hs; cbn; [| now left].
  destruct (args update) as [| a0 [| a1 rest]]; cbn; try now left.
  destruct (Py.int a1) as [n |]; cbn; [| now left].
  destruct (n <=? 0) eqn:Hn; cbn; [now left |].
  destruct (find_user_by_username (sheet w) a0) as [tr |] eqn:Ht; cbn;
    [| now left].
  apply find_user_by_username_row in Ht as (i & y & -> & Hy & Hrow).
  destruct sr as [| j]; [now left |].
  cbn [row_at]. cbn.
  destruct (Py.int (col_balance (default blank_row (sheet w !! j))))
    as [bal |]; cbn; [| now left].
  destruct (bal <? n); cbn; [now left |].
  rewrite Hy. cbn.
  unfold item, ret, raise.
  destruct (row_len y) as [| [| len]]; cbn; try now left.
  destruct (String.eqb (col_id y) (Py.str (id (effective_user update))))
    eqn:Hself; cbn; [now left |].
  right. eexists _, _. split; [reflexivity |].
  unfold points_at. cbn. split; [exact Hs |].
  split; [now apply String.eqb_neq in Hself |].
  exists i, y. repeat split. exact Hy.
Qed.

Lemma points_at_step (e : Event) (w : World) :
  (forall k t, pending_transfers w !! k = Some t -> points_at (sheet w) t) ->
  forall k t,
    pending_transfers (snd (dispatch e w)) !! k = Some t ->
    points_at (sheet (snd (dispatch e w))) t.
Proof.
  intros Hw k t Hk.
  assert (Hcase : (exists u, e = OnTransfer u) \/ forall u, e <> OnTransfer u)
    by (destruct e; eauto; right; discriminate).
  destruct Hcase as [[u ->] | He].
  - cbn [dispatch] in *.
    destruct (transfer_reads_only u w) as (-> & _).
    destruct (transfer_stores u w) as [E | (tid & t' & E & Hok)];
      rewrite E in Hk.
    + eapply Hw; eauto.
    + apply lookup_insert_Some in Hk as [[_ <-] | [_ Hk]]; [exact Hok |].
      eapply Hw; eauto.
  - apply (points_at_extends (sheet w)); [apply sheet_extends_step |].
    eapply Hw. eapply lookup_weaken; [exact Hk |].
    now apply handlers_propose_nothing.
Qed.

(** The proposals of a reachable state point at their accounts. *)
Lemma points_at_reachable (es : list Event) (w0 : World) :
  forall k t,
    pending_transfers (run_events es (startup w0)) !! k = Some t ->
    points_at (sheet (run_events es (startup w0))) t.
Proof.
  unfold run_events.
  assert (H0 : forall k t, pending_transfers (startup w0) !! k = Some t ->
                           points_at (sheet (startup w0)) t)
    by (intros k t Hk; discriminate Hk).
  revert H0. generalize (startup w0).
  induction es as [| e es IH]; intros w Hw; [exact Hw |].
  cbn [foldl]. apply IH. now apply points_at_step.
Qed.

(** X17.  In every state the bot reaches, each pending proposal still
    names the accounts its row numbers hold: the sender's id is found in
    the proposal's sender row, and the target row is a row of the table
    that carries the proposal's target id and name, which is not the
    sender's id, whatever was handled since the request. *)
Theorem pending_points_at_accounts (es : list Event) (w0 : World) :
  forall k t,
    pending_transfers (run_events es (startup w0)) !! k = Some t ->
    points_at (sheet (run_events es (startup w0))) t.
Proof. apply points_at_reachable. Qed.

Lemma pending_points_at_accounts_witness :
  points_at
    (sheet (run_events
              [ OnTransfer (mkUpdate Sample.rev None ["@bob"; "200"]);
                OnNew (mkUpdate Sample.riv (Some Sample.cy) []);
                OnClear (mkUpdate Sample.riv (Some Sample.bob) []) ]
              (startup Sample.world)))
    (mkTransfer 7 4 "43" 3 "Bob" 200).
Proof.
  apply (pending_points_at_accounts
           [ OnTransfer (mkUpdate Sample.rev None ["@bob"; "200"]);
             OnNew (mkUpdate Sample.riv (Some Sample.cy) []);
             OnClear (mkUpdate Sample.riv (Some Sample.bob) []) ]
           Sample.world "7_43_200_1793783700.25").
  vm_compute. reflexivity.
Defined.

End PointsAt.

(** ** The account views *)

Opaque row_at write_row.

Section Views.

Lemma split_without (sep : ascii) (s : string) :
  Py.contains sep s = false -> Py.split sep s = [s].
Proof.
  induction s as [| c s IH]; intros H; [reflexivity |].
  rewrite contains_cons in H. apply orb_false_iff in H as [Hc Hs].
  cbn [Py.split]. rewrite Hc, IH by assumption. reflexivity.
Qed.

Lemma split_str (z : Z) : Py.split "_" (Py.str z) = [Py.str z].
Proof.
  apply split_without.
  destruct (Py.contains "_" (Py.str z)) eqn:E; [| reflexivity].
  apply contains_str in E. discriminate.
Qed.

(** What the two view callbacks answer for the account of an id. *)
Lemma view_callbacks
    (w : World) (user : User) (uid : Z) (r : nat) (X : Row) :
  find_user_row (sheet w) uid = Some r ->
  row_at (sheet w) r = Some X ->
  button_callback (mkQuery user ("tx_" +:+ Py.str uid)) w
  = (Replied (TransactionHistory (tx_display (tx_list (col_tx X)))
                                 (length (tx_list (col_tx X)))), w)
  /\ forall b,
       (6 <= row_len X)%nat ->
       Py.int (col_balance X) = Some b ->
       button_callback (mkQuery user ("back_" +:+ Py.str uid)) w
       = (Replied (AccountDetails (col_name X) (col_username X) (col_id X)
                                  (format_money b)
                                  (get_contribution_breakdown (sheet w) r)
                                  (col_updated X)), w).
Proof.
  intros Hfind HX. split.
  - unfold button_callback, run, second_field. cbn [from_user data].
    rewrite startswith_app.
    assert (Hsplit : Py.split "_" ("tx_" +:+ Py.str uid) = ["tx"; Py.str uid]).
    { change ("tx_" +:+ Py.str uid)
        with (String "t" (String "x" (String "_" (Py.str uid)))).
      cbn [Py.split Ascii.eqb Bool.eqb]. rewrite split_str. reflexivity. }
    rewrite Hsplit. unfold_M. cbn. rewrite int_str. cbn. rewrite Hfind. cbn.
    rewrite HX. cbn. rewrite HX. reflexivity.
  - intros b Hlen Hb.
    unfold button_callback, run, second_field. cbn [from_user data].
    change (Py.startswith ("back_" +:+ Py.str uid) "tx_") with false.
    rewrite startswith_app. cbv iota.
    assert (Hsplit : Py.split "_" ("back_" +:+ Py.str uid) = ["back"; Py.str uid]).
    { change ("back_" +:+ Py.str uid)
        with (String "b" (String "a" (String "c" (String "k"
                (String "_" (Py.str uid)))))).
      cbn [Py.split Ascii.eqb Bool.eqb]. rewrite split_str. reflexivity. }
    rewrite Hsplit. unfold_M. cbn. rewrite int_str. cbn. rewrite Hfind. cbn.
    rewrite HX. cbn. unfold item, ret, raise.
    repeat match goal with
           | |- context [(?k <? row_len X)%nat] =>
               replace (k <? row_len X)%nat with true
                 by (symmetry; apply Nat.ltb_lt; lia)
           end.
    cbn. rewrite Hb. reflexivity.
Qed.

(** X18.  The buttons of an account view address the account by its id,
    as [tx_<id>] and [back_<id>].  Pressed by any user at all, the first
    answers with the display of the account's stored log and the count of
    all its entries; the second, for a row that holds its six leading
    cells and an integer balance, answers with the
    account's name, handle, id, balance, contribution breakdown and time
    of last update.  Neither changes the state. *)
Theorem account_views
    (w : World) (user : User) (uid : Z) (r : nat) (X : Row) :
  find_user_row (sheet w) uid = Some r ->
  row_at (sheet w) r = Some X ->
  button_callback (mkQuery user ("tx_" +:+ Py.str uid)) w
  = (Replied (TransactionHistory (tx_display (tx_list (col_tx X)))
                                 (length (tx_list (col_tx X)))), w)
  /\ forall b,
       (6 <= row_len X)%nat ->
       Py.int (col_balance X) = Some b ->
       button_callback (mkQuery user ("back_" +:+ Py.str uid)) w
       = (Replied (AccountDetails (col_name X) (col_username X) (col_id X)
                                  (format_money b)
                                  (get_contribution_breakdown (sheet w) r)
                                  (col_updated X)), w).
Proof. apply view_callbacks. Qed.

Lemma account_views_witness :
  button_callback (mkQuery Sample.bob ("tx_" +:+ Py.str 42)) Sample.world
  = (Replied (TransactionHistory "• 11-03-2026, 08:00 PM + ₱500 Riv" 1),
     Sample.world)
  /\ button_callback (mkQuery Sample.bob ("back_" +:+ Py.str 42)) Sample.world
     = (Replied (AccountDetails "Ava" "@ava" "42" "₱500"
                   (get_contribution_breakdown (sheet Sample.world) 2)
                   "11-03-2026, 08:00 PM"), Sample.world).
Proof.
  destruct (account_views Sample.world Sample.bob 42 2%nat
              (mkRow "42" "Ava" "@ava" (profile_link 42 "Ava") "500"
                     "11-03-2026, 08:00 PM" "11-03-2026, 08:00 PM + ₱500 Riv"
                     (JText [("Riv", 500)])))
    as [Htx Hback]; try (vm_compute; reflexivity).
  split; [exact Htx |].
  apply (Hback 500); [vm_compute; lia | vm_compute; reflexivity].
Defined.

End Views.

(** ** What the callbacks and [clear] leave alone *)

Section Untouched.

(** A button callback leaves the sheet as it is, unless it is a
    confirmation by the sender of a pending proposal whose balance covers
    the amount. *)
Lemma button_callback_sheet (q : CallbackQuery) (w : World) :
  sheet (snd (button_callback q w)) = sheet w
  \/ (Py.startswith (data q) "confirm_" = true
      /\ exists t X b,
           pending_transfers w !! Py.remove_all "confirm_" (data q) = Some t
           /\ sender_id t = id (from_user q)
           /\ row_at (sheet w) (sender_row t) = Some X
           /\ Py.int (col_balance X) = Some b
           /\ amount t <= b).
Proof.
  unfold button_callback, run, second_field.
  destruct (Py.startswith (data q) "tx_").
  { left. destruct (Py.split "_" (data q)) as [| ? [| s ?]]; unfold_M; cbn;
      try reflexivity.
    destruct (Py.int s); cbn; [| reflexivity].
    destruct (find_user_row (sheet w) _) as [r |]; cbn; [| reflexivity].
    destruct (row_at (sheet w) r) eqn:Hr; cbn; [| reflexivity].
    rewrite Hr. reflexivity. }
  destruct (Py.startswith (data q) "back_").
  { left. destruct (Py.split "_" (data q)) as [| ? [| s ?]]; unfold_M; cbn;
      try reflexivity.
    destruct (Py.int s); cbn; [| reflexivity].
    destruct (find_user_row (sheet w) _) as [r |]; cbn; [| reflexivity].
    destruct (row_at (sheet w) r) as [x |]; [| reflexivity].
    unfold item, ret, raise.
    destruct (row_len x) as [| [| [| [| [| [| n]]]]]]; cbn; try reflexivity.
    destruct (Py.int (col_balance x)); reflexivity. }
  destruct (Py.startswith (data q) "close_"); [now left |].
  destruct (Py.startswith (data q) "confirm_") eqn:Hconfirm.
  { unfold confirm_transfer. unfold_M. cbn.
    destruct (pending_transfers w !! _) as [t |] eqn:Ht; cbn; [| now left].
    destruct (sender_id t =? id (from_user q)) eqn:Hs; cbn; [| now left].
    destruct (row_at (sheet w) (sender_row t)) as [X |] eqn:HX; cbn;
      [| now left].
    destruct (Py.int (col_balance X)) as [b |] eqn:Hb; cbn; [| now left].
    destruct (b <? amount t) eqn:Hlt; cbn; [now left |].
    right. split; [reflexivity |]. exists t, X, b.
    apply Z.eqb_eq in Hs. apply Z.ltb_ge in Hlt. auto. }
  left.
  destruct (Py.startswith (data q) "cancel_"); [| reflexivity].
  unfold cancel_transfer. unfold_M. cbn.
  destruct (pending_transfers w !! _) as [t |]; cbn; [| reflexivity].
  destruct (sender_id t =? id (from_user q)); reflexivity.
Qed.

(** X19.  A button callback that changes the sheet is a confirmation,
    pressed by the sender of a proposal that is pending under the id in
    the callback data, and the sender's stored balance covers the
    proposal's amount.  The history and details views, the close and
    cancel buttons, callbacks with other data, and confirmations by anyone
    else never write to the sheet. *)
Theorem callback_writes_only_on_confirm (q : CallbackQuery) (w : World) :
  sheet (snd (button_callback q w)) <> sheet w ->
  Py.startswith (data q) "confirm_" = true
  /\ exists t X b,
       pending_transfers w !! Py.remove_all "confirm_" (data q) = Some t
       /\ sender_id t = id (from_user q)
       /\ row_at (sheet w) (sender_row t) = Some X
       /\ Py.int (col_balance X) = Some b
       /\ amount t <= b.
Proof.
  intros Hne. destruct (button_callback_sheet q w) as [E | H]; [| exact H].
  contradiction.
Qed.

Lemma callback_writes_only_on_confirm_witness :
  exists t X b,
    pending_transfers Sample.world !! "7_43_200_1793783700.25" = Some t
    /\ sender_id t = 7
    /\ row_at (sheet Sample.world) (sender_row t) = Some X
    /\ Py.int (col_balance X) = Some b
    /\ amount t <= b.
Proof.
  apply (callback_writes_only_on_confirm
           (mkQuery Sample.rev "confirm_7_43_200_1793783700.25") Sample.world).
  vm_compute. discriminate.
Defined.

(** X20.  [clear] acts on a replied-to message only.  Sent without a
    reply, whatever its arguments, also as [/clear @user], the form its
    usage text gives, it changes nothing and answers with the usage text,
    or with the refusal when the user may not modify balances. *)
Theorem clear_needs_reply (w : World) (update : Update) :
  reply_to_message update = None ->
  clear update w
  = (Replied (if can_modify w (effective_user update)
              then UsageClear else OnlyManagersClear), w).
Proof.
  intros Hreply. unfold clear, run. unfold_M. cbn.
  destruct (can_modify w (effective_user update)); cbn; [| reflexivity].
  now rewrite Hreply.
Qed.

Lemma clear_needs_reply_witness :
  clear (mkUpdate Sample.riv None ["@ava"]) Sample.world
  = (Replied UsageClear, Sample.world).
Proof.
  apply (clear_needs_reply Sample.world (mkUpdate Sample.riv None ["@ava"])).
  reflexivity.
Defined.

End Untouched.

(** ** Formatting of amounts and of the breakdown *)

Section Formatting.

Lemma remove_comma_cons (c : ascii) (s : string) :
  Py.remove_all "," (String c s)
  = if Ascii.eqb c "," then Py.remove_all "," s
    else String c (Py.remove_all "," s).
Proof.
  unfold Py.remove_all. cbn [Py.remove_from String.prefix].
  destruct (ascii_dec "," c) as [<- | Hc].
  - now destruct s.
  - apply not_eq_sym, Ascii.eqb_neq in Hc. now rewrite Hc.
Qed.

Lemma rev_onto_contains (c : ascii) (s acc : string) :
  Py.contains c (Py.string_rev_onto s acc)
  = Py.contains c s || Py.contains c acc.
Proof.
  revert acc. induction s as [| a s IH]; intros acc; [reflexivity |].
  cbn [Py.string_rev_onto]. rewrite IH, !contains_cons.
  destruct (Ascii.eqb a c), (Py.contains c s); reflexivity.
Qed.

Lemma rev_onto_twice (s a b : string) :
  Py.string_rev_onto (Py.string_rev_onto s a) b
  = Py.string_rev_onto a (s +:+ b).
Proof.
  revert a b. induction s as [| c s IH]; intros a b; [reflexivity |].
  cbn [Py.string_rev_onto]. rewrite IH. reflexivity.
Qed.

Lemma append_empty (s : string) : s +:+ "" = s.
Proof.
  induction s as [| c s IH]; [reflexivity |].
  change (String c s +:+ "") with (String c (s +:+ "")). now rewrite IH.
Qed.

(** Taking the separators out of the grouped digits gives the digits. *)
Lemma group3_digits (s : string) (k : nat) (acc : string) :
  Py.contains "," s = false ->
  Py.remove_all "," (Py.group3 k s acc)
  = Py.string_rev_onto s (Py.remove_all "," acc).
Proof.
  revert k acc. induction s as [| c s IH]; intros k acc Hs; [reflexivity |].
  rewrite contains_cons in Hs. apply orb_false_iff in Hs as [Hc Hs].
  destruct k as [| [| [| [| k]]]]; cbn [Py.group3 Py.string_rev_onto];
    rewrite IH by assumption; rewrite remove_comma_cons, Hc;
    try reflexivity.
  rewrite remove_comma_cons. reflexivity.
Qed.

(** X21.  [format_money] only inserts separators: with the commas taken
    out, the digits shown are the decimal text of the amount, sign
    included, so the amount shown reads back as the amount stored. *)
Theorem format_money_reads_back (z : Z) :
  format_money z = CURRENCY +:+ Py.format_commas z
  /\ Py.remove_all "," (Py.format_commas z) = Py.str z
  /\ Py.int (Py.remove_all "," (Py.format_commas z)) = Some z.
Proof.
  split; [reflexivity |].
  assert (H : Py.remove_all "," (Py.format_commas z) = Py.str z).
  { assert (Hdigits : forall n,
               Py.remove_all ","
                 (Py.group3 0 (Py.string_rev_onto (Py.str n) "") "")
               = Py.str n).
    { intros n. rewrite group3_digits.
      - change (Py.remove_all "," "") with "".
        rewrite rev_onto_twice. cbn [Py.string_rev_onto]. apply append_empty.
      - rewrite rev_onto_contains, orb_false_r.
        destruct (Py.contains "," (Py.str n)) eqn:E; [| reflexivity].
        apply contains_str in E. discriminate. }
    unfold Py.format_commas. cbv zeta. destruct z as [| p | p].
    - reflexivity.
    - change (Z.pos p <? 0) with false. cbv iota. apply Hdigits.
    - change (Z.neg p <? 0) with true. cbv iota.
      rewrite remove_comma_cons. change (Ascii.eqb "-" ",") with false.
      cbv iota. rewrite Hdigits. reflexivity. }
  split; [exact H |]. rewrite H. apply int_str.
Qed.

Lemma insert_desc_perm (x : string * Z) (l : list (string * Z)) :
  insert_desc x l ≡ₚ x :: l.
Proof.
  induction l as [| y l IH]; cbn; [reflexivity |].
  destruct (snd y <=? snd x); [reflexivity |].
  rewrite IH. apply Permutation_swap.
Qed.

Lemma insert_desc_sorted (x : string * Z) (l : list (string * Z)) :
  StronglySorted (fun a b => snd b <= snd a) l ->
  StronglySorted (fun a b => snd b <= snd a) (insert_desc x l).
Proof.
  induction 1 as [| y l Hl IH Hy]; cbn; [repeat constructor |].
  destruct (snd y <=? snd x) eqn:E.
  - apply Z.leb_le in E. constructor; [now constructor |].
    constructor; [exact E |].
    eapply Forall_impl; [exact Hy |]. cbn. intros; lia.
  - apply Z.leb_gt in E. constructor; [exact IH |].
    rewrite insert_desc_perm. constructor; [lia | exact Hy].
Qed.

Lemma insert_desc_stable (v : Z) (x : string * Z) (l : list (string * Z)) :
  filter (fun kv => snd kv = v) (insert_desc x l)
  = filter (fun kv => snd kv = v) (x :: l).
Proof.
  induction l as [| y l IH]; cbn [insert_desc]; [reflexivity |].
  destruct (snd y <=? snd x) eqn:E; [reflexivity |].
  apply Z.leb_gt in E.
  rewrite (filter_cons _ y), IH, !(filter_cons _ x), (filter_cons _ y).
  repeat case_decide; try reflexivity. lia.
Qed.

(** X22.  The contribution breakdown has one line per contributor of the
    account, the largest amount first, contributors of equal amounts in
    the order in which the account stores them. *)
Theorem breakdown_order (sh : list Row) (r : nat) (x : Row) (d : dict) :
  row_at sh r = Some x ->
  col_advance x = JText d ->
  exists l,
    get_contribution_breakdown sh r = String.concat "" (map breakdown_line l)
    /\ l ≡ₚ d
    /\ StronglySorted (fun a b => snd b <= snd a) l
    /\ forall v, filter (fun kv => snd kv = v) l
                 = filter (fun kv => snd kv = v) d.
Proof.
  intros Hx Hd. exists (sorted_desc d).
  unfold get_contribution_breakdown. rewrite Hx, Hd.
  split; [reflexivity |].
  unfold sorted_desc. clear Hx Hd.
  induction d as [| kv d (Hp & Hs & Hf)]; cbn [foldr].
  - repeat split; constructor.
  - split; [now rewrite insert_desc_perm, Hp |].
    split; [now apply insert_desc_sorted |].
    intros v. rewrite insert_desc_stable, !filter_cons, Hf. reflexivity.
Qed.

Lemma breakdown_order_witness :
  exists l,
    get_contribution_breakdown
      [ blank_row;
        mkRow "42" "Ava" "@ava" "" "900" "" ""
              (JText [("Riv", 200); ("Rev", 500); ("Cy", 200)]) ] 2
    = String.concat "" (map breakdown_line l)
    /\ l ≡ₚ [("Riv", 200); ("Rev", 500); ("Cy", 200)]
    /\ StronglySorted (fun a b => snd b <= snd a) l
    /\ forall v, filter (fun kv => snd kv = v) l
                 = filter (fun kv => snd kv = v)
                     [("Riv", 200); ("Rev", 500); ("Cy", 200)].
Proof.
  apply (breakdown_order _ 2%nat
           (mkRow "42" "Ava" "@ava" "" "900" "" ""
                  (JText [("Riv", 200); ("Rev", 500); ("Cy", 200)])));
    reflexivity.
Defined.

End Formatting.

(** ** [bal] and [check] *)

Section BalCheck.

Lemma check_display_reads (r : nat) (w : World) : snd (check_display r w) = w.
Proof.
  unfold check_display. unfold_M.
  destruct (row_at (sheet w) r) as [x |]; cbn; [| reflexivity].
  unfold item, ret, raise.
  destruct (row_len x) as [| [| [| [| [| [| n]]]]]]; cbn; try reflexivity.
  destruct (Py.int (col_balance x)); reflexivity.
Qed.

(** X23.  [bal] and [check] never change the state, whoever asks and
    whatever they answer or raise. *)
Theorem views_read_only (update : Update) (w : World) :
  snd (bal update w) = w /\ snd (check update w) = w.
Proof.
  split.
  - unfold bal. unfold_M. cbn.
    destruct (find_user_row (sheet w) _) as [r |]; cbn; [| reflexivity].
    destruct (row_at (sheet w) r) as [x |]; cbn; [| reflexivity].
    unfold item, ret, raise.
    destruct (row_len x) as [| [| [| [| [| [| n]]]]]]; cbn; try reflexivity.
    destruct (Py.int (col_balance x)); reflexivity.
  - unfold check. unfold mbind, M_bind, bind, mret, M_ret, ret, get. cbn.
    destruct (can_modify w (effective_user update)); cbn; [| reflexivity].
    destruct (reply_to_message update) as [target |].
    + destruct (find_user_row (sheet w) (id target)) as [r |]; cbn;
        [apply check_display_reads | reflexivity].
    + destruct (args update) as [| a0 rest]; cbn; [reflexivity |].
      destruct (Py.startswith a0 "@"); cbn; [| reflexivity].
      destruct (find_user_by_username (sheet w) a0) as [r |]; cbn;
        [apply check_display_reads | reflexivity].
Qed.

Lemma check_display_complete (w : World) (r : nat) (X : Row) (b : Z) :
  row_at (sheet w) r = Some X ->
  (6 <= row_len X)%nat ->
  Py.int (col_balance X) = Some b ->
  check_display r w
  = (inr (CheckedAccount (col_name X) (col_username X) (col_id X)
            (format_money b) (get_contribution_breakdown (sheet w) r)
            (col_updated X) ("tx_" +:+ col_id X) ("close_" +:+ col_id X)), w).
Proof.
  intros HX Hlen Hb. unfold check_display. unfold_M. rewrite HX. cbn.
  rewrite !item_ok by lia. unfold ret. cbn. rewrite Hb. reflexivity.
Qed.

(** X24.  [check], asked by a user who may modify balances, by reply or
    by mention, for an account whose row holds the six leading cells and
    an integer balance: it answers with the name, handle, id, balance,
    contribution breakdown and time of last update of the row, and its
    two buttons carry the id cell of the row.  If that id is the one under
    which the account is found, the Transactions button, pressed by
    anyone, answers with the log of the same row, and the Back button
    under the log with the same details again. *)
Theorem check_shows_account
    (w : World) (update : Update) (r : nat) (X : Row) (b : Z) :
  can_modify w (effective_user update) = true ->
  ((exists target,
       reply_to_message update = Some target
       /\ find_user_row (sheet w) (id target) = Some r)
   \/ (reply_to_message update = None
       /\ exists a0 rest,
            args update = a0 :: rest
            /\ Py.startswith a0 "@" = true
            /\ find_user_by_username (sheet w) a0 = Some r)) ->
  row_at (sheet w) r = Some X ->
  (6 <= row_len X)%nat ->
  Py.int (col_balance X) = Some b ->
  check update w
  = (inr (CheckedAccount (col_name X) (col_username X) (col_id X)
            (format_money b) (get_contribution_breakdown (sheet w) r)
            (col_updated X) ("tx_" +:+ col_id X) ("close_" +:+ col_id X)), w)
  /\ forall uid user,
       col_id X = Py.str uid ->
       find_user_row (sheet w) uid = Some r ->
       button_callback (mkQuery user ("tx_" +:+ col_id X)) w
       = (Replied (TransactionHistory (tx_display (tx_list (col_tx X)))
                                      (length (tx_list (col_tx X)))), w)
       /\ button_callback (mkQuery user ("back_" +:+ col_id X)) w
          = (Replied (AccountDetails (col_name X) (col_username X) (col_id X)
                        (format_money b)
                        (get_contribution_breakdown (sheet w) r)
                        (col_updated X)), w).
Proof.
  intros Hcan Hmode HX Hlen Hb. split.
  - unfold check. unfold mbind, M_bind, bind, mret, M_ret, ret, get. cbn.
    rewrite Hcan. cbn.
    destruct Hmode as [(target & -> & Hfind) | (-> & a0 & rest & -> & Hat & Hfind)].
    + rewrite Hfind. cbn.
      rewrite (check_display_complete w r X b HX Hlen Hb). reflexivity.
    + rewrite Hat. cbn. rewrite Hfind. cbn.
      rewrite (check_display_complete w r X b HX Hlen Hb). reflexivity.
  - intros uid user Hid Hfind. rewrite Hid.
    destruct (view_callbacks w user uid r X Hfind HX) as [Htx Hback].
    split; [exact Htx |]. rewrite <- Hid. rewrite Hid at 1. now apply Hback.
Qed.

Lemma check_shows_account_witness :
  check (mkUpdate Sample.riv None ["@AVA"]) Sample.world
  = (inr (CheckedAccount "Ava" "@ava" "42" "₱500"
            (get_contribution_breakdown (sheet Sample.world) 2)
            "11-03-2026, 08:00 PM" "tx_42" "close_42"), Sample.world).
Proof.
  apply (check_shows_account Sample.world (mkUpdate Sample.riv None ["@AVA"])
           2%nat
           (mkRow "42" "Ava" "@ava" (profile_link 42 "Ava") "500"
                  "11-03-2026, 08:00 PM" "11-03-2026, 08:00 PM + ₱500 Riv"
                  (JText [("Riv", 500)])) 500);
    try (vm_compute; reflexivity).
  - right. split; [reflexivity |]. exists "@AVA", [].
    repeat split; vm_compute; reflexivity.
  - vm_compute. lia.
Defined.

(** X25.  [bal] answers the user with the account found under the
    user's own id: name, handle, balance and time of last update of the
    row, with a Transactions button that opens the log of that row.  It
    raises [IndexError] when the row ends before its sixth cell, and
    [ValueError] when the balance cell is not an integer; a user without
    an account is told so. *)
Theorem bal_shows_account (w : World) (update : Update) :
  match find_user_row (sheet w) (id (effective_user update)) with
  | None => bal update w = (inr NoAccountUseNew, w)
  | Some r =>
      forall X,
        row_at (sheet w) r = Some X ->
        ((row_len X < 6)%nat -> bal update w = (inl (Raised IndexError), w))
        /\ ((6 <= row_len X)%nat ->
            match Py.int (col_balance X) with
            | None => bal update w = (inl (Raised ValueError), w)
            | Some b =>
                bal update w
                = (inr (OwnAccount (col_name X) (col_username X)
                          (id (effective_user update)) (format_money b)
                          (col_updated X)
                          ("tx_" +:+ Py.str (id (effective_user update)))
                          ("close_" +:+ Py.str (id (effective_user update)))),
                   w)
                /\ forall user,
                     button_callback
                       (mkQuery user
                          ("tx_" +:+ Py.str (id (effective_user update)))) w
                     = (Replied
                          (TransactionHistory
                             (tx_display (tx_list (col_tx X)))
                             (length (tx_list (col_tx X)))), w)
            end)
  end.
Proof.
  destruct (find_user_row (sheet w) (id (effective_user update))) as [r |] eqn:Hfind.
  - intros X HX. split.
    + intros Hlen. unfold bal. unfold_M. cbn. rewrite Hfind. cbn. rewrite HX.
      cbn. unfold item, ret, raise.
      destruct (row_len X) as [| [| [| [| [| [| n]]]]]]; cbn;
        first [reflexivity | lia].
    + intros Hlen.
      assert (Hrun : bal update w
                     = match Py.int (col_balance X) with
                       | None => (inl (Raised ValueError), w)
                       | Some b =>
                           (inr (OwnAccount (col_name X) (col_username X)
                                   (id (effective_user update)) (format_money b)
                                   (col_updated X)
                                   ("tx_" +:+ Py.str (id (effective_user update)))
                                   ("close_" +:+ Py.str (id (effective_user update)))),
                            w)
                       end).
      { unfold bal. unfold_M. cbn. rewrite Hfind. cbn. rewrite HX. cbn.
        rewrite !item_ok by lia. unfold ret. cbn.
        destruct (Py.int (col_balance X)); reflexivity. }
      destruct (Py.int (col_balance X)) as [b |]; [| exact Hrun].
      split; [exact Hrun |]. intros user.
      exact (proj1 (view_callbacks w user _ r X Hfind HX)).
  - unfold bal. unfold_M. cbn. rewrite Hfind. reflexivity.
Qed.

Lemma bal_shows_account_witness :
  bal (mkUpdate Sample.bob None []) Sample.world
  = (inr (OwnAccount "Bob" "@bob" 43 "₱0" "11-02-2026, 07:30 AM"
            "tx_43" "close_43"), Sample.world).
Proof.
  assert (Hf : find_user_row (sheet Sample.world) 43 = Some 3%nat)
    by (vm_compute; reflexivity).
  pose proof (bal_shows_account Sample.world (mkUpdate Sample.bob None [])) as H.
  cbn [effective_user id Sample.bob] in H. rewrite Hf in H.
  destruct (H (mkRow "43" "Bob" "@bob" (profile_link 43 "Bob") "0"
                     "11-02-2026, 07:30 AM" "" JBlank))
    as [_ Hshow]; [vm_compute; reflexivity |].
  apply Hshow. vm_compute. lia.
Defined.

End BalCheck.

Section NewThenBal.

Transparent row_at.

Lemma row_at_snoc (sh : list Row) (x : Row) :
  row_at (sh ++ [x]) (S (length sh)) = Some x.
Proof.
  cbn. rewrite lookup_app_r by lia. now rewrite Nat.sub_diag.
Qed.

Opaque row_at.

(** X26.  An account that [new] has just created can be viewed: as long
    as the clock's text is not blank, [bal], asked by the new account
    holder, shows the name and handle that [new] stored, a balance of 0
    and the time of creation, and raises nothing. *)
Theorem new_then_bal (w : World) (update asks : Update) (target : User) :
  can_modify w (effective_user update) = true ->
  reply_to_message update = Some target ->
  find_user_row (sheet w) (id target) = None ->
  Py.truthy (strftime (clock w (ticks w))) = true ->
  effective_user asks = target ->
  fst (bal asks (snd (new update w)))
  = inr (OwnAccount
           (if Py.truthy (full_name target) then full_name target
            else first_name target)
           match username target with
           | Some h => if Py.truthy h then "@" +:+ h else ""
           | None => ""
           end
           (id target) (format_money 0) (strftime (clock w (ticks w)))
           ("tx_" +:+ Py.str (id target)) ("close_" +:+ Py.str (id target))).
Proof.
  intros Hcan Hreply Hnone Hclock Hasks.
  assert (Hnew : snd (new update w)
                 = with_sheet
                     (sheet w
                      ++ [mkRow (Py.str (id target))
                                (if Py.truthy (full_name target)
                                 then full_name target else first_name target)
                                match username target with
                                | Some h => if Py.truthy h then "@" +:+ h else ""
                                | None => ""
                                end
                                (profile_link (id target) (first_name target))
                                "0" (strftime (clock w (ticks w))) "" JBlank])
                     (with_ticks (S (ticks w)) w)).
  { unfold new, run. unfold_M. cbn. rewrite Hcan. cbn. rewrite Hreply. cbn.
    rewrite Hnone. reflexivity. }
  rewrite Hnew.
  set (x := mkRow _ _ _ _ _ _ _ _).
  assert (Hfound : find_user_row (sheet w ++ [x]) (id target)
                   = Some (S (length (sheet w)))).
  { unfold find_user_row in *. cbv zeta in *.
    rewrite col_lookup_snoc; [reflexivity | | |].
    - pose proof (str_truthy (id target)) as H.
      destruct (Py.str (id target)); [discriminate | reflexivity].
    - destruct (index_where _ (col_values (sheet w) 1)); [discriminate | reflexivity].
    - cbn. apply String.eqb_refl. }
  assert (Hlen : (6 <= row_len x)%nat).
  { unfold row_len. subst x. cbn [col_advance seq map text_cell col_id col_name
      col_username col_link col_balance col_updated col_tx].
    destruct (strftime (clock w (ticks w))) as [| c t]; [discriminate |].
    cbn [trim_blank Py.truthy].
    repeat match goal with
           | |- context [match ?l with [] => _ | _ :: _ => _ end] =>
               first [is_var l; fail 1 | destruct l; cbn [length]; try lia]
           end; cbn [length]; lia. }
  unfold bal. unfold_M. cbn. rewrite Hasks.
  cbn [sheet with_sheet with_ticks]. rewrite Hfound. cbn.
  rewrite row_at_snoc. cbn.
  rewrite !item_ok by (eapply Nat.lt_le_trans; [| exact Hlen]; lia).
  unfold ret. reflexivity.
Qed.

Lemma new_then_bal_witness :
  fst (bal (mkUpdate Sample.cy None [])
         (snd (new (mkUpdate Sample.riv (Some Sample.cy) []) Sample.world)))
  = inr (OwnAccount "Cy" "@cy" 44 "₱0"
           (strftime (clock Sample.world (ticks Sample.world)))
           "tx_44" "close_44").
Proof.
  apply (new_then_bal Sample.world (mkUpdate Sample.riv (Some Sample.cy) [])
           (mkUpdate Sample.cy None []) Sample.cy);
    vm_compute; reflexivity.
Defined.

End NewThenBal.

(** ** Confirming in a reachable state *)

Section ReachableConfirm.

Transparent row_at.

Lemma row_at_lookup (sh : list Row) (i : nat) (x y : Row) :
  row_at sh (S i) = Some x -> sh !! i = Some y -> x = y.
Proof. cbn. intros Hx Hy. rewrite Hy in Hx. cbn in Hx. congruence. Qed.

Opaque row_at.

(** X27.  A confirmation in any state the bot reaches.  When the
    proposal is pending, the confirming user is its sender and the
    sender's balance covers the amount, and the target's balance cell
    holds an integer, the transfer succeeds; that the two rows differ and
    hold the accounts meant need not be assumed: the amount leaves the
    account found
    under the confirming user's id and arrives in a different account,
    the one that carries the id and the name the proposal was made for;
    all other rows stay as they were. *)
Theorem confirm_in_reachable_state
    (es : list Event) (w0 : World) (query : CallbackQuery) (t : Transfer)
    (X Y : Row) (bx bY : Z) :
  Py.startswith (data query) "confirm_" = true ->
  pending_transfers (run_events es (startup w0))
    !! Py.remove_all "confirm_" (data query) = Some t ->
  sender_id t = id (from_user query) ->
  row_at (sheet (run_events es (startup w0))) (sender_row t) = Some X ->
  Py.int (col_balance X) = Some bx ->
  amount t <= bx ->
  row_at (sheet (run_events es (startup w0))) (target_row t) = Some Y ->
  Py.int (col_balance Y) = Some bY ->
  exists w' X' Y',
    button_callback query (run_events es (startup w0))
    = (Replied (TransferSuccessful (amount t) (target_name t) (bx - amount t)),
       w')
    /\ find_user_row (sheet w') (id (from_user query)) = Some (sender_row t)
    /\ row_at (sheet w') (sender_row t) = Some X'
    /\ Py.int (col_balance X') = Some (bx - amount t)
    /\ row_at (sheet w') (target_row t) = Some Y'
    /\ col_id Y' = target_id t /\ col_name Y' = target_name t
    /\ col_id Y' <> col_id X'
    /\ Py.int (col_balance Y') = Some (bY + amount t)
    /\ (forall r, r <> sender_row t -> r <> target_row t ->
                  row_at (sheet w') r
                  = row_at (sheet (run_events es (startup w0))) r).
Proof.
  generalize (points_at_reachable es w0).
  generalize (run_events es (startup w0)). intros w Hinv.
  intros Hc Hp Hs HX Hbx Hle HY HbY.
  destruct (Hinv _ _ Hp) as (Hfind & Hne & i & y & Hr & Hy & Hid & Hname).
  rewrite Hr in HY. pose proof (row_at_lookup _ _ _ _ HY Hy) as <-.
  rewrite <- Hr in HY.
  destruct (find_user_row_spec _ _ _ Hfind) as (X0 & HX0 & HidX).
  rewrite HX in HX0. injection HX0 as <-.
  assert (Hrows : sender_row t <> target_row t).
  { intros E. rewrite E in HX. rewrite HY in HX. injection HX as ->.
    congruence. }
  pose proof (confirm_success w (from_user query) _ t Hp Hs X bx HX Hbx Y bY
                HY HbY Hrows Hle) as Hok.
  cbv zeta in Hok. destruct Hok as (w' & Hrun & HX' & HY' & Hrest & _).
  pose proof (sheet_extends_step (OnButton query) w) as Hext.
  cbn [dispatch] in Hext.
  rewrite button_callback_confirm in * by assumption.
  unfold run in *. rewrite Hrun in *. cbn [snd] in Hext.
  eexists w', _, _. split; [reflexivity |].
  split; [rewrite <- Hs; now apply (find_user_row_extends (sheet w)) |].
  split; [exact HX' |].
  split; [cbn [set_text_cell col_balance]; apply int_str |].
  split; [exact HY' |].
  cbn [set_text_cell col_id col_name col_balance].
  repeat split; try assumption; [congruence | apply int_str].
Qed.

Lemma confirm_in_reachable_state_witness :
  exists w' X' Y',
    button_callback (mkQuery Sample.rev "confirm_7_43_200_1793783700.25")
      (run_events [OnTransfer (mkUpdate Sample.rev None ["@bob"; "200"])]
                  (startup Sample.world))
    = (Replied (TransferSuccessful 200 "Bob" (300 - 200)), w')
    /\ find_user_row (sheet w') 7 = Some 4%nat
    /\ row_at (sheet w') 4 = Some X'
    /\ Py.int (col_balance X') = Some (300 - 200)
    /\ row_at (sheet w') 3 = Some Y'
    /\ col_id Y' = "43" /\ col_name Y' = "Bob"
    /\ col_id Y' <> col_id X'
    /\ Py.int (col_balance Y') = Some (0 + 200)
    /\ (forall r, r <> 4%nat -> r <> 3%nat ->
                  row_at (sheet w') r
                  = row_at (sheet (run_events
                                     [OnTransfer (mkUpdate Sample.rev None
                                                    ["@bob"; "200"])]
                                     (startup Sample.world))) r).
Proof.
  apply (confirm_in_reachable_state
           [OnTransfer (mkUpdate Sample.rev None ["@bob"; "200"])]
           Sample.world
           (mkQuery Sample.rev "confirm_7_43_200_1793783700.25")
           (mkTransfer 7 4 "43" 3 "Bob" 200)
           (mkRow "7" "Rev" "@reviosa" (profile_link 7 "Rev") "300"
                  "11-03-2026, 09:00 PM" "11-03-2026, 09:00 PM + ₱300 Riv"
                  (JText [("Riv", 300)]))
           (mkRow "43" "Bob" "@bob" (profile_link 43 "Bob") "0"
                  "11-02-2026, 07:30 AM" "" JBlank) 300 0);
    first [ vm_compute; reflexivity | vm_compute; discriminate ].
Defined.

End ReachableConfirm.
